(** * KICKZ Drum: a shallow embedding of the FM kick-drum voice (synth.h)

    The class [Synth] of synth.h is embedded as a record of its member
    variables together with one function per method.  Methods that mutate
    the object take the object and return the new one.

    Numbers.  The methods are embedded twice.  In the first embedding the
    single-precision members are real numbers: arithmetic is exact,
    [std::sin] and [std::tanh] are the real sine and hyperbolic tangent,
    and the literal [k_pi] is the number pi; rounding and overflow are
    outside it.  The one place where the source divides by a value that
    the parameter ranges allow to be zero,
    [1.f / (t / 1000.f * k_samplerate)], is embedded with its IEEE result
    written out (see [recip]).  In the second embedding (module [F32]) the
    members are IEEE binary32 numbers with their infinities and NaN, every
    operation rounds to nearest-even, and [std::sin] and [std::tanh] are
    arbitrary functions.  The record of member variables is shared and
    generic in the number type.  Integer members keep their width: an
    [int32_t] stored into a [uint8_t] is reduced modulo 256.

    [std::rand] is embedded as a stream [rnd : nat -> Z] of the values it
    returns, together with the number of calls made so far. *)

From Stdlib Require Import Reals Lra Lia ZArith List String Bool Psatz SpecFloat.
Import ListNotations.
Local Open Scope R_scope.

(** ** Constants and wave shapes *)

Definition k_pi : R := PI.
Definition k_twopi : R := 2 * k_pi.
Definition k_samplerate : R := 48000.

(* enum { k_wave_sine = 0, ... , k_num_waves } *)
Definition k_wave_sine : Z := 0.
Definition k_wave_saw : Z := 1.
Definition k_wave_triangle : Z := 2.
Definition k_wave_pulse : Z := 3.
Definition k_wave_noise : Z := 4.
Definition k_num_waves : Z := 5.

(* Comparisons of the source, as booleans. *)
Definition Rgeb (x y : R) : bool := if Rge_dec x y then true else false.
Definition Rgtb (x y : R) : bool := if Rgt_dec x y then true else false.
Definition Rleb (x y : R) : bool := if Rle_dec x y then true else false.
Definition Rltb (x y : R) : bool := if Rlt_dec x y then true else false.

Definition waveformSine (phase : R) : R := sin (phase * k_twopi).

Definition waveformSaw (phase : R) : R := 2 * phase - 1.

Definition waveformTriangle (phase : R) : R :=
  let ramp := 2 * phase - 1 in
  2 * (Rabs ramp - 0.5).

Definition waveformPulse (phase width : R) : R :=
  if Rltb phase width then 1 else -1.

(* ((std::rand() & 0xFFFF) / 32768.0f) * 2.0f - 1.0f, on the value [r]
   that std::rand returned. *)
Definition waveformNoise (r : Z) : R :=
  (IZR (Z.land r 65535) / 32768) * 2 - 1.

Definition s_waveform_names : list string :=
  ["Sine"; "Saw"; "Triangle"; "Pulse"; "Noise"]%string.

Definition s_preset_names : list string :=
  ["Basic"; "Punchy"; "Sub Bass"; "FM Kick"; "Noise Attack"]%string.

(* Parameter-Indizes *)
Definition k_param_pitch : Z := 0.
Definition k_param_decay : Z := 1.
Definition k_param_body_level : Z := 2.
Definition k_param_drive : Z := 3.
Definition k_param_attack : Z := 4.
Definition k_param_release : Z := 5.
Definition k_param_pitch_curve : Z := 6.
Definition k_param_click_level : Z := 7.
Definition k_param_click_freq : Z := 8.
Definition k_param_click_decay : Z := 9.
Definition k_param_click_tone : Z := 10.
Definition k_param_filter_enabled : Z := 11.
Definition k_param_filter_cutoff : Z := 12.
Definition k_param_filter_resonance : Z := 13.
Definition k_param_filter_mode : Z := 14.
Definition k_param_osc2_enabled : Z := 15.
Definition k_param_osc2_waveform : Z := 16.
Definition k_param_osc2_pitch : Z := 17.
Definition k_param_osc2_level : Z := 18.
Definition k_param_fm_amount : Z := 19.
Definition k_param_fm_ratio : Z := 20.
Definition k_param_osc2_decay : Z := 21.

(* Preset-Indizes *)
Definition k_preset_basic : Z := 0.
Definition k_preset_punchy : Z := 1.
Definition k_preset_sub : Z := 2.
Definition k_preset_fm_kick : Z := 3.
Definition k_preset_noise_attack : Z := 4.

(* enum { k_state_off = 0, k_state_attack, k_state_decay, k_state_release } *)
Inductive env_state : Type :=
  | k_state_off
  | k_state_attack
  | k_state_decay
  | k_state_release.

Definition is_off (st : env_state) : bool :=
  match st with k_state_off => true | _ => false end.

(* (uint8_t)value for an int32_t value. *)
Definition to_uint8 (value : Z) : Z := value mod 256.

(** ** The object

    One field per member variable, in the order of the class; the array
    [filter_state_[4]] is four fields.  The member [flags_] is never read
    or written by any method and is left out.  The record is generic in the
    type [F] that stands for [float]. *)

Record Synth_ (F : Type) : Type := mkSynth {
  phase1_ : F;  (* Phase des Hauptoszillators *)
  phase2_ : F;  (* Phase des zweiten Oszillators *)
  click_phase_ : F;  (* Phase des Click-Oszillators *)
  envelope_ : F;  (* Amplituden-Envelope *)
  pitch_envelope_ : F;  (* Pitch-Envelope *)
  osc2_envelope_ : F;  (* Envelope des zweiten Oszillators *)
  click_envelope_ : F;  (* Envelope des Clicks *)
  envelope_state_ : env_state;
  current_note_ : Z;  (* uint8_t *)
  current_velocity_ : F;
  preset_index_ : Z;  (* uint8_t *)
  pitch_ : F;
  decay_ : F;
  pitch_curve_ : F;
  body_level_ : F;
  drive_ : F;
  attack_ : F;
  release_ : F;
  click_level_ : F;
  click_freq_ : F;
  click_decay_ : F;
  click_tone_ : F;
  last_noise_ : F;
  filter_enabled_ : bool;
  filter_cutoff_ : F;
  filter_resonance_ : F;
  filter_mode_24db_ : bool;
  filter_state_0 : F;  (* filter_state_[0] *)
  filter_state_1 : F;  (* filter_state_[1] *)
  filter_state_2 : F;  (* filter_state_[2] *)
  filter_state_3 : F;  (* filter_state_[3] *)
  osc2_enabled_ : Z;  (* uint8_t *)
  osc2_waveform_ : Z;  (* uint8_t *)
  osc2_pitch_ : F;
  osc2_level_ : F;
  fm_amount_ : F;
  fm_ratio_ : F;
  osc2_decay_ : F;
  pulse_width_ : F
}.

Arguments mkSynth {F}.
Arguments phase1_ {F} s : rename.
Arguments phase2_ {F} s : rename.
Arguments click_phase_ {F} s : rename.
Arguments envelope_ {F} s : rename.
Arguments pitch_envelope_ {F} s : rename.
Arguments osc2_envelope_ {F} s : rename.
Arguments click_envelope_ {F} s : rename.
Arguments envelope_state_ {F} s : rename.
Arguments current_note_ {F} s : rename.
Arguments current_velocity_ {F} s : rename.
Arguments preset_index_ {F} s : rename.
Arguments pitch_ {F} s : rename.
Arguments decay_ {F} s : rename.
Arguments pitch_curve_ {F} s : rename.
Arguments body_level_ {F} s : rename.
Arguments drive_ {F} s : rename.
Arguments attack_ {F} s : rename.
Arguments release_ {F} s : rename.
Arguments click_level_ {F} s : rename.
Arguments click_freq_ {F} s : rename.
Arguments click_decay_ {F} s : rename.
Arguments click_tone_ {F} s : rename.
Arguments last_noise_ {F} s : rename.
Arguments filter_enabled_ {F} s : rename.
Arguments filter_cutoff_ {F} s : rename.
Arguments filter_resonance_ {F} s : rename.
Arguments filter_mode_24db_ {F} s : rename.
Arguments filter_state_0 {F} s : rename.
Arguments filter_state_1 {F} s : rename.
Arguments filter_state_2 {F} s : rename.
Arguments filter_state_3 {F} s : rename.
Arguments osc2_enabled_ {F} s : rename.
Arguments osc2_waveform_ {F} s : rename.
Arguments osc2_pitch_ {F} s : rename.
Arguments osc2_level_ {F} s : rename.
Arguments fm_amount_ {F} s : rename.
Arguments fm_ratio_ {F} s : rename.
Arguments osc2_decay_ {F} s : rename.
Arguments pulse_width_ {F} s : rename.

Definition set_phase1_ {F : Type} (v : F) (s : Synth_ F) : Synth_ F :=
  {| phase1_ := v; phase2_ := phase2_ s; click_phase_ := click_phase_ s;
     envelope_ := envelope_ s; pitch_envelope_ := pitch_envelope_ s;
     osc2_envelope_ := osc2_envelope_ s; click_envelope_ := click_envelope_ s;
     envelope_state_ := envelope_state_ s; current_note_ := current_note_ s;
     current_velocity_ := current_velocity_ s; preset_index_ := preset_index_ s;
     pitch_ := pitch_ s; decay_ := decay_ s; pitch_curve_ := pitch_curve_ s;
     body_level_ := body_level_ s; drive_ := drive_ s; attack_ := attack_ s;
     release_ := release_ s; click_level_ := click_level_ s; click_freq_ := click_freq_ s;
     click_decay_ := click_decay_ s; click_tone_ := click_tone_ s; last_noise_ := last_noise_ s;
     filter_enabled_ := filter_enabled_ s; filter_cutoff_ := filter_cutoff_ s;
     filter_resonance_ := filter_resonance_ s; filter_mode_24db_ := filter_mode_24db_ s;
     filter_state_0 := filter_state_0 s; filter_state_1 := filter_state_1 s;
     filter_state_2 := filter_state_2 s; filter_state_3 := filter_state_3 s;
     osc2_enabled_ := osc2_enabled_ s; osc2_waveform_ := osc2_waveform_ s;
     osc2_pitch_ := osc2_pitch_ s; osc2_level_ := osc2_level_ s; fm_amount_ := fm_amount_ s;
     fm_ratio_ := fm_ratio_ s; osc2_decay_ := osc2_decay_ s; pulse_width_ := pulse_width_ s |}.

Definition set_phase2_ {F : Type} (v : F) (s : Synth_ F) : Synth_ F :=
  {| phase1_ := phase1_ s; phase2_ := v; click_phase_ := click_phase_ s;
     envelope_ := envelope_ s; pitch_envelope_ := pitch_envelope_ s;
     osc2_envelope_ := osc2_envelope_ s; click_envelope_ := click_envelope_ s;
     envelope_state_ := envelope_state_ s; current_note_ := current_note_ s;
     current_velocity_ := current_velocity_ s; preset_index_ := preset_index_ s;
     pitch_ := pitch_ s; decay_ := decay_ s; pitch_curve_ := pitch_curve_ s;
     body_level_ := body_level_ s; drive_ := drive_ s; attack_ := attack_ s;
     release_ := release_ s; click_level_ := click_level_ s; click_freq_ := click_freq_ s;
     click_decay_ := click_decay_ s; click_tone_ := click_tone_ s; last_noise_ := last_noise_ s;
     filter_enabled_ := filter_enabled_ s; filter_cutoff_ := filter_cutoff_ s;
     filter_resonance_ := filter_resonance_ s; filter_mode_24db_ := filter_mode_24db_ s;
     filter_state_0 := filter_state_0 s; filter_state_1 := filter_state_1 s;
     filter_state_2 := filter_state_2 s; filter_state_3 := filter_state_3 s;
     osc2_enabled_ := osc2_enabled_ s; osc2_waveform_ := osc2_waveform_ s;
     osc2_pitch_ := osc2_pitch_ s; osc2_level_ := osc2_level_ s; fm_amount_ := fm_amount_ s;
     fm_ratio_ := fm_ratio_ s; osc2_decay_ := osc2_decay_ s; pulse_width_ := pulse_width_ s |}.

Definition set_click_phase_ {F : Type} (v : F) (s : Synth_ F) : Synth_ F :=
  {| phase1_ := phase1_ s; phase2_ := phase2_ s; click_phase_ := v; envelope_ := envelope_ s;
     pitch_envelope_ := pitch_envelope_ s; osc2_envelope_ := osc2_envelope_ s;
     click_envelope_ := click_envelope_ s; envelope_state_ := envelope_state_ s;
     current_note_ := current_note_ s; current_velocity_ := current_velocity_ s;
     preset_index_ := preset_index_ s; pitch_ := pitch_ s; decay_ := decay_ s;
     pitch_curve_ := pitch_curve_ s; body_level_ := body_level_ s; drive_ := drive_ s;
     attack_ := attack_ s; release_ := release_ s; click_level_ := click_level_ s;
     click_freq_ := click_freq_ s; click_decay_ := click_decay_ s; click_tone_ := click_tone_ s;
     last_noise_ := last_noise_ s; filter_enabled_ := filter_enabled_ s;
     filter_cutoff_ := filter_cutoff_ s; filter_resonance_ := filter_resonance_ s;
     filter_mode_24db_ := filter_mode_24db_ s; filter_state_0 := filter_state_0 s;
     filter_state_1 := filter_state_1 s; filter_state_2 := filter_state_2 s;
     filter_state_3 := filter_state_3 s; osc2_enabled_ := osc2_enabled_ s;
     osc2_waveform_ := osc2_waveform_ s; osc2_pitch_ := osc2_pitch_ s;
     osc2_level_ := osc2_level_ s; fm_amount_ := fm_amount_ s; fm_ratio_ := fm_ratio_ s;
     osc2_decay_ := osc2_decay_ s; pulse_width_ := pulse_width_ s |}.

Definition set_envelope_ {F : Type} (v : F) (s : Synth_ F) : Synth_ F :=
  {| phase1_ := phase1_ s; phase2_ := phase2_ s; click_phase_ := click_phase_ s; envelope_ := v;
     pitch_envelope_ := pitch_envelope_ s; osc2_envelope_ := osc2_envelope_ s;
     click_envelope_ := click_envelope_ s; envelope_state_ := envelope_state_ s;
     current_note_ := current_note_ s; current_velocity_ := current_velocity_ s;
     preset_index_ := preset_index_ s; pitch_ := pitch_ s; decay_ := decay_ s;
     pitch_curve_ := pitch_curve_ s; body_level_ := body_level_ s; drive_ := drive_ s;
     attack_ := attack_ s; release_ := release_ s; click_level_ := click_level_ s;
     click_freq_ := click_freq_ s; click_decay_ := click_decay_ s; click_tone_ := click_tone_ s;
     last_noise_ := last_noise_ s; filter_enabled_ := filter_enabled_ s;
     filter_cutoff_ := filter_cutoff_ s; filter_resonance_ := filter_resonance_ s;
     filter_mode_24db_ := filter_mode_24db_ s; filter_state_0 := filter_state_0 s;
     filter_state_1 := filter_state_1 s; filter_state_2 := filter_state_2 s;
     filter_state_3 := filter_state_3 s; osc2_enabled_ := osc2_enabled_ s;
     osc2_waveform_ := osc2_waveform_ s; osc2_pitch_ := osc2_pitch_ s;
     osc2_level_ := osc2_level_ s; fm_amount_ := fm_amount_ s; fm_ratio_ := fm_ratio_ s;
     osc2_decay_ := osc2_decay_ s; pulse_width_ := pulse_width_ s |}.

Definition set_pitch_envelope_ {F : Type} (v : F) (s : Synth_ F) : Synth_ F :=
  {| phase1_ := phase1_ s; phase2_ := phase2_ s; click_phase_ := click_phase_ s;
     envelope_ := envelope_ s; pitch_envelope_ := v; osc2_envelope_ := osc2_envelope_ s;
     click_envelope_ := click_envelope_ s; envelope_state_ := envelope_state_ s;
     current_note_ := current_note_ s; current_velocity_ := current_velocity_ s;
     preset_index_ := preset_index_ s; pitch_ := pitch_ s; decay_ := decay_ s;
     pitch_curve_ := pitch_curve_ s; body_level_ := body_level_ s; drive_ := drive_ s;
     attack_ := attack_ s; release_ := release_ s; click_level_ := click_level_ s;
     click_freq_ := click_freq_ s; click_decay_ := click_decay_ s; click_tone_ := click_tone_ s;
     last_noise_ := last_noise_ s; filter_enabled_ := filter_enabled_ s;
     filter_cutoff_ := filter_cutoff_ s; filter_resonance_ := filter_resonance_ s;
     filter_mode_24db_ := filter_mode_24db_ s; filter_state_0 := filter_state_0 s;
     filter_state_1 := filter_state_1 s; filter_state_2 := filter_state_2 s;
     filter_state_3 := filter_state_3 s; osc2_enabled_ := osc2_enabled_ s;
     osc2_waveform_ := osc2_waveform_ s; osc2_pitch_ := osc2_pitch_ s;
     osc2_level_ := osc2_level_ s; fm_amount_ := fm_amount_ s; fm_ratio_ := fm_ratio_ s;
     osc2_decay_ := osc2_decay_ s; pulse_width_ := pulse_width_ s |}.

Definition set_osc2_envelope_ {F : Type} (v : F) (s : Synth_ F) : Synth_ F :=
  {| phase1_ := phase1_ s; phase2_ := phase2_ s; click_phase_ := click_phase_ s;
     envelope_ := envelope_ s; pitch_envelope_ := pitch_envelope_ s; osc2_envelope_ := v;
     click_envelope_ := click_envelope_ s; envelope_state_ := envelope_state_ s;
     current_note_ := current_note_ s; current_velocity_ := current_velocity_ s;
     preset_index_ := preset_index_ s; pitch_ := pitch_ s; decay_ := decay_ s;
     pitch_curve_ := pitch_curve_ s; body_level_ := body_level_ s; drive_ := drive_ s;
     attack_ := attack_ s; release_ := release_ s; click_level_ := click_level_ s;
     click_freq_ := click_freq_ s; click_decay_ := click_decay_ s; click_tone_ := click_tone_ s;
     last_noise_ := last_noise_ s; filter_enabled_ := filter_enabled_ s;
     filter_cutoff_ := filter_cutoff_ s; filter_resonance_ := filter_resonance_ s;
     filter_mode_24db_ := filter_mode_24db_ s; filter_state_0 := filter_state_0 s;
     filter_state_1 := filter_state_1 s; filter_state_2 := filter_state_2 s;
     filter_state_3 := filter_state_3 s; osc2_enabled_ := osc2_enabled_ s;
     osc2_waveform_ := osc2_waveform_ s; osc2_pitch_ := osc2_pitch_ s;
     osc2_level_ := osc2_level_ s; fm_amount_ := fm_amount_ s; fm_ratio_ := fm_ratio_ s;
     osc2_decay_ := osc2_decay_ s; pulse_width_ := pulse_width_ s |}.

Definition set_click_envelope_ {F : Type} (v : F) (s : Synth_ F) : Synth_ F :=
  {| phase1_ := phase1_ s; phase2_ := phase2_ s; click_phase_ := click_phase_ s;
     envelope_ := envelope_ s; pitch_envelope_ := pitch_envelope_ s;
     osc2_envelope_ := osc2_envelope_ s; click_envelope_ := v;
     envelope_state_ := envelope_state_ s; current_note_ := current_note_ s;
     current_velocity_ := current_velocity_ s; preset_index_ := preset_index_ s;
     pitch_ := pitch_ s; decay_ := decay_ s; pitch_curve_ := pitch_curve_ s;
     body_level_ := body_level_ s; drive_ := drive_ s; attack_ := attack_ s;
     release_ := release_ s; click_level_ := click_level_ s; click_freq_ := click_freq_ s;
     click_decay_ := click_decay_ s; click_tone_ := click_tone_ s; last_noise_ := last_noise_ s;
     filter_enabled_ := filter_enabled_ s; filter_cutoff_ := filter_cutoff_ s;
     filter_resonance_ := filter_resonance_ s; filter_mode_24db_ := filter_mode_24db_ s;
     filter_state_0 := filter_state_0 s; filter_state_1 := filter_state_1 s;
     filter_state_2 := filter_state_2 s; filter_state_3 := filter_state_3 s;
     osc2_enabled_ := osc2_enabled_ s; osc2_waveform_ := osc2_waveform_ s;
     osc2_pitch_ := osc2_pitch_ s; osc2_level_ := osc2_level_ s; fm_amount_ := fm_amount_ s;
     fm_ratio_ := fm_ratio_ s; osc2_decay_ := osc2_decay_ s; pulse_width_ := pulse_width_ s |}.

Definition set_envelope_state_ {F : Type} (v : env_state) (s : Synth_ F) : Synth_ F :=
  {| phase1_ := phase1_ s; phase2_ := phase2_ s; click_phase_ := click_phase_ s;
     envelope_ := envelope_ s; pitch_envelope_ := pitch_envelope_ s;
     osc2_envelope_ := osc2_envelope_ s; click_envelope_ := click_envelope_ s;
     envelope_state_ := v; current_note_ := current_note_ s;
     current_velocity_ := current_velocity_ s; preset_index_ := preset_index_ s;
     pitch_ := pitch_ s; decay_ := decay_ s; pitch_curve_ := pitch_curve_ s;
     body_level_ := body_level_ s; drive_ := drive_ s; attack_ := attack_ s;
     release_ := release_ s; click_level_ := click_level_ s; click_freq_ := click_freq_ s;
     click_decay_ := click_decay_ s; click_tone_ := click_tone_ s; last_noise_ := last_noise_ s;
     filter_enabled_ := filter_enabled_ s; filter_cutoff_ := filter_cutoff_ s;
     filter_resonance_ := filter_resonance_ s; filter_mode_24db_ := filter_mode_24db_ s;
     filter_state_0 := filter_state_0 s; filter_state_1 := filter_state_1 s;
     filter_state_2 := filter_state_2 s; filter_state_3 := filter_state_3 s;
     osc2_enabled_ := osc2_enabled_ s; osc2_waveform_ := osc2_waveform_ s;
     osc2_pitch_ := osc2_pitch_ s; osc2_level_ := osc2_level_ s; fm_amount_ := fm_amount_ s;
     fm_ratio_ := fm_ratio_ s; osc2_decay_ := osc2_decay_ s; pulse_width_ := pulse_width_ s |}.

Definition set_current_note_ {F : Type} (v : Z) (s : Synth_ F) : Synth_ F :=
  {| phase1_ := phase1_ s; phase2_ := phase2_ s; click_phase_ := click_phase_ s;
     envelope_ := envelope_ s; pitch_envelope_ := pitch_envelope_ s;
     osc2_envelope_ := osc2_envelope_ s; click_envelope_ := click_envelope_ s;
     envelope_state_ := envelope_state_ s; current_note_ := v;
     current_velocity_ := current_velocity_ s; preset_index_ := preset_index_ s;
     pitch_ := pitch_ s; decay_ := decay_ s; pitch_curve_ := pitch_curve_ s;
     body_level_ := body_level_ s; drive_ := drive_ s; attack_ := attack_ s;
     release_ := release_ s; click_level_ := click_level_ s; click_freq_ := click_freq_ s;
     click_decay_ := click_decay_ s; click_tone_ := click_tone_ s; last_noise_ := last_noise_ s;
     filter_enabled_ := filter_enabled_ s; filter_cutoff_ := filter_cutoff_ s;
     filter_resonance_ := filter_resonance_ s; filter_mode_24db_ := filter_mode_24db_ s;
     filter_state_0 := filter_state_0 s; filter_state_1 := filter_state_1 s;
     filter_state_2 := filter_state_2 s; filter_state_3 := filter_state_3 s;
     osc2_enabled_ := osc2_enabled_ s; osc2_waveform_ := osc2_waveform_ s;
     osc2_pitch_ := osc2_pitch_ s; osc2_level_ := osc2_level_ s; fm_amount_ := fm_amount_ s;
     fm_ratio_ := fm_ratio_ s; osc2_decay_ := osc2_decay_ s; pulse_width_ := pulse_width_ s |}.

Definition set_current_velocity_ {F : Type} (v : F) (s : Synth_ F) : Synth_ F :=
  {| phase1_ := phase1_ s; phase2_ := phase2_ s; click_phase_ := click_phase_ s;
     envelope_ := envelope_ s; pitch_envelope_ := pitch_envelope_ s;
     osc2_envelope_ := osc2_envelope_ s; click_envelope_ := click_envelope_ s;
     envelope_state_ := envelope_state_ s; current_note_ := current_note_ s;
     current_velocity_ := v; preset_index_ := preset_index_ s; pitch_ := pitch_ s;
     decay_ := decay_ s; pitch_curve_ := pitch_curve_ s; body_level_ := body_level_ s;
     drive_ := drive_ s; attack_ := attack_ s; release_ := release_ s;
     click_level_ := click_level_ s; click_freq_ := click_freq_ s;
     click_decay_ := click_decay_ s; click_tone_ := click_tone_ s; last_noise_ := last_noise_ s;
     filter_enabled_ := filter_enabled_ s; filter_cutoff_ := filter_cutoff_ s;
     filter_resonance_ := filter_resonance_ s; filter_mode_24db_ := filter_mode_24db_ s;
     filter_state_0 := filter_state_0 s; filter_state_1 := filter_state_1 s;
     filter_state_2 := filter_state_2 s; filter_state_3 := filter_state_3 s;
     osc2_enabled_ := osc2_enabled_ s; osc2_waveform_ := osc2_waveform_ s;
     osc2_pitch_ := osc2_pitch_ s; osc2_level_ := osc2_level_ s; fm_amount_ := fm_amount_ s;
     fm_ratio_ := fm_ratio_ s; osc2_decay_ := osc2_decay_ s; pulse_width_ := pulse_width_ s |}.

Definition set_preset_index_ {F : Type} (v : Z) (s : Synth_ F) : Synth_ F :=
  {| phase1_ := phase1_ s; phase2_ := phase2_ s; click_phase_ := click_phase_ s;
     envelope_ := envelope_ s; pitch_envelope_ := pitch_envelope_ s;
     osc2_envelope_ := osc2_envelope_ s; click_envelope_ := click_envelope_ s;
     envelope_state_ := envelope_state_ s; current_note_ := current_note_ s;
     current_velocity_ := current_velocity_ s; preset_index_ := v; pitch_ := pitch_ s;
     decay_ := decay_ s; pitch_curve_ := pitch_curve_ s; body_level_ := body_level_ s;
     drive_ := drive_ s; attack_ := attack_ s; release_ := release_ s;
     click_level_ := click_level_ s; click_freq_ := click_freq_ s;
     click_decay_ := click_decay_ s; click_tone_ := click_tone_ s; last_noise_ := last_noise_ s;
     filter_enabled_ := filter_enabled_ s; filter_cutoff_ := filter_cutoff_ s;
     filter_resonance_ := filter_resonance_ s; filter_mode_24db_ := filter_mode_24db_ s;
     filter_state_0 := filter_state_0 s; filter_state_1 := filter_state_1 s;
     filter_state_2 := filter_state_2 s; filter_state_3 := filter_state_3 s;
     osc2_enabled_ := osc2_enabled_ s; osc2_waveform_ := osc2_waveform_ s;
     osc2_pitch_ := osc2_pitch_ s; osc2_level_ := osc2_level_ s; fm_amount_ := fm_amount_ s;
     fm_ratio_ := fm_ratio_ s; osc2_decay_ := osc2_decay_ s; pulse_width_ := pulse_width_ s |}.

Definition set_pitch_ {F : Type} (v : F) (s : Synth_ F) : Synth_ F :=
  {| phase1_ := phase1_ s; phase2_ := phase2_ s; click_phase_ := click_phase_ s;
     envelope_ := envelope_ s; pitch_envelope_ := pitch_envelope_ s;
     osc2_envelope_ := osc2_envelope_ s; click_envelope_ := click_envelope_ s;
     envelope_state_ := envelope_state_ s; current_note_ := current_note_ s;
     current_velocity_ := current_velocity_ s; preset_index_ := preset_index_ s; pitch_ := v;
     decay_ := decay_ s; pitch_curve_ := pitch_curve_ s; body_level_ := body_level_ s;
     drive_ := drive_ s; attack_ := attack_ s; release_ := release_ s;
     click_level_ := click_level_ s; click_freq_ := click_freq_ s;
     click_decay_ := click_decay_ s; click_tone_ := click_tone_ s; last_noise_ := last_noise_ s;
     filter_enabled_ := filter_enabled_ s; filter_cutoff_ := filter_cutoff_ s;
     filter_resonance_ := filter_resonance_ s; filter_mode_24db_ := filter_mode_24db_ s;
     filter_state_0 := filter_state_0 s; filter_state_1 := filter_state_1 s;
     filter_state_2 := filter_state_2 s; filter_state_3 := filter_state_3 s;
     osc2_enabled_ := osc2_enabled_ s; osc2_waveform_ := osc2_waveform_ s;
     osc2_pitch_ := osc2_pitch_ s; osc2_level_ := osc2_level_ s; fm_amount_ := fm_amount_ s;
     fm_ratio_ := fm_ratio_ s; osc2_decay_ := osc2_decay_ s; pulse_width_ := pulse_width_ s |}.

Definition set_decay_ {F : Type} (v : F) (s : Synth_ F) : Synth_ F :=
  {| phase1_ := phase1_ s; phase2_ := phase2_ s; click_phase_ := click_phase_ s;
     envelope_ := envelope_ s; pitch_envelope_ := pitch_envelope_ s;
     osc2_envelope_ := osc2_envelope_ s; click_envelope_ := click_envelope_ s;
     envelope_state_ := envelope_state_ s; current_note_ := current_note_ s;
     current_velocity_ := current_velocity_ s; preset_index_ := preset_index_ s;
     pitch_ := pitch_ s; decay_ := v; pitch_curve_ := pitch_curve_ s;
     body_level_ := body_level_ s; drive_ := drive_ s; attack_ := attack_ s;
     release_ := release_ s; click_level_ := click_level_ s; click_freq_ := click_freq_ s;
     click_decay_ := click_decay_ s; click_tone_ := click_tone_ s; last_noise_ := last_noise_ s;
     filter_enabled_ := filter_enabled_ s; filter_cutoff_ := filter_cutoff_ s;
     filter_resonance_ := filter_resonance_ s; filter_mode_24db_ := filter_mode_24db_ s;
     filter_state_0 := filter_state_0 s; filter_state_1 := filter_state_1 s;
     filter_state_2 := filter_state_2 s; filter_state_3 := filter_state_3 s;
     osc2_enabled_ := osc2_enabled_ s; osc2_waveform_ := osc2_waveform_ s;
     osc2_pitch_ := osc2_pitch_ s; osc2_level_ := osc2_level_ s; fm_amount_ := fm_amount_ s;
     fm_ratio_ := fm_ratio_ s; osc2_decay_ := osc2_decay_ s; pulse_width_ := pulse_width_ s |}.

Definition set_pitch_curve_ {F : Type} (v : F) (s : Synth_ F) : Synth_ F :=
  {| phase1_ := phase1_ s; phase2_ := phase2_ s; click_phase_ := click_phase_ s;
     envelope_ := envelope_ s; pitch_envelope_ := pitch_envelope_ s;
     osc2_envelope_ := osc2_envelope_ s; click_envelope_ := click_envelope_ s;
     envelope_state_ := envelope_state_ s; current_note_ := current_note_ s;
     current_velocity_ := current_velocity_ s; preset_index_ := preset_index_ s;
     pitch_ := pitch_ s; decay_ := decay_ s; pitch_curve_ := v; body_level_ := body_level_ s;
     drive_ := drive_ s; attack_ := attack_ s; release_ := release_ s;
     click_level_ := click_level_ s; click_freq_ := click_freq_ s;
     click_decay_ := click_decay_ s; click_tone_ := click_tone_ s; last_noise_ := last_noise_ s;
     filter_enabled_ := filter_enabled_ s; filter_cutoff_ := filter_cutoff_ s;
     filter_resonance_ := filter_resonance_ s; filter_mode_24db_ := filter_mode_24db_ s;
     filter_state_0 := filter_state_0 s; filter_state_1 := filter_state_1 s;
     filter_state_2 := filter_state_2 s; filter_state_3 := filter_state_3 s;
     osc2_enabled_ := osc2_enabled_ s; osc2_waveform_ := osc2_waveform_ s;
     osc2_pitch_ := osc2_pitch_ s; osc2_level_ := osc2_level_ s; fm_amount_ := fm_amount_ s;
     fm_ratio_ := fm_ratio_ s; osc2_decay_ := osc2_decay_ s; pulse_width_ := pulse_width_ s |}.

Definition set_body_level_ {F : Type} (v : F) (s : Synth_ F) : Synth_ F :=
  {| phase1_ := phase1_ s; phase2_ := phase2_ s; click_phase_ := click_phase_ s;
     envelope_ := envelope_ s; pitch_envelope_ := pitch_envelope_ s;
     osc2_envelope_ := osc2_envelope_ s; click_envelope_ := click_envelope_ s;
     envelope_state_ := envelope_state_ s; current_note_ := current_note_ s;
     current_velocity_ := current_velocity_ s; preset_index_ := preset_index_ s;
     pitch_ := pitch_ s; decay_ := decay_ s; pitch_curve_ := pitch_curve_ s; body_level_ := v;
     drive_ := drive_ s; attack_ := attack_ s; release_ := release_ s;
     click_level_ := click_level_ s; click_freq_ := click_freq_ s;
     click_decay_ := click_decay_ s; click_tone_ := click_tone_ s; last_noise_ := last_noise_ s;
     filter_enabled_ := filter_enabled_ s; filter_cutoff_ := filter_cutoff_ s;
     filter_resonance_ := filter_resonance_ s; filter_mode_24db_ := filter_mode_24db_ s;
     filter_state_0 := filter_state_0 s; filter_state_1 := filter_state_1 s;
     filter_state_2 := filter_state_2 s; filter_state_3 := filter_state_3 s;
     osc2_enabled_ := osc2_enabled_ s; osc2_waveform_ := osc2_waveform_ s;
     osc2_pitch_ := osc2_pitch_ s; osc2_level_ := osc2_level_ s; fm_amount_ := fm_amount_ s;
     fm_ratio_ := fm_ratio_ s; osc2_decay_ := osc2_decay_ s; pulse_width_ := pulse_width_ s |}.

Definition set_drive_ {F : Type} (v : F) (s : Synth_ F) : Synth_ F :=
  {| phase1_ := phase1_ s; phase2_ := phase2_ s; click_phase_ := click_phase_ s;
     envelope_ := envelope_ s; pitch_envelope_ := pitch_envelope_ s;
     osc2_envelope_ := osc2_envelope_ s; click_envelope_ := click_envelope_ s;
     envelope_state_ := envelope_state_ s; current_note_ := current_note_ s;
     current_velocity_ := current_velocity_ s; preset_index_ := preset_index_ s;
     pitch_ := pitch_ s; decay_ := decay_ s; pitch_curve_ := pitch_curve_ s;
     body_level_ := body_level_ s; drive_ := v; attack_ := attack_ s; release_ := release_ s;
     click_level_ := click_level_ s; click_freq_ := click_freq_ s;
     click_decay_ := click_decay_ s; click_tone_ := click_tone_ s; last_noise_ := last_noise_ s;
     filter_enabled_ := filter_enabled_ s; filter_cutoff_ := filter_cutoff_ s;
     filter_resonance_ := filter_resonance_ s; filter_mode_24db_ := filter_mode_24db_ s;
     filter_state_0 := filter_state_0 s; filter_state_1 := filter_state_1 s;
     filter_state_2 := filter_state_2 s; filter_state_3 := filter_state_3 s;
     osc2_enabled_ := osc2_enabled_ s; osc2_waveform_ := osc2_waveform_ s;
     osc2_pitch_ := osc2_pitch_ s; osc2_level_ := osc2_level_ s; fm_amount_ := fm_amount_ s;
     fm_ratio_ := fm_ratio_ s; osc2_decay_ := osc2_decay_ s; pulse_width_ := pulse_width_ s |}.

Definition set_attack_ {F : Type} (v : F) (s : Synth_ F) : Synth_ F :=
  {| phase1_ := phase1_ s; phase2_ := phase2_ s; click_phase_ := click_phase_ s;
     envelope_ := envelope_ s; pitch_envelope_ := pitch_envelope_ s;
     osc2_envelope_ := osc2_envelope_ s; click_envelope_ := click_envelope_ s;
     envelope_state_ := envelope_state_ s; current_note_ := current_note_ s;
     current_velocity_ := current_velocity_ s; preset_index_ := preset_index_ s;
     pitch_ := pitch_ s; decay_ := decay_ s; pitch_curve_ := pitch_curve_ s;
     body_level_ := body_level_ s; drive_ := drive_ s; attack_ := v; release_ := release_ s;
     click_level_ := click_level_ s; click_freq_ := click_freq_ s;
     click_decay_ := click_decay_ s; click_tone_ := click_tone_ s; last_noise_ := last_noise_ s;
     filter_enabled_ := filter_enabled_ s; filter_cutoff_ := filter_cutoff_ s;
     filter_resonance_ := filter_resonance_ s; filter_mode_24db_ := filter_mode_24db_ s;
     filter_state_0 := filter_state_0 s; filter_state_1 := filter_state_1 s;
     filter_state_2 := filter_state_2 s; filter_state_3 := filter_state_3 s;
     osc2_enabled_ := osc2_enabled_ s; osc2_waveform_ := osc2_waveform_ s;
     osc2_pitch_ := osc2_pitch_ s; osc2_level_ := osc2_level_ s; fm_amount_ := fm_amount_ s;
     fm_ratio_ := fm_ratio_ s; osc2_decay_ := osc2_decay_ s; pulse_width_ := pulse_width_ s |}.

Definition set_release_ {F : Type} (v : F) (s : Synth_ F) : Synth_ F :=
  {| phase1_ := phase1_ s; phase2_ := phase2_ s; click_phase_ := click_phase_ s;
     envelope_ := envelope_ s; pitch_envelope_ := pitch_envelope_ s;
     osc2_envelope_ := osc2_envelope_ s; click_envelope_ := click_envelope_ s;
     envelope_state_ := envelope_state_ s; current_note_ := current_note_ s;
     current_velocity_ := current_velocity_ s; preset_index_ := preset_index_ s;
     pitch_ := pitch_ s; decay_ := decay_ s; pitch_curve_ := pitch_curve_ s;
     body_level_ := body_level_ s; drive_ := drive_ s; attack_ := attack_ s; release_ := v;
     click_level_ := click_level_ s; click_freq_ := click_freq_ s;
     click_decay_ := click_decay_ s; click_tone_ := click_tone_ s; last_noise_ := last_noise_ s;
     filter_enabled_ := filter_enabled_ s; filter_cutoff_ := filter_cutoff_ s;
     filter_resonance_ := filter_resonance_ s; filter_mode_24db_ := filter_mode_24db_ s;
     filter_state_0 := filter_state_0 s; filter_state_1 := filter_state_1 s;
     filter_state_2 := filter_state_2 s; filter_state_3 := filter_state_3 s;
     osc2_enabled_ := osc2_enabled_ s; osc2_waveform_ := osc2_waveform_ s;
     osc2_pitch_ := osc2_pitch_ s; osc2_level_ := osc2_level_ s; fm_amount_ := fm_amount_ s;
     fm_ratio_ := fm_ratio_ s; osc2_decay_ := osc2_decay_ s; pulse_width_ := pulse_width_ s |}.

Definition set_click_level_ {F : Type} (v : F) (s : Synth_ F) : Synth_ F :=
  {| phase1_ := phase1_ s; phase2_ := phase2_ s; click_phase_ := click_phase_ s;
     envelope_ := envelope_ s; pitch_envelope_ := pitch_envelope_ s;
     osc2_envelope_ := osc2_envelope_ s; click_envelope_ := click_envelope_ s;
     envelope_state_ := envelope_state_ s; current_note_ := current_note_ s;
     current_velocity_ := current_velocity_ s; preset_index_ := preset_index_ s;
     pitch_ := pitch_ s; decay_ := decay_ s; pitch_curve_ := pitch_curve_ s;
     body_level_ := body_level_ s; drive_ := drive_ s; attack_ := attack_ s;
     release_ := release_ s; click_level_ := v; click_freq_ := click_freq_ s;
     click_decay_ := click_decay_ s; click_tone_ := click_tone_ s; last_noise_ := last_noise_ s;
     filter_enabled_ := filter_enabled_ s; filter_cutoff_ := filter_cutoff_ s;
     filter_resonance_ := filter_resonance_ s; filter_mode_24db_ := filter_mode_24db_ s;
     filter_state_0 := filter_state_0 s; filter_state_1 := filter_state_1 s;
     filter_state_2 := filter_state_2 s; filter_state_3 := filter_state_3 s;
     osc2_enabled_ := osc2_enabled_ s; osc2_waveform_ := osc2_waveform_ s;
     osc2_pitch_ := osc2_pitch_ s; osc2_level_ := osc2_level_ s; fm_amount_ := fm_amount_ s;
     fm_ratio_ := fm_ratio_ s; osc2_decay_ := osc2_decay_ s; pulse_width_ := pulse_width_ s |}.

Definition set_click_freq_ {F : Type} (v : F) (s : Synth_ F) : Synth_ F :=
  {| phase1_ := phase1_ s; phase2_ := phase2_ s; click_phase_ := click_phase_ s;
     envelope_ := envelope_ s; pitch_envelope_ := pitch_envelope_ s;
     osc2_envelope_ := osc2_envelope_ s; click_envelope_ := click_envelope_ s;
     envelope_state_ := envelope_state_ s; current_note_ := current_note_ s;
     current_velocity_ := current_velocity_ s; preset_index_ := preset_index_ s;
     pitch_ := pitch_ s; decay_ := decay_ s; pitch_curve_ := pitch_curve_ s;
     body_level_ := body_level_ s; drive_ := drive_ s; attack_ := attack_ s;
     release_ := release_ s; click_level_ := click_level_ s; click_freq_ := v;
     click_decay_ := click_decay_ s; click_tone_ := click_tone_ s; last_noise_ := last_noise_ s;
     filter_enabled_ := filter_enabled_ s; filter_cutoff_ := filter_cutoff_ s;
     filter_resonance_ := filter_resonance_ s; filter_mode_24db_ := filter_mode_24db_ s;
     filter_state_0 := filter_state_0 s; filter_state_1 := filter_state_1 s;
     filter_state_2 := filter_state_2 s; filter_state_3 := filter_state_3 s;
     osc2_enabled_ := osc2_enabled_ s; osc2_waveform_ := osc2_waveform_ s;
     osc2_pitch_ := osc2_pitch_ s; osc2_level_ := osc2_level_ s; fm_amount_ := fm_amount_ s;
     fm_ratio_ := fm_ratio_ s; osc2_decay_ := osc2_decay_ s; pulse_width_ := pulse_width_ s |}.

Definition set_click_decay_ {F : Type} (v : F) (s : Synth_ F) : Synth_ F :=
  {| phase1_ := phase1_ s; phase2_ := phase2_ s; click_phase_ := click_phase_ s;
     envelope_ := envelope_ s; pitch_envelope_ := pitch_envelope_ s;
     osc2_envelope_ := osc2_envelope_ s; click_envelope_ := click_envelope_ s;
     envelope_state_ := envelope_state_ s; current_note_ := current_note_ s;
     current_velocity_ := current_velocity_ s; preset_index_ := preset_index_ s;
     pitch_ := pitch_ s; decay_ := decay_ s; pitch_curve_ := pitch_curve_ s;
     body_level_ := body_level_ s; drive_ := drive_ s; attack_ := attack_ s;
     release_ := release_ s; click_level_ := click_level_ s; click_freq_ := click_freq_ s;
     click_decay_ := v; click_tone_ := click_tone_ s; last_noise_ := last_noise_ s;
     filter_enabled_ := filter_enabled_ s; filter_cutoff_ := filter_cutoff_ s;
     filter_resonance_ := filter_resonance_ s; filter_mode_24db_ := filter_mode_24db_ s;
     filter_state_0 := filter_state_0 s; filter_state_1 := filter_state_1 s;
     filter_state_2 := filter_state_2 s; filter_state_3 := filter_state_3 s;
     osc2_enabled_ := osc2_enabled_ s; osc2_waveform_ := osc2_waveform_ s;
     osc2_pitch_ := osc2_pitch_ s; osc2_level_ := osc2_level_ s; fm_amount_ := fm_amount_ s;
     fm_ratio_ := fm_ratio_ s; osc2_decay_ := osc2_decay_ s; pulse_width_ := pulse_width_ s |}.

Definition set_click_tone_ {F : Type} (v : F) (s : Synth_ F) : Synth_ F :=
  {| phase1_ := phase1_ s; phase2_ := phase2_ s; click_phase_ := click_phase_ s;
     envelope_ := envelope_ s; pitch_envelope_ := pitch_envelope_ s;
     osc2_envelope_ := osc2_envelope_ s; click_envelope_ := click_envelope_ s;
     envelope_state_ := envelope_state_ s; current_note_ := current_note_ s;
     current_velocity_ := current_velocity_ s; preset_index_ := preset_index_ s;
     pitch_ := pitch_ s; decay_ := decay_ s; pitch_curve_ := pitch_curve_ s;
     body_level_ := body_level_ s; drive_ := drive_ s; attack_ := attack_ s;
     release_ := release_ s; click_level_ := click_level_ s; click_freq_ := click_freq_ s;
     click_decay_ := click_decay_ s; click_tone_ := v; last_noise_ := last_noise_ s;
     filter_enabled_ := filter_enabled_ s; filter_cutoff_ := filter_cutoff_ s;
     filter_resonance_ := filter_resonance_ s; filter_mode_24db_ := filter_mode_24db_ s;
     filter_state_0 := filter_state_0 s; filter_state_1 := filter_state_1 s;
     filter_state_2 := filter_state_2 s; filter_state_3 := filter_state_3 s;
     osc2_enabled_ := osc2_enabled_ s; osc2_waveform_ := osc2_waveform_ s;
     osc2_pitch_ := osc2_pitch_ s; osc2_level_ := osc2_level_ s; fm_amount_ := fm_amount_ s;
     fm_ratio_ := fm_ratio_ s; osc2_decay_ := osc2_decay_ s; pulse_width_ := pulse_width_ s |}.

Definition set_last_noise_ {F : Type} (v : F) (s : Synth_ F) : Synth_ F :=
  {| phase1_ := phase1_ s; phase2_ := phase2_ s; click_phase_ := click_phase_ s;
     envelope_ := envelope_ s; pitch_envelope_ := pitch_envelope_ s;
     osc2_envelope_ := osc2_envelope_ s; click_envelope_ := click_envelope_ s;
     envelope_state_ := envelope_state_ s; current_note_ := current_note_ s;
     current_velocity_ := current_velocity_ s; preset_index_ := preset_index_ s;
     pitch_ := pitch_ s; decay_ := decay_ s; pitch_curve_ := pitch_curve_ s;
     body_level_ := body_level_ s; drive_ := drive_ s; attack_ := attack_ s;
     release_ := release_ s; click_level_ := click_level_ s; click_freq_ := click_freq_ s;
     click_decay_ := click_decay_ s; click_tone_ := click_tone_ s; last_noise_ := v;
     filter_enabled_ := filter_enabled_ s; filter_cutoff_ := filter_cutoff_ s;
     filter_resonance_ := filter_resonance_ s; filter_mode_24db_ := filter_mode_24db_ s;
     filter_state_0 := filter_state_0 s; filter_state_1 := filter_state_1 s;
     filter_state_2 := filter_state_2 s; filter_state_3 := filter_state_3 s;
     osc2_enabled_ := osc2_enabled_ s; osc2_waveform_ := osc2_waveform_ s;
     osc2_pitch_ := osc2_pitch_ s; osc2_level_ := osc2_level_ s; fm_amount_ := fm_amount_ s;
     fm_ratio_ := fm_ratio_ s; osc2_decay_ := osc2_decay_ s; pulse_width_ := pulse_width_ s |}.

Definition set_filter_enabled_ {F : Type} (v : bool) (s : Synth_ F) : Synth_ F :=
  {| phase1_ := phase1_ s; phase2_ := phase2_ s; click_phase_ := click_phase_ s;
     envelope_ := envelope_ s; pitch_envelope_ := pitch_envelope_ s;
     osc2_envelope_ := osc2_envelope_ s; click_envelope_ := click_envelope_ s;
     envelope_state_ := envelope_state_ s; current_note_ := current_note_ s;
     current_velocity_ := current_velocity_ s; preset_index_ := preset_index_ s;
     pitch_ := pitch_ s; decay_ := decay_ s; pitch_curve_ := pitch_curve_ s;
     body_level_ := body_level_ s; drive_ := drive_ s; attack_ := attack_ s;
     release_ := release_ s; click_level_ := click_level_ s; click_freq_ := click_freq_ s;
     click_decay_ := click_decay_ s; click_tone_ := click_tone_ s; last_noise_ := last_noise_ s;
     filter_enabled_ := v; filter_cutoff_ := filter_cutoff_ s;
     filter_resonance_ := filter_resonance_ s; filter_mode_24db_ := filter_mode_24db_ s;
     filter_state_0 := filter_state_0 s; filter_state_1 := filter_state_1 s;
     filter_state_2 := filter_state_2 s; filter_state_3 := filter_state_3 s;
     osc2_enabled_ := osc2_enabled_ s; osc2_waveform_ := osc2_waveform_ s;
     osc2_pitch_ := osc2_pitch_ s; osc2_level_ := osc2_level_ s; fm_amount_ := fm_amount_ s;
     fm_ratio_ := fm_ratio_ s; osc2_decay_ := osc2_decay_ s; pulse_width_ := pulse_width_ s |}.

Definition set_filter_cutoff_ {F : Type} (v : F) (s : Synth_ F) : Synth_ F :=
  {| phase1_ := phase1_ s; phase2_ := phase2_ s; click_phase_ := click_phase_ s;
     envelope_ := envelope_ s; pitch_envelope_ := pitch_envelope_ s;
     osc2_envelope_ := osc2_envelope_ s; click_envelope_ := click_envelope_ s;
     envelope_state_ := envelope_state_ s; current_note_ := current_note_ s;
     current_velocity_ := current_velocity_ s; preset_index_ := preset_index_ s;
     pitch_ := pitch_ s; decay_ := decay_ s; pitch_curve_ := pitch_curve_ s;
     body_level_ := body_level_ s; drive_ := drive_ s; attack_ := attack_ s;
     release_ := release_ s; click_level_ := click_level_ s; click_freq_ := click_freq_ s;
     click_decay_ := click_decay_ s; click_tone_ := click_tone_ s; last_noise_ := last_noise_ s;
     filter_enabled_ := filter_enabled_ s; filter_cutoff_ := v;
     filter_resonance_ := filter_resonance_ s; filter_mode_24db_ := filter_mode_24db_ s;
     filter_state_0 := filter_state_0 s; filter_state_1 := filter_state_1 s;
     filter_state_2 := filter_state_2 s; filter_state_3 := filter_state_3 s;
     osc2_enabled_ := osc2_enabled_ s; osc2_waveform_ := osc2_waveform_ s;
     osc2_pitch_ := osc2_pitch_ s; osc2_level_ := osc2_level_ s; fm_amount_ := fm_amount_ s;
     fm_ratio_ := fm_ratio_ s; osc2_decay_ := osc2_decay_ s; pulse_width_ := pulse_width_ s |}.

Definition set_filter_resonance_ {F : Type} (v : F) (s : Synth_ F) : Synth_ F :=
  {| phase1_ := phase1_ s; phase2_ := phase2_ s; click_phase_ := click_phase_ s;
     envelope_ := envelope_ s; pitch_envelope_ := pitch_envelope_ s;
     osc2_envelope_ := osc2_envelope_ s; click_envelope_ := click_envelope_ s;
     envelope_state_ := envelope_state_ s; current_note_ := current_note_ s;
     current_velocity_ := current_velocity_ s; preset_index_ := preset_index_ s;
     pitch_ := pitch_ s; decay_ := decay_ s; pitch_curve_ := pitch_curve_ s;
     body_level_ := body_level_ s; drive_ := drive_ s; attack_ := attack_ s;
     release_ := release_ s; click_level_ := click_level_ s; click_freq_ := click_freq_ s;
     click_decay_ := click_decay_ s; click_tone_ := click_tone_ s; last_noise_ := last_noise_ s;
     filter_enabled_ := filter_enabled_ s; filter_cutoff_ := filter_cutoff_ s;
     filter_resonance_ := v; filter_mode_24db_ := filter_mode_24db_ s;
     filter_state_0 := filter_state_0 s; filter_state_1 := filter_state_1 s;
     filter_state_2 := filter_state_2 s; filter_state_3 := filter_state_3 s;
     osc2_enabled_ := osc2_enabled_ s; osc2_waveform_ := osc2_waveform_ s;
     osc2_pitch_ := osc2_pitch_ s; osc2_level_ := osc2_level_ s; fm_amount_ := fm_amount_ s;
     fm_ratio_ := fm_ratio_ s; osc2_decay_ := osc2_decay_ s; pulse_width_ := pulse_width_ s |}.

Definition set_filter_mode_24db_ {F : Type} (v : bool) (s : Synth_ F) : Synth_ F :=
  {| phase1_ := phase1_ s; phase2_ := phase2_ s; click_phase_ := click_phase_ s;
     envelope_ := envelope_ s; pitch_envelope_ := pitch_envelope_ s;
     osc2_envelope_ := osc2_envelope_ s; click_envelope_ := click_envelope_ s;
     envelope_state_ := envelope_state_ s; current_note_ := current_note_ s;
     current_velocity_ := current_velocity_ s; preset_index_ := preset_index_ s;
     pitch_ := pitch_ s; decay_ := decay_ s; pitch_curve_ := pitch_curve_ s;
     body_level_ := body_level_ s; drive_ := drive_ s; attack_ := attack_ s;
     release_ := release_ s; click_level_ := click_level_ s; click_freq_ := click_freq_ s;
     click_decay_ := click_decay_ s; click_tone_ := click_tone_ s; last_noise_ := last_noise_ s;
     filter_enabled_ := filter_enabled_ s; filter_cutoff_ := filter_cutoff_ s;
     filter_resonance_ := filter_resonance_ s; filter_mode_24db_ := v;
     filter_state_0 := filter_state_0 s; filter_state_1 := filter_state_1 s;
     filter_state_2 := filter_state_2 s; filter_state_3 := filter_state_3 s;
     osc2_enabled_ := osc2_enabled_ s; osc2_waveform_ := osc2_waveform_ s;
     osc2_pitch_ := osc2_pitch_ s; osc2_level_ := osc2_level_ s; fm_amount_ := fm_amount_ s;
     fm_ratio_ := fm_ratio_ s; osc2_decay_ := osc2_decay_ s; pulse_width_ := pulse_width_ s |}.

Definition set_filter_state_0 {F : Type} (v : F) (s : Synth_ F) : Synth_ F :=
  {| phase1_ := phase1_ s; phase2_ := phase2_ s; click_phase_ := click_phase_ s;
     envelope_ := envelope_ s; pitch_envelope_ := pitch_envelope_ s;
     osc2_envelope_ := osc2_envelope_ s; click_envelope_ := click_envelope_ s;
     envelope_state_ := envelope_state_ s; current_note_ := current_note_ s;
     current_velocity_ := current_velocity_ s; preset_index_ := preset_index_ s;
     pitch_ := pitch_ s; decay_ := decay_ s; pitch_curve_ := pitch_curve_ s;
     body_level_ := body_level_ s; drive_ := drive_ s; attack_ := attack_ s;
     release_ := release_ s; click_level_ := click_level_ s; click_freq_ := click_freq_ s;
     click_decay_ := click_decay_ s; click_tone_ := click_tone_ s; last_noise_ := last_noise_ s;
     filter_enabled_ := filter_enabled_ s; filter_cutoff_ := filter_cutoff_ s;
     filter_resonance_ := filter_resonance_ s; filter_mode_24db_ := filter_mode_24db_ s;
     filter_state_0 := v; filter_state_1 := filter_state_1 s; filter_state_2 := filter_state_2 s;
     filter_state_3 := filter_state_3 s; osc2_enabled_ := osc2_enabled_ s;
     osc2_waveform_ := osc2_waveform_ s; osc2_pitch_ := osc2_pitch_ s;
     osc2_level_ := osc2_level_ s; fm_amount_ := fm_amount_ s; fm_ratio_ := fm_ratio_ s;
     osc2_decay_ := osc2_decay_ s; pulse_width_ := pulse_width_ s |}.

Definition set_filter_state_1 {F : Type} (v : F) (s : Synth_ F) : Synth_ F :=
  {| phase1_ := phase1_ s; phase2_ := phase2_ s; click_phase_ := click_phase_ s;
     envelope_ := envelope_ s; pitch_envelope_ := pitch_envelope_ s;
     osc2_envelope_ := osc2_envelope_ s; click_envelope_ := click_envelope_ s;
     envelope_state_ := envelope_state_ s; current_note_ := current_note_ s;
     current_velocity_ := current_velocity_ s; preset_index_ := preset_index_ s;
     pitch_ := pitch_ s; decay_ := decay_ s; pitch_curve_ := pitch_curve_ s;
     body_level_ := body_level_ s; drive_ := drive_ s; attack_ := attack_ s;
     release_ := release_ s; click_level_ := click_level_ s; click_freq_ := click_freq_ s;
     click_decay_ := click_decay_ s; click_tone_ := click_tone_ s; last_noise_ := last_noise_ s;
     filter_enabled_ := filter_enabled_ s; filter_cutoff_ := filter_cutoff_ s;
     filter_resonance_ := filter_resonance_ s; filter_mode_24db_ := filter_mode_24db_ s;
     filter_state_0 := filter_state_0 s; filter_state_1 := v; filter_state_2 := filter_state_2 s;
     filter_state_3 := filter_state_3 s; osc2_enabled_ := osc2_enabled_ s;
     osc2_waveform_ := osc2_waveform_ s; osc2_pitch_ := osc2_pitch_ s;
     osc2_level_ := osc2_level_ s; fm_amount_ := fm_amount_ s; fm_ratio_ := fm_ratio_ s;
     osc2_decay_ := osc2_decay_ s; pulse_width_ := pulse_width_ s |}.

Definition set_filter_state_2 {F : Type} (v : F) (s : Synth_ F) : Synth_ F :=
  {| phase1_ := phase1_ s; phase2_ := phase2_ s; click_phase_ := click_phase_ s;
     envelope_ := envelope_ s; pitch_envelope_ := pitch_envelope_ s;
     osc2_envelope_ := osc2_envelope_ s; click_envelope_ := click_envelope_ s;
     envelope_state_ := envelope_state_ s; current_note_ := current_note_ s;
     current_velocity_ := current_velocity_ s; preset_index_ := preset_index_ s;
     pitch_ := pitch_ s; decay_ := decay_ s; pitch_curve_ := pitch_curve_ s;
     body_level_ := body_level_ s; drive_ := drive_ s; attack_ := attack_ s;
     release_ := release_ s; click_level_ := click_level_ s; click_freq_ := click_freq_ s;
     click_decay_ := click_decay_ s; click_tone_ := click_tone_ s; last_noise_ := last_noise_ s;
     filter_enabled_ := filter_enabled_ s; filter_cutoff_ := filter_cutoff_ s;
     filter_resonance_ := filter_resonance_ s; filter_mode_24db_ := filter_mode_24db_ s;
     filter_state_0 := filter_state_0 s; filter_state_1 := filter_state_1 s; filter_state_2 := v;
     filter_state_3 := filter_state_3 s; osc2_enabled_ := osc2_enabled_ s;
     osc2_waveform_ := osc2_waveform_ s; osc2_pitch_ := osc2_pitch_ s;
     osc2_level_ := osc2_level_ s; fm_amount_ := fm_amount_ s; fm_ratio_ := fm_ratio_ s;
     osc2_decay_ := osc2_decay_ s; pulse_width_ := pulse_width_ s |}.

Definition set_filter_state_3 {F : Type} (v : F) (s : Synth_ F) : Synth_ F :=
  {| phase1_ := phase1_ s; phase2_ := phase2_ s; click_phase_ := click_phase_ s;
     envelope_ := envelope_ s; pitch_envelope_ := pitch_envelope_ s;
     osc2_envelope_ := osc2_envelope_ s; click_envelope_ := click_envelope_ s;
     envelope_state_ := envelope_state_ s; current_note_ := current_note_ s;
     current_velocity_ := current_velocity_ s; preset_index_ := preset_index_ s;
     pitch_ := pitch_ s; decay_ := decay_ s; pitch_curve_ := pitch_curve_ s;
     body_level_ := body_level_ s; drive_ := drive_ s; attack_ := attack_ s;
     release_ := release_ s; click_level_ := click_level_ s; click_freq_ := click_freq_ s;
     click_decay_ := click_decay_ s; click_tone_ := click_tone_ s; last_noise_ := last_noise_ s;
     filter_enabled_ := filter_enabled_ s; filter_cutoff_ := filter_cutoff_ s;
     filter_resonance_ := filter_resonance_ s; filter_mode_24db_ := filter_mode_24db_ s;
     filter_state_0 := filter_state_0 s; filter_state_1 := filter_state_1 s;
     filter_state_2 := filter_state_2 s; filter_state_3 := v; osc2_enabled_ := osc2_enabled_ s;
     osc2_waveform_ := osc2_waveform_ s; osc2_pitch_ := osc2_pitch_ s;
     osc2_level_ := osc2_level_ s; fm_amount_ := fm_amount_ s; fm_ratio_ := fm_ratio_ s;
     osc2_decay_ := osc2_decay_ s; pulse_width_ := pulse_width_ s |}.

Definition set_osc2_enabled_ {F : Type} (v : Z) (s : Synth_ F) : Synth_ F :=
  {| phase1_ := phase1_ s; phase2_ := phase2_ s; click_phase_ := click_phase_ s;
     envelope_ := envelope_ s; pitch_envelope_ := pitch_envelope_ s;
     osc2_envelope_ := osc2_envelope_ s; click_envelope_ := click_envelope_ s;
     envelope_state_ := envelope_state_ s; current_note_ := current_note_ s;
     current_velocity_ := current_velocity_ s; preset_index_ := preset_index_ s;
     pitch_ := pitch_ s; decay_ := decay_ s; pitch_curve_ := pitch_curve_ s;
     body_level_ := body_level_ s; drive_ := drive_ s; attack_ := attack_ s;
     release_ := release_ s; click_level_ := click_level_ s; click_freq_ := click_freq_ s;
     click_decay_ := click_decay_ s; click_tone_ := click_tone_ s; last_noise_ := last_noise_ s;
     filter_enabled_ := filter_enabled_ s; filter_cutoff_ := filter_cutoff_ s;
     filter_resonance_ := filter_resonance_ s; filter_mode_24db_ := filter_mode_24db_ s;
     filter_state_0 := filter_state_0 s; filter_state_1 := filter_state_1 s;
     filter_state_2 := filter_state_2 s; filter_state_3 := filter_state_3 s; osc2_enabled_ := v;
     osc2_waveform_ := osc2_waveform_ s; osc2_pitch_ := osc2_pitch_ s;
     osc2_level_ := osc2_level_ s; fm_amount_ := fm_amount_ s; fm_ratio_ := fm_ratio_ s;
     osc2_decay_ := osc2_decay_ s; pulse_width_ := pulse_width_ s |}.

Definition set_osc2_waveform_ {F : Type} (v : Z) (s : Synth_ F) : Synth_ F :=
  {| phase1_ := phase1_ s; phase2_ := phase2_ s; click_phase_ := click_phase_ s;
     envelope_ := envelope_ s; pitch_envelope_ := pitch_envelope_ s;
     osc2_envelope_ := osc2_envelope_ s; click_envelope_ := click_envelope_ s;
     envelope_state_ := envelope_state_ s; current_note_ := current_note_ s;
     current_velocity_ := current_velocity_ s; preset_index_ := preset_index_ s;
     pitch_ := pitch_ s; decay_ := decay_ s; pitch_curve_ := pitch_curve_ s;
     body_level_ := body_level_ s; drive_ := drive_ s; attack_ := attack_ s;
     release_ := release_ s; click_level_ := click_level_ s; click_freq_ := click_freq_ s;
     click_decay_ := click_decay_ s; click_tone_ := click_tone_ s; last_noise_ := last_noise_ s;
     filter_enabled_ := filter_enabled_ s; filter_cutoff_ := filter_cutoff_ s;
     filter_resonance_ := filter_resonance_ s; filter_mode_24db_ := filter_mode_24db_ s;
     filter_state_0 := filter_state_0 s; filter_state_1 := filter_state_1 s;
     filter_state_2 := filter_state_2 s; filter_state_3 := filter_state_3 s;
     osc2_enabled_ := osc2_enabled_ s; osc2_waveform_ := v; osc2_pitch_ := osc2_pitch_ s;
     osc2_level_ := osc2_level_ s; fm_amount_ := fm_amount_ s; fm_ratio_ := fm_ratio_ s;
     osc2_decay_ := osc2_decay_ s; pulse_width_ := pulse_width_ s |}.

Definition set_osc2_pitch_ {F : Type} (v : F) (s : Synth_ F) : Synth_ F :=
  {| phase1_ := phase1_ s; phase2_ := phase2_ s; click_phase_ := click_phase_ s;
     envelope_ := envelope_ s; pitch_envelope_ := pitch_envelope_ s;
     osc2_envelope_ := osc2_envelope_ s; click_envelope_ := click_envelope_ s;
     envelope_state_ := envelope_state_ s; current_note_ := current_note_ s;
     current_velocity_ := current_velocity_ s; preset_index_ := preset_index_ s;
     pitch_ := pitch_ s; decay_ := decay_ s; pitch_curve_ := pitch_curve_ s;
     body_level_ := body_level_ s; drive_ := drive_ s; attack_ := attack_ s;
     release_ := release_ s; click_level_ := click_level_ s; click_freq_ := click_freq_ s;
     click_decay_ := click_decay_ s; click_tone_ := click_tone_ s; last_noise_ := last_noise_ s;
     filter_enabled_ := filter_enabled_ s; filter_cutoff_ := filter_cutoff_ s;
     filter_resonance_ := filter_resonance_ s; filter_mode_24db_ := filter_mode_24db_ s;
     filter_state_0 := filter_state_0 s; filter_state_1 := filter_state_1 s;
     filter_state_2 := filter_state_2 s; filter_state_3 := filter_state_3 s;
     osc2_enabled_ := osc2_enabled_ s; osc2_waveform_ := osc2_waveform_ s; osc2_pitch_ := v;
     osc2_level_ := osc2_level_ s; fm_amount_ := fm_amount_ s; fm_ratio_ := fm_ratio_ s;
     osc2_decay_ := osc2_decay_ s; pulse_width_ := pulse_width_ s |}.

Definition set_osc2_level_ {F : Type} (v : F) (s : Synth_ F) : Synth_ F :=
  {| phase1_ := phase1_ s; phase2_ := phase2_ s; click_phase_ := click_phase_ s;
     envelope_ := envelope_ s; pitch_envelope_ := pitch_envelope_ s;
     osc2_envelope_ := osc2_envelope_ s; click_envelope_ := click_envelope_ s;
     envelope_state_ := envelope_state_ s; current_note_ := current_note_ s;
     current_velocity_ := current_velocity_ s; preset_index_ := preset_index_ s;
     pitch_ := pitch_ s; decay_ := decay_ s; pitch_curve_ := pitch_curve_ s;
     body_level_ := body_level_ s; drive_ := drive_ s; attack_ := attack_ s;
     release_ := release_ s; click_level_ := click_level_ s; click_freq_ := click_freq_ s;
     click_decay_ := click_decay_ s; click_tone_ := click_tone_ s; last_noise_ := last_noise_ s;
     filter_enabled_ := filter_enabled_ s; filter_cutoff_ := filter_cutoff_ s;
     filter_resonance_ := filter_resonance_ s; filter_mode_24db_ := filter_mode_24db_ s;
     filter_state_0 := filter_state_0 s; filter_state_1 := filter_state_1 s;
     filter_state_2 := filter_state_2 s; filter_state_3 := filter_state_3 s;
     osc2_enabled_ := osc2_enabled_ s; osc2_waveform_ := osc2_waveform_ s;
     osc2_pitch_ := osc2_pitch_ s; osc2_level_ := v; fm_amount_ := fm_amount_ s;
     fm_ratio_ := fm_ratio_ s; osc2_decay_ := osc2_decay_ s; pulse_width_ := pulse_width_ s |}.

Definition set_fm_amount_ {F : Type} (v : F) (s : Synth_ F) : Synth_ F :=
  {| phase1_ := phase1_ s; phase2_ := phase2_ s; click_phase_ := click_phase_ s;
     envelope_ := envelope_ s; pitch_envelope_ := pitch_envelope_ s;
     osc2_envelope_ := osc2_envelope_ s; click_envelope_ := click_envelope_ s;
     envelope_state_ := envelope_state_ s; current_note_ := current_note_ s;
     current_velocity_ := current_velocity_ s; preset_index_ := preset_index_ s;
     pitch_ := pitch_ s; decay_ := decay_ s; pitch_curve_ := pitch_curve_ s;
     body_level_ := body_level_ s; drive_ := drive_ s; attack_ := attack_ s;
     release_ := release_ s; click_level_ := click_level_ s; click_freq_ := click_freq_ s;
     click_decay_ := click_decay_ s; click_tone_ := click_tone_ s; last_noise_ := last_noise_ s;
     filter_enabled_ := filter_enabled_ s; filter_cutoff_ := filter_cutoff_ s;
     filter_resonance_ := filter_resonance_ s; filter_mode_24db_ := filter_mode_24db_ s;
     filter_state_0 := filter_state_0 s; filter_state_1 := filter_state_1 s;
     filter_state_2 := filter_state_2 s; filter_state_3 := filter_state_3 s;
     osc2_enabled_ := osc2_enabled_ s; osc2_waveform_ := osc2_waveform_ s;
     osc2_pitch_ := osc2_pitch_ s; osc2_level_ := osc2_level_ s; fm_amount_ := v;
     fm_ratio_ := fm_ratio_ s; osc2_decay_ := osc2_decay_ s; pulse_width_ := pulse_width_ s |}.

Definition set_fm_ratio_ {F : Type} (v : F) (s : Synth_ F) : Synth_ F :=
  {| phase1_ := phase1_ s; phase2_ := phase2_ s; click_phase_ := click_phase_ s;
     envelope_ := envelope_ s; pitch_envelope_ := pitch_envelope_ s;
     osc2_envelope_ := osc2_envelope_ s; click_envelope_ := click_envelope_ s;
     envelope_state_ := envelope_state_ s; current_note_ := current_note_ s;
     current_velocity_ := current_velocity_ s; preset_index_ := preset_index_ s;
     pitch_ := pitch_ s; decay_ := decay_ s; pitch_curve_ := pitch_curve_ s;
     body_level_ := body_level_ s; drive_ := drive_ s; attack_ := attack_ s;
     release_ := release_ s; click_level_ := click_level_ s; click_freq_ := click_freq_ s;
     click_decay_ := click_decay_ s; click_tone_ := click_tone_ s; last_noise_ := last_noise_ s;
     filter_enabled_ := filter_enabled_ s; filter_cutoff_ := filter_cutoff_ s;
     filter_resonance_ := filter_resonance_ s; filter_mode_24db_ := filter_mode_24db_ s;
     filter_state_0 := filter_state_0 s; filter_state_1 := filter_state_1 s;
     filter_state_2 := filter_state_2 s; filter_state_3 := filter_state_3 s;
     osc2_enabled_ := osc2_enabled_ s; osc2_waveform_ := osc2_waveform_ s;
     osc2_pitch_ := osc2_pitch_ s; osc2_level_ := osc2_level_ s; fm_amount_ := fm_amount_ s;
     fm_ratio_ := v; osc2_decay_ := osc2_decay_ s; pulse_width_ := pulse_width_ s |}.

Definition set_osc2_decay_ {F : Type} (v : F) (s : Synth_ F) : Synth_ F :=
  {| phase1_ := phase1_ s; phase2_ := phase2_ s; click_phase_ := click_phase_ s;
     envelope_ := envelope_ s; pitch_envelope_ := pitch_envelope_ s;
     osc2_envelope_ := osc2_envelope_ s; click_envelope_ := click_envelope_ s;
     envelope_state_ := envelope_state_ s; current_note_ := current_note_ s;
     current_velocity_ := current_velocity_ s; preset_index_ := preset_index_ s;
     pitch_ := pitch_ s; decay_ := decay_ s; pitch_curve_ := pitch_curve_ s;
     body_level_ := body_level_ s; drive_ := drive_ s; attack_ := attack_ s;
     release_ := release_ s; click_level_ := click_level_ s; click_freq_ := click_freq_ s;
     click_decay_ := click_decay_ s; click_tone_ := click_tone_ s; last_noise_ := last_noise_ s;
     filter_enabled_ := filter_enabled_ s; filter_cutoff_ := filter_cutoff_ s;
     filter_resonance_ := filter_resonance_ s; filter_mode_24db_ := filter_mode_24db_ s;
     filter_state_0 := filter_state_0 s; filter_state_1 := filter_state_1 s;
     filter_state_2 := filter_state_2 s; filter_state_3 := filter_state_3 s;
     osc2_enabled_ := osc2_enabled_ s; osc2_waveform_ := osc2_waveform_ s;
     osc2_pitch_ := osc2_pitch_ s; osc2_level_ := osc2_level_ s; fm_amount_ := fm_amount_ s;
     fm_ratio_ := fm_ratio_ s; osc2_decay_ := v; pulse_width_ := pulse_width_ s |}.

Definition set_pulse_width_ {F : Type} (v : F) (s : Synth_ F) : Synth_ F :=
  {| phase1_ := phase1_ s; phase2_ := phase2_ s; click_phase_ := click_phase_ s;
     envelope_ := envelope_ s; pitch_envelope_ := pitch_envelope_ s;
     osc2_envelope_ := osc2_envelope_ s; click_envelope_ := click_envelope_ s;
     envelope_state_ := envelope_state_ s; current_note_ := current_note_ s;
     current_velocity_ := current_velocity_ s; preset_index_ := preset_index_ s;
     pitch_ := pitch_ s; decay_ := decay_ s; pitch_curve_ := pitch_curve_ s;
     body_level_ := body_level_ s; drive_ := drive_ s; attack_ := attack_ s;
     release_ := release_ s; click_level_ := click_level_ s; click_freq_ := click_freq_ s;
     click_decay_ := click_decay_ s; click_tone_ := click_tone_ s; last_noise_ := last_noise_ s;
     filter_enabled_ := filter_enabled_ s; filter_cutoff_ := filter_cutoff_ s;
     filter_resonance_ := filter_resonance_ s; filter_mode_24db_ := filter_mode_24db_ s;
     filter_state_0 := filter_state_0 s; filter_state_1 := filter_state_1 s;
     filter_state_2 := filter_state_2 s; filter_state_3 := filter_state_3 s;
     osc2_enabled_ := osc2_enabled_ s; osc2_waveform_ := osc2_waveform_ s;
     osc2_pitch_ := osc2_pitch_ s; osc2_level_ := osc2_level_ s; fm_amount_ := fm_amount_ s;
     fm_ratio_ := fm_ratio_ s; osc2_decay_ := osc2_decay_ s; pulse_width_ := v |}.

(* The object of the exact-real embedding. *)
Abbreviation Synth := (Synth_ R).
(** ** Lifecycle *)

Definition reset (s : Synth) : Synth :=
  let s := set_phase1_ 0 s in
  let s := set_phase2_ 0 s in
  let s := set_click_phase_ 0 s in
  let s := set_envelope_ 0 s in
  let s := set_envelope_state_ k_state_off s in
  let s := set_pitch_envelope_ 0 s in
  let s := set_osc2_envelope_ 0 s in
  let s := set_current_note_ 0 s in
  let s := set_current_velocity_ 0 s in
  (* Filter Reset *)
  let s := set_filter_enabled_ false s in
  let s := set_filter_mode_24db_ false s in
  let s := set_filter_state_0 0 s in
  let s := set_filter_state_1 0 s in
  let s := set_filter_state_2 0 s in
  let s := set_filter_state_3 0 s in
  let s := set_last_noise_ 0 s in
  set_click_envelope_ 0 s.

Definition initParams (s : Synth) : Synth :=
  let s := set_pitch_ 55 s in
  let s := set_decay_ 130 s in
  let s := set_click_level_ 0.5 s in
  let s := set_pitch_curve_ 0.5 s in
  let s := set_body_level_ 0.9 s in
  let s := set_drive_ 0.4 s in
  let s := set_attack_ 2 s in
  let s := set_release_ 300 s in
  let s := set_osc2_enabled_ 1 s in
  let s := set_osc2_waveform_ k_wave_sine s in
  let s := set_osc2_pitch_ 2 s in
  let s := set_osc2_level_ 0.5 s in
  let s := set_fm_amount_ 0 s in
  let s := set_fm_ratio_ 2 s in
  let s := set_osc2_decay_ 100 s in
  let s := set_pulse_width_ 0.5 s in
  let s := set_click_freq_ 200 s in
  let s := set_click_decay_ 20 s in
  let s := set_click_tone_ 0.6 s in
  let s := set_filter_enabled_ false s in
  let s := set_filter_cutoff_ 0.7 s in
  let s := set_filter_resonance_ 0.2 s in
  let s := set_filter_mode_24db_ false s in
  let s := set_preset_index_ 0 s in
  let s := set_last_noise_ 0 s in
  set_click_envelope_ 0 s.

(* Synth(void) { reset(); initParams(); } on whatever the storage held. *)
Definition Synth_ctor (uninitialised : Synth) : Synth :=
  initParams (reset uninitialised).

(* The fields of unit_runtime_desc_t (unit.h) that Init reads. *)
Record unit_runtime_desc_t : Type := mk_desc {
  samplerate : Z;
  output_channels : Z
}.

Section Lifecycle.
(* The error codes of unit.h, which is not part of the sources at hand. *)
Variables k_unit_err_none k_unit_err_samplerate k_unit_err_geometry : Z.

Definition Init (desc : unit_runtime_desc_t) (s : Synth) : Z * Synth :=
  if negb (samplerate desc =? 48000)%Z then (k_unit_err_samplerate, s)
  else if negb (output_channels desc =? 2)%Z then (k_unit_err_geometry, s)
  else (k_unit_err_none, initParams (reset s)).
End Lifecycle.

Definition Teardown (s : Synth) : Synth := s.
Definition Reset (s : Synth) : Synth := reset s.
Definition Resume (s : Synth) : Synth := s.
Definition Suspend (s : Synth) : Synth := s.

(** ** The per-sample pipeline *)

(* 1.f / y.  For y = 0 (a zero time parameter) the IEEE quotient is
   +infinity, written [None]; every use below compares the accumulated
   value against a bound right away, and +-infinity takes the clamping
   branch of that comparison. *)
Definition recip (y : R) : option R :=
  if Req_dec_T y 0 then None else Some (1 / y).

(* switch (envelope_state_) { ... }: the new envelope_ and envelope_state_ *)
Definition amp_envelope (st : env_state) (env attack release : R) : R * env_state :=
  match st with
  | k_state_attack =>
      match recip (attack / 1000 * k_samplerate) with
      | Some inc =>
          let env := env + inc in
          if Rgeb env 1 then (1, k_state_decay) else (env, k_state_attack)
      | None => (1, k_state_decay)
      end
  | k_state_decay =>
      match recip (release / 1000 * k_samplerate) with
      | Some dec =>
          let env := env - dec in
          if Rleb env 0 then (0, k_state_off) else (env, k_state_decay)
      | None => (0, k_state_off)
      end
  | k_state_release =>
      match recip (release / 1000 * k_samplerate) with
      | Some dec =>
          let env := env - dec in
          if Rleb env 0 then (0, k_state_off) else (env, k_state_release)
      | None => (0, k_state_off)
      end
  | k_state_off => (env, k_state_off)
  end.

(* e -= 1.f / (t / 1000.f * k_samplerate); if (e < 0.f) e = 0.f; *)
Definition decay_envelope (e t : R) : R :=
  match recip (t / 1000 * k_samplerate) with
  | Some dec => let e := e - dec in if Rltb e 0 then 0 else e
  | None => 0
  end.

(* p += inc; if (p >= 1.f) p -= 1.f; *)
Definition advance_phase (p inc : R) : R :=
  let p := p + inc in
  if Rgeb p 1 then p - 1 else p.

(* The second oscillator before its level and envelope: the wave shape and
   the number of std::rand calls made. *)
Definition osc2_wave (rnd : nat -> Z) (k : nat) (waveform : Z) (phase width : R) : R * nat :=
  if (waveform =? k_wave_sine)%Z then (waveformSine phase, k)
  else if (waveform =? k_wave_saw)%Z then (waveformSaw phase, k)
  else if (waveform =? k_wave_triangle)%Z then (waveformTriangle phase, k)
  else if (waveform =? k_wave_pulse)%Z then (waveformPulse phase width, k)
  else if (waveform =? k_wave_noise)%Z then (waveformNoise (rnd k), S k)
  else (waveformSine phase, k).

(* Soft-Clipping (Drive/Distortion) *)
Definition soft_clip (drive out : R) : R :=
  if Rgtb drive 0 then
    let out := out * (1 + drive * 4) in
    tanh out * (1 / (1 + drive * 1.5))
  else out.

(* The 24dB/Oct branch: the four new accumulators. *)
Definition filter24 (cutoff resonance out f0 f1 f2 f3 : R) : R * R * R * R :=
  let f := cutoff * 1.16 in
  let fb := resonance * 4 * (1 - 0.15 * f * f) in
  let input := out in
  let input := input - f3 * fb in
  let input := input * (0.35013 * f * f * f * f) in
  let f0 := input + 0.3 * f0 in
  let f1 := f0 + 0.3 * f1 in
  let f2 := f1 + 0.3 * f2 in
  let f3 := f2 + 0.3 * f3 in
  (f0, f1, f2, f3).

(* The 12dB/Oct branch: the two new accumulators. *)
Definition filter12 (cutoff resonance out f0 f1 : R) : R * R :=
  let f := cutoff * 1.16 in
  let fb := resonance * 2.5 * (1 - 0.2 * f * f) in
  let input := out in
  let input := input - f1 * fb in
  let input := input * (0.35013 * f * f) in
  let f0 := input + 0.3 * f0 in
  let f1 := f0 + 0.3 * f1 in
  (f0, f1).

(* Hard-Limiting am Ende *)
Definition hard_limit (out : R) : R :=
  let out := if Rgtb out 1 then 1 else out in
  if Rltb out (-1) then -1 else out.

(* float process(): the sample, the object afterwards, and the number of
   std::rand calls made so far. *)
Definition process (rnd : nat -> Z) (s : Synth) (k : nat) : R * Synth * nat :=
  (* Envelope-Berechnung *)
  let amp := amp_envelope (envelope_state_ s) (envelope_ s) (attack_ s) (release_ s) in
  let envelope := fst amp in
  let envelope_state := snd amp in
  (* Pitch-, OSC2- und Click-Envelope *)
  let running := negb (is_off envelope_state) in
  let pitch_envelope :=
    if running then decay_envelope (pitch_envelope_ s) (decay_ s) else pitch_envelope_ s in
  let osc2_envelope :=
    if running then decay_envelope (osc2_envelope_ s) (osc2_decay_ s) else osc2_envelope_ s in
  let click_envelope :=
    if running then decay_envelope (click_envelope_ s) (click_decay_ s) else click_envelope_ s in
  (* Aktuelle Tonhoehe *)
  let current_pitch := pitch_ s * (1 - pitch_envelope * pitch_curve_ s) in
  let freq1 := current_pitch in
  let freq2 := current_pitch * osc2_pitch_ s in
  (* Frequenzmodulation *)
  let fm_mod :=
    if negb (osc2_enabled_ s =? 0)%Z && Rgtb (fm_amount_ s) 0 then
      let mod_phase := phase2_ s in
      let mod_wave := waveformSine mod_phase in
      mod_wave * fm_amount_ s * osc2_envelope * 100
    else 0 in
  (* Phasen *)
  let phase1 := advance_phase (phase1_ s) ((freq1 + fm_mod) / k_samplerate) in
  let phase2 := advance_phase (phase2_ s) (freq2 * fm_ratio_ s / k_samplerate) in
  let click_phase := advance_phase (click_phase_ s) (click_freq_ s / k_samplerate) in
  (* Oszillator 1 *)
  let body := waveformSine phase1 * body_level_ s in
  (* Oszillator 2 *)
  let wave2 :=
    if negb (osc2_enabled_ s =? 0)%Z
    then osc2_wave rnd k (osc2_waveform_ s) phase2 (pulse_width_ s)
    else (0, k) in
  let osc2_out :=
    if negb (osc2_enabled_ s =? 0)%Z
    then fst wave2 * (osc2_level_ s * osc2_envelope)
    else 0 in
  let k1 := snd wave2 in
  (* Click *)
  let clicking := running && Rgtb click_envelope 0 in
  let noise := waveformNoise (rnd k1) in
  let tonal := sin (click_phase * k_twopi) in
  let click_source := noise * (1 - click_tone_ s) + tonal * click_tone_ s in
  let hp_click := click_source - last_noise_ s * 0.7 in
  let last_noise := if clicking then click_source else last_noise_ s in
  let click := if clicking then hp_click * click_level_ s * click_envelope * 3 else 0 in
  let k2 := if clicking then S k1 else k1 in
  (* Kombinieren von Body, OSC2 und Click; Soft-Clipping *)
  let out := body + osc2_out + click in
  let out := soft_clip (drive_ s) out in
  (* Filter *)
  let cutoff := filter_cutoff_ s * 0.9 + 0.1 in
  let resonance := filter_resonance_ s * 0.98 in
  let f24 := filter24 cutoff resonance out
               (filter_state_0 s) (filter_state_1 s) (filter_state_2 s) (filter_state_3 s) in
  let f12 := filter12 cutoff resonance out (filter_state_0 s) (filter_state_1 s) in
  let filter_state0 :=
    if filter_enabled_ s
    then if filter_mode_24db_ s then fst (fst (fst f24)) else fst f12
    else filter_state_0 s in
  let filter_state1 :=
    if filter_enabled_ s
    then if filter_mode_24db_ s then snd (fst (fst f24)) else snd f12
    else filter_state_1 s in
  let filter_state2 :=
    if filter_enabled_ s && filter_mode_24db_ s then snd (fst f24) else filter_state_2 s in
  let filter_state3 :=
    if filter_enabled_ s && filter_mode_24db_ s then snd f24 else filter_state_3 s in
  let out :=
    if filter_enabled_ s
    then if filter_mode_24db_ s then filter_state3 else filter_state1
    else out in
  (* Verstaerkung, Envelope, Hard-Limiting *)
  let out := out * 1.3 in
  let out := out * (envelope * current_velocity_ s) in
  let out := hard_limit out in
  let s := set_envelope_ envelope s in
  let s := set_envelope_state_ envelope_state s in
  let s := set_pitch_envelope_ pitch_envelope s in
  let s := set_osc2_envelope_ osc2_envelope s in
  let s := set_click_envelope_ click_envelope s in
  let s := set_phase1_ phase1 s in
  let s := set_phase2_ phase2 s in
  let s := set_click_phase_ click_phase s in
  let s := set_last_noise_ last_noise s in
  let s := set_filter_state_0 filter_state0 s in
  let s := set_filter_state_1 filter_state1 s in
  let s := set_filter_state_2 filter_state2 s in
  let s := set_filter_state_3 filter_state3 s in
  (out, s, k2).

(* Render: the interleaved stereo buffer written (2 * frames values), the
   object afterwards and the std::rand calls made. *)
Fixpoint Render (rnd : nat -> Z) (frames : nat) (s : Synth) (k : nat) : list R * Synth * nat :=
  match frames with
  | O => ([], s, k)
  | S frames' =>
      let r := process rnd s k in
      let value := fst (fst r) in
      let rest := Render rnd frames' (snd (fst r)) (snd r) in
      (value :: value :: fst (fst rest), snd (fst rest), snd rest)
  end.

(** ** Parameter interface *)

Definition setParameter (index : Z) (value : Z) (s : Synth) : Synth :=
  if (index =? k_param_pitch)%Z then set_pitch_ (IZR value) s
  else if (index =? k_param_decay)%Z then set_decay_ (IZR value) s
  else if (index =? k_param_body_level)%Z then set_body_level_ (IZR value / 100) s
  else if (index =? k_param_drive)%Z then set_drive_ (IZR value / 100) s
  else if (index =? k_param_attack)%Z then set_attack_ (IZR value) s
  else if (index =? k_param_release)%Z then set_release_ (IZR value) s
  else if (index =? k_param_pitch_curve)%Z then set_pitch_curve_ (IZR value / 100) s
  else if (index =? k_param_click_level)%Z then set_click_level_ (IZR value / 100) s
  else if (index =? k_param_click_freq)%Z then set_click_freq_ (IZR value) s
  else if (index =? k_param_click_decay)%Z then set_click_decay_ (IZR value) s
  else if (index =? k_param_click_tone)%Z then set_click_tone_ (IZR value / 100) s
  else if (index =? k_param_filter_enabled)%Z then set_filter_enabled_ (0 <? value)%Z s
  else if (index =? k_param_filter_cutoff)%Z then set_filter_cutoff_ (IZR value / 100) s
  else if (index =? k_param_filter_resonance)%Z then set_filter_resonance_ (IZR value / 100) s
  else if (index =? k_param_filter_mode)%Z then set_filter_mode_24db_ (0 <? value)%Z s
  else if (index =? k_param_osc2_enabled)%Z then set_osc2_enabled_ (to_uint8 value) s
  else if (index =? k_param_osc2_waveform)%Z then set_osc2_waveform_ (to_uint8 value) s
  else if (index =? k_param_osc2_pitch)%Z then set_osc2_pitch_ (IZR value / 10) s
  else if (index =? k_param_osc2_level)%Z then set_osc2_level_ (IZR value / 100) s
  else if (index =? k_param_fm_amount)%Z then set_fm_amount_ (IZR value / 100) s
  else if (index =? k_param_fm_ratio)%Z then set_fm_ratio_ (IZR value / 10) s
  else if (index =? k_param_osc2_decay)%Z then set_osc2_decay_ (IZR value) s
  else s.

Definition placeholder : string := "---"%string.

Definition getParameterStrValue (index : Z) (value : Z) : string :=
  if (index =? k_param_osc2_waveform)%Z then
    let wave_idx := to_uint8 value in
    if (wave_idx <? k_num_waves)%Z
    then nth (Z.to_nat wave_idx) s_waveform_names placeholder
    else placeholder
  else placeholder.

(** ** MIDI interface *)

(* The text of NoteOn in synth.h holds its opening lines twice (the
   signature and the first seven statements); the statements are embedded
   in the order in which they stand there. *)
Definition NoteOn (note velocity : Z) (s : Synth) : Synth :=
  let s := set_current_note_ note s in
  let s := set_current_velocity_ (IZR velocity / 127) s in
  let s := set_envelope_state_ k_state_attack s in
  let s := set_envelope_ 0 s in
  let s := set_pitch_envelope_ 1 s in
  let s := set_osc2_envelope_ 1 s in
  let s := set_current_note_ note s in
  let s := set_current_velocity_ (IZR velocity / 127) s in
  let s := set_envelope_state_ k_state_attack s in
  let s := set_envelope_ 0 s in
  let s := set_pitch_envelope_ 1 s in
  let s := set_osc2_envelope_ 1 s in
  let s := set_click_envelope_ 1 s in
  (* Filter- und Click-Status zuruecksetzen *)
  let s := set_last_noise_ 0 s in
  let s := set_filter_state_0 0 s in
  let s := set_filter_state_1 0 s in
  let s := set_filter_state_2 0 s in
  set_filter_state_3 0 s.

Definition NoteOff (note : Z) (s : Synth) : Synth :=
  if (note =? current_note_ s)%Z || (note =? 255)%Z
  then set_envelope_state_ k_state_release s
  else s.

Definition GateOn (velocity : Z) (s : Synth) : Synth := NoteOn 255 velocity s.
Definition GateOff (s : Synth) : Synth := NoteOff 255 s.
Definition AllNoteOff (s : Synth) : Synth := NoteOff 255 s.
Definition PitchBend (bend : Z) (s : Synth) : Synth := s.
Definition ChannelPressure (pressure : Z) (s : Synth) : Synth := s.
Definition Aftertouch (note aftertouch : Z) (s : Synth) : Synth := s.

(** ** Preset interface *)

(* One case of the switch in LoadPreset: the 22 assignments, in the order
   of the source. *)
Definition preset_values
    (pitch decay pitch_curve body_level drive attack release : R)
    (click_level click_freq click_decay click_tone : R)
    (filter_enabled : bool) (filter_cutoff filter_resonance : R) (filter_mode_24db : bool)
    (osc2_enabled osc2_waveform : Z)
    (osc2_pitch osc2_level fm_amount fm_ratio osc2_decay : R) (s : Synth) : Synth :=
  let s := set_pitch_ pitch s in
  let s := set_decay_ decay s in
  let s := set_pitch_curve_ pitch_curve s in
  let s := set_body_level_ body_level s in
  let s := set_drive_ drive s in
  let s := set_attack_ attack s in
  let s := set_release_ release s in
  let s := set_click_level_ click_level s in
  let s := set_click_freq_ click_freq s in
  let s := set_click_decay_ click_decay s in
  let s := set_click_tone_ click_tone s in
  let s := set_filter_enabled_ filter_enabled s in
  let s := set_filter_cutoff_ filter_cutoff s in
  let s := set_filter_resonance_ filter_resonance s in
  let s := set_filter_mode_24db_ filter_mode_24db s in
  let s := set_osc2_enabled_ osc2_enabled s in
  let s := set_osc2_waveform_ osc2_waveform s in
  let s := set_osc2_pitch_ osc2_pitch s in
  let s := set_osc2_level_ osc2_level s in
  let s := set_fm_amount_ fm_amount s in
  let s := set_fm_ratio_ fm_ratio s in
  set_osc2_decay_ osc2_decay s.

Definition LoadPreset (index : Z) (s : Synth) : Synth :=
  let s := set_preset_index_ index s in
  if (index =? k_preset_basic)%Z then
    preset_values 55 130 0.5 0.9 0.4 3 300   0.5 200 20 0.6
                  false 0.7 0.2 false   0 k_wave_sine 2 0 0 2 100 s
  else if (index =? k_preset_punchy)%Z then
    preset_values 70 80 0.7 0.9 0.6 1 180   0.8 250 15 0.5
                  true 0.9 0.3 false   0 k_wave_sine 2 0 0 2 100 s
  else if (index =? k_preset_sub)%Z then
    preset_values 45 250 0.3 0.95 0.35 8 500   0.3 180 25 0.7
                  true 0.6 0.1 true   0 k_wave_sine 2 0 0 2 100 s
  else if (index =? k_preset_fm_kick)%Z then
    preset_values 55 180 0.6 0.7 0.5 3 250   0.4 220 18 0.8
                  true 0.85 0.4 false   1 k_wave_sine 3 0.6 0.7 2.7 80 s
  else if (index =? k_preset_noise_attack)%Z then
    preset_values 50 200 0.5 0.85 0.4 2 280   0.7 300 12 0.3
                  true 0.95 0.3 false   1 k_wave_noise 1 0.7 0 1 20 s
  else s.

Definition getPresetIndex (s : Synth) : Z := preset_index_ s.

Definition getPresetName (idx : Z) : string :=
  if (idx <? 5)%Z then nth (Z.to_nat idx) s_preset_names placeholder else placeholder.
(** ** Reading parameters back *)

(* The conversion of a float to int32_t drops the fraction (towards zero).
   Where the result does not fit into an int32_t, C++ defines no value:
   [None]. *)
Definition Rtrunc (x : R) : Z :=
  if Rle_dec 0 x then Int_part x else (- Int_part (- x))%Z.

Definition to_int32 (x : R) : option Z :=
  let z := Rtrunc x in
  if ((-2147483648 <=? z) && (z <=? 2147483647))%Z then Some z else None.

(* The uint8_t and bool members convert to int32_t as they are. *)
Definition getParameterValue (index : Z) (s : Synth) : option Z :=
  if (index =? k_param_pitch)%Z then to_int32 (pitch_ s)
  else if (index =? k_param_decay)%Z then to_int32 (decay_ s)
  else if (index =? k_param_body_level)%Z then to_int32 (body_level_ s * 100)
  else if (index =? k_param_drive)%Z then to_int32 (drive_ s * 100)
  else if (index =? k_param_attack)%Z then to_int32 (attack_ s)
  else if (index =? k_param_release)%Z then to_int32 (release_ s)
  else if (index =? k_param_pitch_curve)%Z then to_int32 (pitch_curve_ s * 100)
  else if (index =? k_param_click_level)%Z then to_int32 (click_level_ s * 100)
  else if (index =? k_param_click_freq)%Z then to_int32 (click_freq_ s)
  else if (index =? k_param_click_decay)%Z then to_int32 (click_decay_ s)
  else if (index =? k_param_click_tone)%Z then to_int32 (click_tone_ s * 100)
  else if (index =? k_param_filter_enabled)%Z then Some (if filter_enabled_ s then 1 else 0)%Z
  else if (index =? k_param_filter_cutoff)%Z then to_int32 (filter_cutoff_ s * 100)
  else if (index =? k_param_filter_resonance)%Z then to_int32 (filter_resonance_ s * 100)
  else if (index =? k_param_filter_mode)%Z then Some (if filter_mode_24db_ s then 1 else 0)%Z
  else if (index =? k_param_osc2_enabled)%Z then Some (osc2_enabled_ s)
  else if (index =? k_param_osc2_waveform)%Z then Some (osc2_waveform_ s)
  else if (index =? k_param_osc2_pitch)%Z then to_int32 (osc2_pitch_ s * 10)
  else if (index =? k_param_osc2_level)%Z then to_int32 (osc2_level_ s * 100)
  else if (index =? k_param_fm_amount)%Z then to_int32 (fm_amount_ s * 100)
  else if (index =? k_param_fm_ratio)%Z then to_int32 (fm_ratio_ s * 10)
  else if (index =? k_param_osc2_decay)%Z then to_int32 (osc2_decay_ s)
  else Some 0%Z.

(* s_bitmaps[k_num_waves][32]: the five wave pictures, 32 bytes each. *)
Definition s_bitmaps : list (list Z) :=
  [ [0; 0; 0; 0; 0; 240; 3; 12; 12; 2; 16; 1; 32; 1; 64; 0;
     64; 0; 64; 0; 64; 0; 32; 1; 16; 1; 12; 2; 3; 12; 0; 240];
    [0; 0; 128; 0; 64; 1; 32; 2; 16; 4; 8; 8; 4; 16; 2; 32;
     1; 64; 0; 128; 255; 255; 0; 0; 0; 0; 0; 0; 0; 0; 0; 0];
    [0; 0; 0; 128; 0; 64; 0; 32; 0; 16; 0; 8; 0; 4; 0; 2;
     0; 1; 128; 0; 64; 0; 32; 0; 16; 0; 8; 0; 4; 0; 2; 0];
    [0; 0; 255; 127; 1; 64; 1; 64; 1; 64; 1; 64; 1; 64; 1; 64;
     1; 64; 1; 64; 1; 64; 1; 64; 1; 64; 1; 64; 255; 127; 0; 0];
    [0; 0; 36; 130; 88; 37; 162; 80; 20; 138; 66; 81; 133; 36; 80; 138;
     36; 81; 130; 36; 80; 138; 36; 81; 68; 42; 168; 20; 82; 66; 0; 0] ]%Z.

Definition getParameterBmpValue (index : Z) (value : Z) : list Z :=
  if (index =? k_param_osc2_waveform)%Z then
    let wave_idx := to_uint8 value in
    if (wave_idx <? k_num_waves)%Z
    then nth (Z.to_nat wave_idx) s_bitmaps []
    else nth 0 s_bitmaps []
  else nth 0 s_bitmaps [].


(** ** Vocabulary of the statements *)

(* Storage with every member zero, used where a concrete object is needed. *)
Definition zero_storage : Synth :=
  mkSynth 0 0 0 0 0 0 0 k_state_off 0%Z 0 0%Z 0 0 0 0 0 0 0 0 0 0 0 0
          false 0 0 false 0 0 0 0 0%Z 0%Z 0 0 0 0 0 0.

(* The object right after construction. *)
Definition fresh : Synth := Synth_ctor zero_storage.

(* Voice State at its zero/idle values. *)
Definition voice_state_zero (s : Synth) : Prop :=
  phase1_ s = 0 /\ phase2_ s = 0 /\ click_phase_ s = 0 /\
  envelope_ s = 0 /\ pitch_envelope_ s = 0 /\ osc2_envelope_ s = 0 /\
  click_envelope_ s = 0 /\ envelope_state_ s = k_state_off /\
  current_note_ s = 0%Z /\ current_velocity_ s = 0 /\
  filter_state_0 s = 0 /\ filter_state_1 s = 0 /\
  filter_state_2 s = 0 /\ filter_state_3 s = 0 /\ last_noise_ s = 0.

(* The Parameter Set: the 22 members that setParameter addresses. *)
Record parameter_set : Type := mk_parameter_set {
  p_pitch : R; p_decay : R; p_body_level : R; p_drive : R; p_attack : R;
  p_release : R; p_pitch_curve : R;
  p_click_level : R; p_click_freq : R; p_click_decay : R; p_click_tone : R;
  p_filter_enabled : bool; p_filter_cutoff : R; p_filter_resonance : R;
  p_filter_mode_24db : bool;
  p_osc2_enabled : Z; p_osc2_waveform : Z; p_osc2_pitch : R; p_osc2_level : R;
  p_fm_amount : R; p_fm_ratio : R; p_osc2_decay : R
}.

Definition parameters (s : Synth) : parameter_set :=
  mk_parameter_set (pitch_ s) (decay_ s) (body_level_ s) (drive_ s) (attack_ s)
    (release_ s) (pitch_curve_ s)
    (click_level_ s) (click_freq_ s) (click_decay_ s) (click_tone_ s)
    (filter_enabled_ s) (filter_cutoff_ s) (filter_resonance_ s) (filter_mode_24db_ s)
    (osc2_enabled_ s) (osc2_waveform_ s) (osc2_pitch_ s) (osc2_level_ s)
    (fm_amount_ s) (fm_ratio_ s) (osc2_decay_ s).

(* The values initParams assigns. *)
Definition default_parameters : parameter_set :=
  mk_parameter_set 55 130 0.9 0.4 2 300 0.5   0.5 200 20 0.6
                   false 0.7 0.2 false   1%Z k_wave_sine 2 0.5 0 2 100.

(* The Parameter Set without the two filter switches. *)
Definition parameters_but_filter_switches (s : Synth) : parameter_set :=
  mk_parameter_set (pitch_ s) (decay_ s) (body_level_ s) (drive_ s) (attack_ s)
    (release_ s) (pitch_curve_ s)
    (click_level_ s) (click_freq_ s) (click_decay_ s) (click_tone_ s)
    false (filter_cutoff_ s) (filter_resonance_ s) false
    (osc2_enabled_ s) (osc2_waveform_ s) (osc2_pitch_ s) (osc2_level_ s)
    (fm_amount_ s) (fm_ratio_ s) (osc2_decay_ s).

(* The three phase accumulators. *)
Definition phases (s : Synth) : R * R * R := (phase1_ s, phase2_ s, click_phase_ s).

(* The four envelope values. *)
Definition envelopes (s : Synth) : R * R * R * R :=
  (envelope_ s, pitch_envelope_ s, osc2_envelope_ s, click_envelope_ s).

(* A note-off that NoteOff acts on. *)
Definition note_matches (note : Z) (s : Synth) : Prop :=
  note = current_note_ s \/ note = 255%Z.

(* The object and the std::rand count after [n] more samples (the state in
   which Render leaves them after [n] frames). *)
Definition after_samples (rnd : nat -> Z) (n : nat) (s : Synth) (k : nat) : Synth * nat :=
  (snd (fst (Render rnd n s k)), snd (Render rnd n s k)).

(* The per-sample steps of the amplitude envelope, as the specification
   writes them. *)
Definition amp_increment (attack_ms : R) : R := 1000 / (attack_ms * 48000).
Definition amp_decrement (release_ms : R) : R := 1000 / (release_ms * 48000).

(* Quantities of one call of process, as functions of the object before
   the call.  [current_pitch] is the local of that name (also freq1);
   [fm_offset] is the local fm_mod; [body_frequency] is freq1 + fm_mod, the
   frequency by which the body phase advances. *)
Definition running_next (s : Synth) : bool :=
  negb (is_off (snd (amp_envelope (envelope_state_ s) (envelope_ s) (attack_ s) (release_ s)))).

Definition pitch_envelope_next (s : Synth) : R :=
  if running_next s then decay_envelope (pitch_envelope_ s) (decay_ s) else pitch_envelope_ s.

Definition osc2_envelope_next (s : Synth) : R :=
  if running_next s then decay_envelope (osc2_envelope_ s) (osc2_decay_ s) else osc2_envelope_ s.

Definition click_envelope_next (s : Synth) : R :=
  if running_next s then decay_envelope (click_envelope_ s) (click_decay_ s)
  else click_envelope_ s.

Definition current_pitch (s : Synth) : R :=
  pitch_ s * (1 - pitch_envelope_next s * pitch_curve_ s).

Definition fm_active (s : Synth) : bool :=
  negb (osc2_enabled_ s =? 0)%Z && Rgtb (fm_amount_ s) 0.

Definition fm_offset (s : Synth) : R :=
  if fm_active s
  then waveformSine (phase2_ s) * fm_amount_ s * osc2_envelope_next s * 100
  else 0.

Definition body_frequency (s : Synth) : R := current_pitch s + fm_offset s.

Definition osc2_frequency (s : Synth) : R := current_pitch s * osc2_pitch_ s * fm_ratio_ s.

(** ** The unit header (header.c): the parameter descriptors

    min, max, center, default and name of each descriptor, in the order of
    the table. *)
Definition unit_header_params : list (Z * Z * Z * Z * string) :=
  [ (40, 150, 40, 60, "PITCH"); (10, 500, 10, 150, "DECAY");
    (0, 100, 0, 50, "BODY"); (0, 100, 0, 40, "DRIVE");
    (0, 50, 0, 2, "ATTACK"); (10, 1000, 10, 300, "RELEASE");
    (0, 100, 0, 50, "P.CURVE"); (0, 0, 0, 0, "");
    (0, 100, 0, 50, "CLICK LVL"); (50, 400, 100, 200, "CLICK FREQ");
    (1, 100, 10, 20, "CLICK DCY"); (0, 100, 0, 60, "CLICK TONE");
    (0, 1, 0, 0, "FILTER ON"); (0, 100, 0, 70, "CUTOFF");
    (0, 100, 0, 20, "RESONANCE"); (0, 1, 0, 0, "24DB MODE");
    (0, 1, 0, 1, "OSC2 ON"); (0, 4, 0, 0, "OSC2 WAVE");
    (5, 60, 5, 20, "OSC2 PITCH"); (0, 100, 0, 50, "OSC2 LEVEL");
    (0, 100, 0, 0, "FM AMOUNT"); (5, 50, 5, 20, "FM RATIO");
    (10, 500, 10, 100, "OSC2 DECAY"); (0, 0, 0, 0, "") ]%Z%string.

Definition unit_header_num_presets : Z := 5.

(* min and max of the descriptor called [name]. *)
Definition documented_range (name : string) : Z * Z :=
  match find (fun d => String.eqb (snd d) name) unit_header_params with
  | Some (lo, hi, _, _, _) => (lo, hi)
  | None => (0, 0)%Z
  end.

(* The member [x], which setParameter computes as raw / scale, comes from
   a raw value inside the range of the descriptor [name]. *)
Definition in_range (name : string) (scale : R) (x : R) : Prop :=
  IZR (fst (documented_range name)) / scale <= x <= IZR (snd (documented_range name)) / scale.

Definition in_range_Z (name : string) (x : Z) : Prop :=
  (fst (documented_range name) <= x <= snd (documented_range name))%Z.

(* Every numeric parameter lies in the range that header.c documents for
   the parameter of that meaning (the two filter switches are booleans and
   always do). *)
Definition in_documented_ranges (s : Synth) : Prop :=
  in_range "PITCH" 1 (pitch_ s) /\
  in_range "DECAY" 1 (decay_ s) /\
  in_range "BODY" 100 (body_level_ s) /\
  in_range "DRIVE" 100 (drive_ s) /\
  in_range "ATTACK" 1 (attack_ s) /\
  in_range "RELEASE" 1 (release_ s) /\
  in_range "P.CURVE" 100 (pitch_curve_ s) /\
  in_range "CLICK LVL" 100 (click_level_ s) /\
  in_range "CLICK FREQ" 1 (click_freq_ s) /\
  in_range "CLICK DCY" 1 (click_decay_ s) /\
  in_range "CLICK TONE" 100 (click_tone_ s) /\
  in_range "CUTOFF" 100 (filter_cutoff_ s) /\
  in_range "RESONANCE" 100 (filter_resonance_ s) /\
  in_range_Z "OSC2 ON" (osc2_enabled_ s) /\
  in_range_Z "OSC2 WAVE" (osc2_waveform_ s) /\
  in_range "OSC2 PITCH" 10 (osc2_pitch_ s) /\
  in_range "OSC2 LEVEL" 100 (osc2_level_ s) /\
  in_range "FM AMOUNT" 100 (fm_amount_ s) /\
  in_range "FM RATIO" 10 (fm_ratio_ s) /\
  in_range "OSC2 DECAY" 1 (osc2_decay_ s).

(* The header.c descriptor that documents the parameter [index] of
   setParameter (by meaning). *)
Definition parameter_name (index : Z) : string :=
  if (index =? k_param_pitch)%Z then "PITCH"
  else if (index =? k_param_decay)%Z then "DECAY"
  else if (index =? k_param_body_level)%Z then "BODY"
  else if (index =? k_param_drive)%Z then "DRIVE"
  else if (index =? k_param_attack)%Z then "ATTACK"
  else if (index =? k_param_release)%Z then "RELEASE"
  else if (index =? k_param_pitch_curve)%Z then "P.CURVE"
  else if (index =? k_param_click_level)%Z then "CLICK LVL"
  else if (index =? k_param_click_freq)%Z then "CLICK FREQ"
  else if (index =? k_param_click_decay)%Z then "CLICK DCY"
  else if (index =? k_param_click_tone)%Z then "CLICK TONE"
  else if (index =? k_param_filter_enabled)%Z then "FILTER ON"
  else if (index =? k_param_filter_cutoff)%Z then "CUTOFF"
  else if (index =? k_param_filter_resonance)%Z then "RESONANCE"
  else if (index =? k_param_filter_mode)%Z then "24DB MODE"
  else if (index =? k_param_osc2_enabled)%Z then "OSC2 ON"
  else if (index =? k_param_osc2_waveform)%Z then "OSC2 WAVE"
  else if (index =? k_param_osc2_pitch)%Z then "OSC2 PITCH"
  else if (index =? k_param_osc2_level)%Z then "OSC2 LEVEL"
  else if (index =? k_param_fm_amount)%Z then "FM AMOUNT"
  else if (index =? k_param_fm_ratio)%Z then "FM RATIO"
  else if (index =? k_param_osc2_decay)%Z then "OSC2 DECAY"
  else "".

(* What holds of the phases at all times while the parameters are inside
   the documented ranges, with the bounds on the two envelopes that the
   frequencies depend on. *)
Definition phases_regular (s : Synth) : Prop :=
  phase1_ s < 1 /\ 0 <= phase2_ s < 1 /\ 0 <= click_phase_ s < 1 /\
  0 <= pitch_envelope_ s <= 1 /\ 0 <= osc2_envelope_ s <= 1.

(** ** Event histories *)

Inductive event : Type :=
  | ev_NoteOn (note velocity : Z)
  | ev_NoteOff (note : Z)
  | ev_GateOn (velocity : Z)
  | ev_GateOff
  | ev_AllNoteOff
  | ev_setParameter (index value : Z)
  | ev_LoadPreset (index : Z)
  | ev_Reset
  | ev_Render (frames : nat).

Definition apply_event (rnd : nat -> Z) (e : event) (w : Synth * nat) : Synth * nat :=
  match e with
  | ev_NoteOn note velocity => (NoteOn note velocity (fst w), snd w)
  | ev_NoteOff note => (NoteOff note (fst w), snd w)
  | ev_GateOn velocity => (GateOn velocity (fst w), snd w)
  | ev_GateOff => (GateOff (fst w), snd w)
  | ev_AllNoteOff => (AllNoteOff (fst w), snd w)
  | ev_setParameter index value => (setParameter index value (fst w), snd w)
  | ev_LoadPreset index => (LoadPreset index (fst w), snd w)
  | ev_Reset => (Reset (fst w), snd w)
  | ev_Render frames => after_samples rnd frames (fst w) (snd w)
  end.

Fixpoint run (rnd : nat -> Z) (history : list event) (w : Synth * nat) : Synth * nat :=
  match history with
  | [] => w
  | e :: history' => run rnd history' (apply_event rnd e w)
  end.

(* The parameters are inside the documented ranges after every event. *)
Fixpoint stays_in_ranges (rnd : nat -> Z) (history : list event) (w : Synth * nat) : Prop :=
  match history with
  | [] => True
  | e :: history' =>
      in_documented_ranges (fst (apply_event rnd e w)) /\
      stays_in_ranges rnd history' (apply_event rnd e w)
  end.

(* Eight frames at 150 Hz with the modulator at 30 times the pitch, then
   the lowest pitch with full pitch curve and full FM amount, a note, and
   thirteen more frames. *)
Definition fm_history : list event :=
  [ ev_setParameter k_param_pitch 150;
    ev_setParameter k_param_osc2_pitch 60;
    ev_setParameter k_param_fm_ratio 50;
    ev_Render 8;
    ev_setParameter k_param_pitch 40;
    ev_setParameter k_param_pitch_curve 100;
    ev_setParameter k_param_fm_amount 100;
    ev_NoteOn 36 127;
    ev_Render 13 ].

(** ** Vocabulary of the statements about parameters and tables *)

(* .num_params of the unit header. *)
Definition unit_header_num_params : Z := 23.

(* The divisor that setParameter applies to the raw value of the parameter
   [index] (and getParameterValue multiplies by): 100 for the percent
   parameters, 10 for the two ratios, 1 for the others. *)
Definition parameter_scale (index : Z) : Z :=
  if (index =? k_param_body_level)%Z || (index =? k_param_drive)%Z
     || (index =? k_param_pitch_curve)%Z || (index =? k_param_click_level)%Z
     || (index =? k_param_click_tone)%Z || (index =? k_param_filter_cutoff)%Z
     || (index =? k_param_filter_resonance)%Z || (index =? k_param_osc2_level)%Z
     || (index =? k_param_fm_amount)%Z
  then 100
  else if (index =? k_param_osc2_pitch)%Z || (index =? k_param_fm_ratio)%Z then 10
  else 1.

(* [f] holds at lo, lo + 1, ..., lo + n - 1. *)
Fixpoint all_from (f : Z -> bool) (lo : Z) (n : nat) : bool :=
  match n with
  | O => true
  | S n' => f lo && all_from f (lo + 1) n'
  end.

(* The four envelopes are in [0, 1], and the amplitude envelope is 0
   whenever the envelope machine is Idle. *)
Definition envelopes_regular (s : Synth) : Prop :=
  0 <= envelope_ s <= 1 /\ 0 <= pitch_envelope_ s <= 1 /\
  0 <= osc2_envelope_ s <= 1 /\ 0 <= click_envelope_ s <= 1 /\
  (envelope_state_ s = k_state_off -> envelope_ s = 0).

(* The four filter accumulators. *)
Definition filter_state (s : Synth) : R * R * R * R :=
  (filter_state_0 s, filter_state_1 s, filter_state_2 s, filter_state_3 s).

(** * The IEEE binary32 embedding

    The same methods with [float] as the binary32 format: every operation
    rounds to nearest-even and follows the IEEE rules for infinities and
    NaN (Stdlib's [SpecFloat] at precision 24, maximal exponent 128).
    [std::sin] and [std::tanh] are parameters.  The methods embedded are
    those a render needs: construction, setParameter, NoteOn, process and
    Render. *)
Module F32.

Definition f32 : Type := spec_float.
Definition prec : Z := 24.
Definition emax : Z := 128.

Definition fadd : f32 -> f32 -> f32 := SFadd prec emax.
Definition fsub : f32 -> f32 -> f32 := SFsub prec emax.
Definition fmul : f32 -> f32 -> f32 := SFmul prec emax.
Definition fdiv : f32 -> f32 -> f32 := SFdiv prec emax.
Definition fabs : f32 -> f32 := SFabs.

(* x > y, x >= y, x < y, x <= y: all false on NaN. *)
Definition fgt (x y : f32) : bool := SFltb y x.
Definition fge (x y : f32) : bool := SFleb y x.
Definition flt (x y : f32) : bool := SFltb x y.
Definition fle (x y : f32) : bool := SFleb x y.

(* The conversion of an integer to float. *)
Definition of_int (z : Z) : f32 := binary_normalize prec emax z 0 false.

(* The literal written num/den in decimal (both below 2^24): the binary32
   number nearest to it. *)
Definition lit (num den : Z) : f32 := fdiv (of_int num) (of_int den).

Definition zero : f32 := S754_zero false.
Definition one : f32 := of_int 1.
Definition minus_one : f32 := of_int (-1).

Definition is_nan (x : f32) : bool :=
  match x with S754_nan => true | _ => false end.

(* Neither an infinity nor NaN. *)
Definition is_finite (x : f32) : bool :=
  match x with S754_zero _ | S754_finite _ _ _ => true | _ => false end.

Declare Scope f32_scope.
Delimit Scope f32_scope with f32.
Infix "+" := fadd : f32_scope.
Infix "-" := fsub : f32_scope.
Infix "*" := fmul : f32_scope.
Infix "/" := fdiv : f32_scope.
Local Open Scope f32_scope.

(* 3.14159265358979323846f is 0x40490FDB. *)
Definition k_pi : f32 := S754_finite false 13176795 (-22).
Definition k_twopi : f32 := of_int 2 * k_pi.
Definition k_samplerate : f32 := of_int 48000.

Definition reset (s : Synth_ f32) : Synth_ f32 :=
  let s := set_phase1_ zero s in
  let s := set_phase2_ zero s in
  let s := set_click_phase_ zero s in
  let s := set_envelope_ zero s in
  let s := set_envelope_state_ k_state_off s in
  let s := set_pitch_envelope_ zero s in
  let s := set_osc2_envelope_ zero s in
  let s := set_current_note_ 0%Z s in
  let s := set_current_velocity_ zero s in
  let s := set_filter_enabled_ false s in
  let s := set_filter_mode_24db_ false s in
  let s := set_filter_state_0 zero s in
  let s := set_filter_state_1 zero s in
  let s := set_filter_state_2 zero s in
  let s := set_filter_state_3 zero s in
  let s := set_last_noise_ zero s in
  set_click_envelope_ zero s.

Definition initParams (s : Synth_ f32) : Synth_ f32 :=
  let s := set_pitch_ (of_int 55) s in
  let s := set_decay_ (of_int 130) s in
  let s := set_click_level_ (lit 5 10) s in
  let s := set_pitch_curve_ (lit 5 10) s in
  let s := set_body_level_ (lit 9 10) s in
  let s := set_drive_ (lit 4 10) s in
  let s := set_attack_ (of_int 2) s in
  let s := set_release_ (of_int 300) s in
  let s := set_osc2_enabled_ 1%Z s in
  let s := set_osc2_waveform_ k_wave_sine s in
  let s := set_osc2_pitch_ (of_int 2) s in
  let s := set_osc2_level_ (lit 5 10) s in
  let s := set_fm_amount_ zero s in
  let s := set_fm_ratio_ (of_int 2) s in
  let s := set_osc2_decay_ (of_int 100) s in
  let s := set_pulse_width_ (lit 5 10) s in
  let s := set_click_freq_ (of_int 200) s in
  let s := set_click_decay_ (of_int 20) s in
  let s := set_click_tone_ (lit 6 10) s in
  let s := set_filter_enabled_ false s in
  let s := set_filter_cutoff_ (lit 7 10) s in
  let s := set_filter_resonance_ (lit 2 10) s in
  let s := set_filter_mode_24db_ false s in
  let s := set_preset_index_ 0%Z s in
  let s := set_last_noise_ zero s in
  set_click_envelope_ zero s.

Definition Synth_ctor (uninitialised : Synth_ f32) : Synth_ f32 :=
  initParams (reset uninitialised).

Definition zero_storage : Synth_ f32 :=
  mkSynth zero zero zero zero zero zero zero k_state_off 0%Z zero 0%Z
          zero zero zero zero zero zero zero zero zero zero zero zero
          false zero zero false zero zero zero zero 0%Z 0%Z
          zero zero zero zero zero zero.

Definition fresh : Synth_ f32 := Synth_ctor zero_storage.

Definition setParameter (index : Z) (value : Z) (s : Synth_ f32) : Synth_ f32 :=
  if (index =? k_param_pitch)%Z then set_pitch_ (of_int value) s
  else if (index =? k_param_decay)%Z then set_decay_ (of_int value) s
  else if (index =? k_param_body_level)%Z then set_body_level_ (of_int value / of_int 100) s
  else if (index =? k_param_drive)%Z then set_drive_ (of_int value / of_int 100) s
  else if (index =? k_param_attack)%Z then set_attack_ (of_int value) s
  else if (index =? k_param_release)%Z then set_release_ (of_int value) s
  else if (index =? k_param_pitch_curve)%Z
    then set_pitch_curve_ (of_int value / of_int 100) s
  else if (index =? k_param_click_level)%Z
    then set_click_level_ (of_int value / of_int 100) s
  else if (index =? k_param_click_freq)%Z then set_click_freq_ (of_int value) s
  else if (index =? k_param_click_decay)%Z then set_click_decay_ (of_int value) s
  else if (index =? k_param_click_tone)%Z
    then set_click_tone_ (of_int value / of_int 100) s
  else if (index =? k_param_filter_enabled)%Z then set_filter_enabled_ (0 <? value)%Z s
  else if (index =? k_param_filter_cutoff)%Z
    then set_filter_cutoff_ (of_int value / of_int 100) s
  else if (index =? k_param_filter_resonance)%Z
    then set_filter_resonance_ (of_int value / of_int 100) s
  else if (index =? k_param_filter_mode)%Z then set_filter_mode_24db_ (0 <? value)%Z s
  else if (index =? k_param_osc2_enabled)%Z then set_osc2_enabled_ (to_uint8 value) s
  else if (index =? k_param_osc2_waveform)%Z then set_osc2_waveform_ (to_uint8 value) s
  else if (index =? k_param_osc2_pitch)%Z then set_osc2_pitch_ (of_int value / of_int 10) s
  else if (index =? k_param_osc2_level)%Z
    then set_osc2_level_ (of_int value / of_int 100) s
  else if (index =? k_param_fm_amount)%Z then set_fm_amount_ (of_int value / of_int 100) s
  else if (index =? k_param_fm_ratio)%Z then set_fm_ratio_ (of_int value / of_int 10) s
  else if (index =? k_param_osc2_decay)%Z then set_osc2_decay_ (of_int value) s
  else s.

(* The conversion of a float to int32_t drops the fraction (towards zero);
   [None] for NaN, the infinities and values that do not fit. *)
Definition to_int32 (x : f32) : option Z :=
  match x with
  | S754_zero _ => Some 0%Z
  | S754_finite sg m e =>
      let a := Z.shiftl (Z.pos m) e in
      let z := if sg then (- a)%Z else a in
      if ((-2147483648 <=? z) && (z <=? 2147483647))%Z then Some z else None
  | _ => None
  end.

Definition getParameterValue (index : Z) (s : Synth_ f32) : option Z :=
  if (index =? k_param_pitch)%Z then to_int32 (pitch_ s)
  else if (index =? k_param_decay)%Z then to_int32 (decay_ s)
  else if (index =? k_param_body_level)%Z then to_int32 (body_level_ s * of_int 100)
  else if (index =? k_param_drive)%Z then to_int32 (drive_ s * of_int 100)
  else if (index =? k_param_attack)%Z then to_int32 (attack_ s)
  else if (index =? k_param_release)%Z then to_int32 (release_ s)
  else if (index =? k_param_pitch_curve)%Z then to_int32 (pitch_curve_ s * of_int 100)
  else if (index =? k_param_click_level)%Z then to_int32 (click_level_ s * of_int 100)
  else if (index =? k_param_click_freq)%Z then to_int32 (click_freq_ s)
  else if (index =? k_param_click_decay)%Z then to_int32 (click_decay_ s)
  else if (index =? k_param_click_tone)%Z then to_int32 (click_tone_ s * of_int 100)
  else if (index =? k_param_filter_enabled)%Z then Some (if filter_enabled_ s then 1 else 0)%Z
  else if (index =? k_param_filter_cutoff)%Z then to_int32 (filter_cutoff_ s * of_int 100)
  else if (index =? k_param_filter_resonance)%Z then to_int32 (filter_resonance_ s * of_int 100)
  else if (index =? k_param_filter_mode)%Z then Some (if filter_mode_24db_ s then 1 else 0)%Z
  else if (index =? k_param_osc2_enabled)%Z then Some (osc2_enabled_ s)
  else if (index =? k_param_osc2_waveform)%Z then Some (osc2_waveform_ s)
  else if (index =? k_param_osc2_pitch)%Z then to_int32 (osc2_pitch_ s * of_int 10)
  else if (index =? k_param_osc2_level)%Z then to_int32 (osc2_level_ s * of_int 100)
  else if (index =? k_param_fm_amount)%Z then to_int32 (fm_amount_ s * of_int 100)
  else if (index =? k_param_fm_ratio)%Z then to_int32 (fm_ratio_ s * of_int 10)
  else if (index =? k_param_osc2_decay)%Z then to_int32 (osc2_decay_ s)
  else Some 0%Z.

Definition NoteOn (note velocity : Z) (s : Synth_ f32) : Synth_ f32 :=
  let s := set_current_note_ note s in
  let s := set_current_velocity_ (of_int velocity / of_int 127) s in
  let s := set_envelope_state_ k_state_attack s in
  let s := set_envelope_ zero s in
  let s := set_pitch_envelope_ one s in
  let s := set_osc2_envelope_ one s in
  let s := set_current_note_ note s in
  let s := set_current_velocity_ (of_int velocity / of_int 127) s in
  let s := set_envelope_state_ k_state_attack s in
  let s := set_envelope_ zero s in
  let s := set_pitch_envelope_ one s in
  let s := set_osc2_envelope_ one s in
  let s := set_click_envelope_ one s in
  let s := set_last_noise_ zero s in
  let s := set_filter_state_0 zero s in
  let s := set_filter_state_1 zero s in
  let s := set_filter_state_2 zero s in
  set_filter_state_3 zero s.

(* switch (envelope_state_) { ... } *)
Definition amp_envelope (st : env_state) (env attack release : f32) : f32 * env_state :=
  match st with
  | k_state_attack =>
      let env := env + one / (attack / of_int 1000 * k_samplerate) in
      if fge env one then (one, k_state_decay) else (env, k_state_attack)
  | k_state_decay =>
      let env := env - one / (release / of_int 1000 * k_samplerate) in
      if fle env zero then (zero, k_state_off) else (env, k_state_decay)
  | k_state_release =>
      let env := env - one / (release / of_int 1000 * k_samplerate) in
      if fle env zero then (zero, k_state_off) else (env, k_state_release)
  | k_state_off => (env, k_state_off)
  end.

(* e -= 1.f / (t / 1000.f * k_samplerate); if (e < 0.f) e = 0.f; *)
Definition decay_envelope (e t : f32) : f32 :=
  let e := e - one / (t / of_int 1000 * k_samplerate) in
  if flt e zero then zero else e.

(* p += inc; if (p >= 1.f) p -= 1.f; *)
Definition advance_phase (p inc : f32) : f32 :=
  let p := p + inc in
  if fge p one then p - one else p.

Definition waveformSaw (phase : f32) : f32 := of_int 2 * phase - one.

Definition waveformTriangle (phase : f32) : f32 :=
  let ramp := of_int 2 * phase - one in
  of_int 2 * (fabs ramp - lit 5 10).

Definition waveformPulse (phase width : f32) : f32 :=
  if flt phase width then one else minus_one.

Definition waveformNoise (r : Z) : f32 :=
  (of_int (Z.land r 65535) / of_int 32768) * of_int 2 - one.

Definition filter24 (cutoff resonance out f0 f1 f2 f3 : f32) : f32 * f32 * f32 * f32 :=
  let f := cutoff * lit 116 100 in
  let fb := resonance * of_int 4 * (one - lit 15 100 * f * f) in
  let input := out in
  let input := input - f3 * fb in
  let input := input * (lit 35013 100000 * f * f * f * f) in
  let f0 := input + lit 3 10 * f0 in
  let f1 := f0 + lit 3 10 * f1 in
  let f2 := f1 + lit 3 10 * f2 in
  let f3 := f2 + lit 3 10 * f3 in
  (f0, f1, f2, f3).

Definition filter12 (cutoff resonance out f0 f1 : f32) : f32 * f32 :=
  let f := cutoff * lit 116 100 in
  let fb := resonance * lit 25 10 * (one - lit 2 10 * f * f) in
  let input := out in
  let input := input - f1 * fb in
  let input := input * (lit 35013 100000 * f * f) in
  let f0 := input + lit 3 10 * f0 in
  let f1 := f0 + lit 3 10 * f1 in
  (f0, f1).

(* Hard-Limiting am Ende *)
Definition hard_limit (out : f32) : f32 :=
  let out := if fgt out one then one else out in
  if flt out minus_one then minus_one else out.

(* The events of the histories considered in this embedding. *)
Inductive event : Type :=
  | ev_NoteOn (note velocity : Z)
  | ev_setParameter (index value : Z)
  | ev_Render (frames : nat).

(* Quantities of one call of process, as functions of the object before
   the call (the locals of the same names). *)
Definition running_next (s : Synth_ f32) : bool :=
  negb (is_off (snd (amp_envelope (envelope_state_ s) (envelope_ s) (attack_ s) (release_ s)))).

Definition pitch_envelope_next (s : Synth_ f32) : f32 :=
  if running_next s then decay_envelope (pitch_envelope_ s) (decay_ s) else pitch_envelope_ s.

Definition osc2_envelope_next (s : Synth_ f32) : f32 :=
  if running_next s then decay_envelope (osc2_envelope_ s) (osc2_decay_ s)
  else osc2_envelope_ s.

Definition click_envelope_next (s : Synth_ f32) : f32 :=
  if running_next s then decay_envelope (click_envelope_ s) (click_decay_ s)
  else click_envelope_ s.

Definition current_pitch (s : Synth_ f32) : f32 :=
  pitch_ s * (one - pitch_envelope_next s * pitch_curve_ s).

Definition fm_active (s : Synth_ f32) : bool :=
  negb (osc2_enabled_ s =? 0)%Z && fgt (fm_amount_ s) zero.

Definition clicking (s : Synth_ f32) : bool :=
  running_next s && fgt (click_envelope_next s) zero.

Definition phase2_next (s : Synth_ f32) : f32 :=
  advance_phase (phase2_ s) (current_pitch s * osc2_pitch_ s * fm_ratio_ s / k_samplerate).

Definition click_phase_next (s : Synth_ f32) : f32 :=
  advance_phase (click_phase_ s) (click_freq_ s / k_samplerate).

(* Everything in process that does not call std::sin, std::tanh or
   std::rand, on the values that do: the new body phase, the signal after
   the soft clipper, the new click history and the new std::rand count. *)
Definition complete (s : Synth_ f32) (phase1 out last_noise : f32) (k2 : nat)
    : f32 * Synth_ f32 * nat :=
  let amp := amp_envelope (envelope_state_ s) (envelope_ s) (attack_ s) (release_ s) in
  let envelope := fst amp in
  let envelope_state := snd amp in
  let cutoff := filter_cutoff_ s * lit 9 10 + lit 1 10 in
  let resonance := filter_resonance_ s * lit 98 100 in
  let f24 := filter24 cutoff resonance out
               (filter_state_0 s) (filter_state_1 s) (filter_state_2 s) (filter_state_3 s) in
  let f12 := filter12 cutoff resonance out (filter_state_0 s) (filter_state_1 s) in
  let filter_state0 :=
    if filter_enabled_ s
    then if filter_mode_24db_ s then fst (fst (fst f24)) else fst f12
    else filter_state_0 s in
  let filter_state1 :=
    if filter_enabled_ s
    then if filter_mode_24db_ s then snd (fst (fst f24)) else snd f12
    else filter_state_1 s in
  let filter_state2 :=
    if filter_enabled_ s && filter_mode_24db_ s then snd (fst f24) else filter_state_2 s in
  let filter_state3 :=
    if filter_enabled_ s && filter_mode_24db_ s then snd f24 else filter_state_3 s in
  let out :=
    if filter_enabled_ s
    then if filter_mode_24db_ s then filter_state3 else filter_state1
    else out in
  let out := out * lit 13 10 in
  let out := out * (envelope * current_velocity_ s) in
  let out := hard_limit out in
  let s' := set_envelope_ envelope s in
  let s' := set_envelope_state_ envelope_state s' in
  let s' := set_pitch_envelope_ (pitch_envelope_next s) s' in
  let s' := set_osc2_envelope_ (osc2_envelope_next s) s' in
  let s' := set_click_envelope_ (click_envelope_next s) s' in
  let s' := set_phase1_ phase1 s' in
  let s' := set_phase2_ (phase2_next s) s' in
  let s' := set_click_phase_ (click_phase_next s) s' in
  let s' := set_last_noise_ last_noise s' in
  let s' := set_filter_state_0 filter_state0 s' in
  let s' := set_filter_state_1 filter_state1 s' in
  let s' := set_filter_state_2 filter_state2 s' in
  let s' := set_filter_state_3 filter_state3 s' in
  (out, s', k2).

(* The object without its click history. *)
Definition forget (s : Synth_ f32) : Synth_ f32 := set_last_noise_ zero s.

Section Libm.
Variables sinf tanhf : f32 -> f32.
Variable rnd : nat -> Z.

Definition waveformSine (phase : f32) : f32 := sinf (phase * k_twopi).

Definition osc2_wave (k : nat) (waveform : Z) (phase width : f32) : f32 * nat :=
  if (waveform =? k_wave_sine)%Z then (waveformSine phase, k)
  else if (waveform =? k_wave_saw)%Z then (waveformSaw phase, k)
  else if (waveform =? k_wave_triangle)%Z then (waveformTriangle phase, k)
  else if (waveform =? k_wave_pulse)%Z then (waveformPulse phase width, k)
  else if (waveform =? k_wave_noise)%Z then (waveformNoise (rnd k), S k)
  else (waveformSine phase, k).

Definition soft_clip (drive out : f32) : f32 :=
  if fgt drive zero then
    let out := out * (one + drive * of_int 4) in
    tanhf out * (one / (one + drive * lit 15 10))
  else out.

Definition process (s : Synth_ f32) (k : nat) : f32 * Synth_ f32 * nat :=
  let amp := amp_envelope (envelope_state_ s) (envelope_ s) (attack_ s) (release_ s) in
  let envelope := fst amp in
  let envelope_state := snd amp in
  let running := negb (is_off envelope_state) in
  let pitch_envelope :=
    if running then decay_envelope (pitch_envelope_ s) (decay_ s) else pitch_envelope_ s in
  let osc2_envelope :=
    if running then decay_envelope (osc2_envelope_ s) (osc2_decay_ s) else osc2_envelope_ s in
  let click_envelope :=
    if running then decay_envelope (click_envelope_ s) (click_decay_ s) else click_envelope_ s in
  let current_pitch := pitch_ s * (one - pitch_envelope * pitch_curve_ s) in
  let freq1 := current_pitch in
  let freq2 := current_pitch * osc2_pitch_ s in
  let fm_mod :=
    if negb (osc2_enabled_ s =? 0)%Z && fgt (fm_amount_ s) zero then
      let mod_phase := phase2_ s in
      let mod_wave := waveformSine mod_phase in
      mod_wave * fm_amount_ s * osc2_envelope * of_int 100
    else zero in
  let phase1 := advance_phase (phase1_ s) ((freq1 + fm_mod) / k_samplerate) in
  let phase2 := advance_phase (phase2_ s) (freq2 * fm_ratio_ s / k_samplerate) in
  let click_phase := advance_phase (click_phase_ s) (click_freq_ s / k_samplerate) in
  let body := waveformSine phase1 * body_level_ s in
  let wave2 :=
    if negb (osc2_enabled_ s =? 0)%Z
    then osc2_wave k (osc2_waveform_ s) phase2 (pulse_width_ s)
    else (zero, k) in
  let osc2_out :=
    if negb (osc2_enabled_ s =? 0)%Z
    then fst wave2 * (osc2_level_ s * osc2_envelope)
    else zero in
  let k1 := snd wave2 in
  let clicking := running && fgt click_envelope zero in
  let noise := waveformNoise (rnd k1) in
  let tonal := sinf (click_phase * k_twopi) in
  let click_source := noise * (one - click_tone_ s) + tonal * click_tone_ s in
  let hp_click := click_source - last_noise_ s * lit 7 10 in
  let last_noise := if clicking then click_source else last_noise_ s in
  let click :=
    if clicking then hp_click * click_level_ s * click_envelope * of_int 3 else zero in
  let k2 := if clicking then S k1 else k1 in
  let out := body + osc2_out + click in
  let out := soft_clip (drive_ s) out in
  let cutoff := filter_cutoff_ s * lit 9 10 + lit 1 10 in
  let resonance := filter_resonance_ s * lit 98 100 in
  let f24 := filter24 cutoff resonance out
               (filter_state_0 s) (filter_state_1 s) (filter_state_2 s) (filter_state_3 s) in
  let f12 := filter12 cutoff resonance out (filter_state_0 s) (filter_state_1 s) in
  let filter_state0 :=
    if filter_enabled_ s
    then if filter_mode_24db_ s then fst (fst (fst f24)) else fst f12
    else filter_state_0 s in
  let filter_state1 :=
    if filter_enabled_ s
    then if filter_mode_24db_ s then snd (fst (fst f24)) else snd f12
    else filter_state_1 s in
  let filter_state2 :=
    if filter_enabled_ s && filter_mode_24db_ s then snd (fst f24) else filter_state_2 s in
  let filter_state3 :=
    if filter_enabled_ s && filter_mode_24db_ s then snd f24 else filter_state_3 s in
  let out :=
    if filter_enabled_ s
    then if filter_mode_24db_ s then filter_state3 else filter_state1
    else out in
  let out := out * lit 13 10 in
  let out := out * (envelope * current_velocity_ s) in
  let out := hard_limit out in
  let s := set_envelope_ envelope s in
  let s := set_envelope_state_ envelope_state s in
  let s := set_pitch_envelope_ pitch_envelope s in
  let s := set_osc2_envelope_ osc2_envelope s in
  let s := set_click_envelope_ click_envelope s in
  let s := set_phase1_ phase1 s in
  let s := set_phase2_ phase2 s in
  let s := set_click_phase_ click_phase s in
  let s := set_last_noise_ last_noise s in
  let s := set_filter_state_0 filter_state0 s in
  let s := set_filter_state_1 filter_state1 s in
  let s := set_filter_state_2 filter_state2 s in
  let s := set_filter_state_3 filter_state3 s in
  (out, s, k2).

(* The quantities of process that call std::sin, std::tanh or std::rand. *)
Definition fm_offset (s : Synth_ f32) : f32 :=
  if fm_active s
  then waveformSine (phase2_ s) * fm_amount_ s * osc2_envelope_next s * of_int 100
  else zero.

Definition phase1_next (s : Synth_ f32) : f32 :=
  advance_phase (phase1_ s) ((current_pitch s + fm_offset s) / k_samplerate).

Definition body (s : Synth_ f32) : f32 := waveformSine (phase1_next s) * body_level_ s.

Definition wave2 (s : Synth_ f32) (k : nat) : f32 * nat :=
  if negb (osc2_enabled_ s =? 0)%Z
  then osc2_wave k (osc2_waveform_ s) (phase2_next s) (pulse_width_ s)
  else (zero, k).

Definition osc2_out (s : Synth_ f32) (k : nat) : f32 :=
  if negb (osc2_enabled_ s =? 0)%Z
  then fst (wave2 s k) * (osc2_level_ s * osc2_envelope_next s)
  else zero.

Definition click_source (s : Synth_ f32) (k : nat) : f32 :=
  waveformNoise (rnd (snd (wave2 s k))) * (one - click_tone_ s)
  + sinf (click_phase_next s * k_twopi) * click_tone_ s.

Definition click (s : Synth_ f32) (k : nat) : f32 :=
  if clicking s
  then (click_source s k - last_noise_ s * lit 7 10) * click_level_ s
       * click_envelope_next s * of_int 3
  else zero.

Definition last_noise_next (s : Synth_ f32) (k : nat) : f32 :=
  if clicking s then click_source s k else last_noise_ s.

Definition count_next (s : Synth_ f32) (k : nat) : nat :=
  if clicking s then S (snd (wave2 s k)) else snd (wave2 s k).

Definition mix (s : Synth_ f32) (k : nat) : f32 :=
  soft_clip (drive_ s) (body s + osc2_out s k + click s k).

Fixpoint Render (frames : nat) (s : Synth_ f32) (k : nat) : list f32 * Synth_ f32 * nat :=
  match frames with
  | O => ([], s, k)
  | S frames' =>
      let r := process s k in
      let value := fst (fst r) in
      let rest := Render frames' (snd (fst r)) (snd r) in
      (value :: value :: fst (fst rest), snd (fst rest), snd rest)
  end.

(* An event on the object, the std::rand count and the samples written so
   far. *)
Definition apply_event (e : event) (w : Synth_ f32 * nat * list f32)
    : Synth_ f32 * nat * list f32 :=
  match e with
  | ev_NoteOn note velocity => (NoteOn note velocity (fst (fst w)), snd (fst w), snd w)
  | ev_setParameter index value =>
      (setParameter index value (fst (fst w)), snd (fst w), snd w)
  | ev_Render frames =>
      let r := Render frames (fst (fst w)) (snd (fst w)) in
      (snd (fst r), snd r, (snd w ++ fst (fst r))%list)
  end.

Fixpoint run (history : list event) (w : Synth_ f32 * nat * list f32)
    : Synth_ f32 * nat * list f32 :=
  match history with
  | [] => w
  | e :: history' => run history' (apply_event e w)
  end.

End Libm.

(** ** Vocabulary of the statements about this embedding *)

(* Stand-ins that return 0, for running the methods on numbers. *)
Definition sinf0 : f32 -> f32 := fun _ => zero.
Definition rnd0 : nat -> Z := fun _ => 0%Z.

Definition is_pzero (x : f32) : bool :=
  match x with S754_zero false => true | _ => false end.

(* A value y with (+-0) + y = y. *)
Definition absorbs_zero (y : f32) : bool :=
  match y with S754_finite _ _ _ | S754_zero false => true | _ => false end.

Definition fm_off (s : Synth_ f32) : bool := negb (fm_active s).

(* The second oscillator is off or has one of the shapes computed without
   std::sin and std::rand. *)
Definition wave_plain (s : Synth_ f32) : bool :=
  (osc2_enabled_ s =? 0)%Z || (osc2_waveform_ s =? k_wave_saw)%Z
  || (osc2_waveform_ s =? k_wave_triangle)%Z || (osc2_waveform_ s =? k_wave_pulse)%Z.

(* A call of process in which std::sin is used once, on a finite argument
   and multiplied by a body level of +0, and std::tanh and std::rand are
   not used. *)
Definition quiet (s : Synth_ f32) (k : nat) : bool :=
  fm_off s && wave_plain s && negb (fgt (drive_ s) zero) && negb (clicking s)
  && is_pzero (body_level_ s) && is_finite (phase1_next sinf0 s * k_twopi)
  && absorbs_zero (osc2_out sinf0 rnd0 s k).

(* A call of process with the filter off and neither FM nor a sine or
   noise shape on the second oscillator. *)
Definition silent (s : Synth_ f32) : bool :=
  fm_off s && wave_plain s && negb (filter_enabled_ s).

Definition step_ok (s : Synth_ f32) (k : nat) : bool := quiet s k || silent s.

Fixpoint render_ok (frames : nat) (s : Synth_ f32) (k : nat) : bool :=
  match frames with
  | O => true
  | S frames' =>
      step_ok s k &&
      let r := process sinf0 sinf0 rnd0 s k in
      render_ok frames' (snd (fst r)) (snd r)
  end.

Fixpoint history_ok (history : list event) (w : Synth_ f32 * nat * list f32) : bool :=
  match history with
  | [] => true
  | e :: history' =>
      match e with
      | ev_Render frames => render_ok frames (fst (fst w)) (snd (fst w))
      | _ => true
      end
      && history_ok history' (apply_event sinf0 sinf0 rnd0 e w)
  end.

(* -1 <= x && x <= 1, as C++ compares floats. *)
Definition in_unit_range (x : f32) : bool := fle minus_one x && fle x one.

(* A parameter index of the class with a raw value inside the documented
   range, a MIDI note and velocity, or a render. *)
Definition event_in_range (e : event) : bool :=
  match e with
  | ev_setParameter index value =>
      (0 <=? index)%Z && (index <=? k_param_osc2_decay)%Z
      && (fst (documented_range (parameter_name index)) <=? value)%Z
      && (value <=? snd (documented_range (parameter_name index)))%Z
  | ev_NoteOn note velocity =>
      (0 <=? note)%Z && (note <=? 127)%Z && (0 <=? velocity)%Z && (velocity <=? 127)%Z
  | ev_Render _ => true
  end.

(* Body, drive and click level 0 %, second oscillator a full-level pulse,
   24 dB filter mode, the shortest click; a note and 64 frames with the
   filter off; then the filter on. *)
Definition nan_setup : list event :=
  [ ev_setParameter k_param_body_level 0;
    ev_setParameter k_param_drive 0;
    ev_setParameter k_param_click_level 0;
    ev_setParameter k_param_osc2_waveform 3;
    ev_setParameter k_param_osc2_level 100;
    ev_setParameter k_param_filter_mode 1;
    ev_setParameter k_param_click_decay 1;
    ev_NoteOn 36 127;
    ev_Render 64;
    ev_setParameter k_param_filter_enabled 1 ].

(* Two frames, each after a change of cutoff and resonance. *)
Definition wobble : list event :=
  [ ev_setParameter k_param_filter_cutoff 10;
    ev_setParameter k_param_filter_resonance 60;
    ev_Render 1;
    ev_setParameter k_param_filter_cutoff 100;
    ev_setParameter k_param_filter_resonance 100;
    ev_Render 1 ].

Definition nan_history : list event := nan_setup ++ List.concat (repeat wobble 150).

End F32.

(** * Properties *)

(* Evaluation of the methods on records, leaving real arithmetic alone. *)
Ltac synth_eval :=
  cbv beta iota zeta delta [
    phase1_ phase2_ click_phase_ envelope_ pitch_envelope_ osc2_envelope_ click_envelope_
    envelope_state_ current_note_ current_velocity_ preset_index_ pitch_ decay_ pitch_curve_
    body_level_ drive_ attack_ release_ click_level_ click_freq_ click_decay_ click_tone_
    last_noise_ filter_enabled_ filter_cutoff_ filter_resonance_ filter_mode_24db_
    filter_state_0 filter_state_1 filter_state_2 filter_state_3 osc2_enabled_ osc2_waveform_
    osc2_pitch_ osc2_level_ fm_amount_ fm_ratio_ osc2_decay_ pulse_width_ set_phase1_
    set_phase2_ set_click_phase_ set_envelope_ set_pitch_envelope_ set_osc2_envelope_
    set_click_envelope_ set_envelope_state_ set_current_note_ set_current_velocity_
    set_preset_index_ set_pitch_ set_decay_ set_pitch_curve_ set_body_level_ set_drive_
    set_attack_ set_release_ set_click_level_ set_click_freq_ set_click_decay_ set_click_tone_
    set_last_noise_ set_filter_enabled_ set_filter_cutoff_ set_filter_resonance_
    set_filter_mode_24db_ set_filter_state_0 set_filter_state_1 set_filter_state_2
    set_filter_state_3 set_osc2_enabled_ set_osc2_waveform_ set_osc2_pitch_ set_osc2_level_
    set_fm_amount_ set_fm_ratio_ set_osc2_decay_ set_pulse_width_ reset initParams Synth_ctor
    fresh zero_storage NoteOn NoteOff GateOn GateOff AllNoteOff preset_values LoadPreset
    getPresetIndex parameters parameters_but_filter_switches default_parameters phases
    envelopes Reset Teardown Resume Suspend PitchBend ChannelPressure Aftertouch k_preset_basic
    k_preset_punchy k_preset_sub k_preset_fm_kick k_preset_noise_attack k_wave_sine k_wave_saw
    k_wave_triangle k_wave_pulse k_wave_noise k_num_waves Z.eqb Pos.eqb Z.ltb Z.compare
    Pos.compare Pos.compare_cont orb andb negb fst snd
    setParameter k_param_pitch k_param_decay k_param_body_level k_param_drive k_param_attack
    k_param_release k_param_pitch_curve k_param_click_level k_param_click_freq
    k_param_click_decay k_param_click_tone k_param_filter_enabled k_param_filter_cutoff
    k_param_filter_resonance k_param_filter_mode k_param_osc2_enabled k_param_osc2_waveform
    k_param_osc2_pitch k_param_osc2_level k_param_fm_amount k_param_fm_ratio k_param_osc2_decay
    to_uint8
      ].

Ltac synth_simpl :=
  cbn beta iota zeta delta [
    phase1_ phase2_ click_phase_ envelope_ pitch_envelope_ osc2_envelope_ click_envelope_
    envelope_state_ current_note_ current_velocity_ preset_index_ pitch_ decay_ pitch_curve_
    body_level_ drive_ attack_ release_ click_level_ click_freq_ click_decay_ click_tone_
    last_noise_ filter_enabled_ filter_cutoff_ filter_resonance_ filter_mode_24db_
    filter_state_0 filter_state_1 filter_state_2 filter_state_3 osc2_enabled_ osc2_waveform_
    osc2_pitch_ osc2_level_ fm_amount_ fm_ratio_ osc2_decay_ pulse_width_ set_phase1_
    set_phase2_ set_click_phase_ set_envelope_ set_pitch_envelope_ set_osc2_envelope_
    set_click_envelope_ set_envelope_state_ set_current_note_ set_current_velocity_
    set_preset_index_ set_pitch_ set_decay_ set_pitch_curve_ set_body_level_ set_drive_
    set_attack_ set_release_ set_click_level_ set_click_freq_ set_click_decay_ set_click_tone_
    set_last_noise_ set_filter_enabled_ set_filter_cutoff_ set_filter_resonance_
    set_filter_mode_24db_ set_filter_state_0 set_filter_state_1 set_filter_state_2
    set_filter_state_3 set_osc2_enabled_ set_osc2_waveform_ set_osc2_pitch_ set_osc2_level_
    set_fm_amount_ set_fm_ratio_ set_osc2_decay_ set_pulse_width_ reset initParams Synth_ctor
    fresh zero_storage NoteOn NoteOff GateOn GateOff AllNoteOff preset_values LoadPreset
    getPresetIndex parameters parameters_but_filter_switches default_parameters phases
    envelopes Reset Teardown Resume Suspend PitchBend ChannelPressure Aftertouch k_preset_basic
    k_preset_punchy k_preset_sub k_preset_fm_kick k_preset_noise_attack k_wave_sine k_wave_saw
    k_wave_triangle k_wave_pulse k_wave_noise k_num_waves Z.eqb Pos.eqb Z.ltb Z.compare
    Pos.compare Pos.compare_cont orb andb negb fst snd
    setParameter k_param_pitch k_param_decay k_param_body_level k_param_drive k_param_attack
    k_param_release k_param_pitch_curve k_param_click_level k_param_click_freq
    k_param_click_decay k_param_click_tone k_param_filter_enabled k_param_filter_cutoff
    k_param_filter_resonance k_param_filter_mode k_param_osc2_enabled k_param_osc2_waveform
    k_param_osc2_pitch k_param_osc2_level k_param_fm_amount k_param_fm_ratio k_param_osc2_decay
    to_uint8
      ].

(** ** Construction *)

Lemma ctor_any_storage (a b : Synth) : Synth_ctor a = Synth_ctor b.
Proof. reflexivity. Qed.

Lemma ctor_voice_state_zero (a : Synth) : voice_state_zero (Synth_ctor a).
Proof. unfold voice_state_zero. repeat split; reflexivity. Qed.

Lemma ctor_default_parameters (a : Synth) : parameters (Synth_ctor a) = default_parameters.
Proof. reflexivity. Qed.

Ltac case_ifs :=
  repeat match goal with
         | |- context [if ?b then _ else _] => destruct b
         end.

(** ** Note-on *)

(** C3.  Immediately after NoteOn the amplitude envelope is 0, the pitch,
    osc2 and click envelopes are 1, the four filter accumulators and the
    click high-pass history are 0, the envelope phase is Attack, and the
    note and the velocity divided by 127 are recorded. *)
Theorem C3_NoteOn_trigger_values (note velocity : Z) (s : Synth) :
  let s' := NoteOn note velocity s in
  envelope_ s' = 0 /\
  pitch_envelope_ s' = 1 /\ osc2_envelope_ s' = 1 /\ click_envelope_ s' = 1 /\
  filter_state_0 s' = 0 /\ filter_state_1 s' = 0 /\
  filter_state_2 s' = 0 /\ filter_state_3 s' = 0 /\
  last_noise_ s' = 0 /\
  envelope_state_ s' = k_state_attack /\
  current_note_ s' = note /\
  current_velocity_ s' = IZR velocity / 127.
Proof. cbv zeta. repeat split; reflexivity. Qed.

(** ** Note-off *)

Lemma NoteOff_matching (note : Z) (s : Synth) :
  note_matches note s -> NoteOff note s = set_envelope_state_ k_state_release s.
Proof.
  unfold note_matches, NoteOff. intros [H | H].
  - rewrite H, Z.eqb_refl. reflexivity.
  - rewrite H. rewrite orb_true_r. reflexivity.
Qed.

Lemma NoteOff_other (note : Z) (s : Synth) :
  ~ note_matches note s -> NoteOff note s = s.
Proof.
  unfold note_matches, NoteOff. intros H.
  destruct (Z.eqb_spec note (current_note_ s)) as [E | E]; [tauto |].
  destruct (Z.eqb_spec note 255) as [E' | E']; [tauto |]. reflexivity.
Qed.

Lemma note_matches_dec (note : Z) (s : Synth) :
  note_matches note s \/ ~ note_matches note s.
Proof. unfold note_matches. lia. Qed.

Lemma process_idle_state (rnd : nat -> Z) (s : Synth) (k : nat) :
  envelope_state_ s = k_state_off ->
  envelope_state_ (snd (fst (process rnd s k))) = k_state_off.
Proof. intros H. unfold process. cbn. rewrite H. reflexivity. Qed.

Lemma setParameter_envelope_state (index value : Z) (s : Synth) :
  envelope_state_ (setParameter index value s) = envelope_state_ s.
Proof. unfold setParameter. case_ifs; reflexivity. Qed.

Lemma LoadPreset_envelope_state (index : Z) (s : Synth) :
  envelope_state_ (LoadPreset index s) = envelope_state_ s.
Proof. unfold LoadPreset. case_ifs; reflexivity. Qed.

(** C4, the counterexample.  A freshly constructed object is Idle; the
    wildcard note-off (AllNoteOff, GateOff) moves it to Release. *)
Lemma C4_NoteOff_leaves_Idle :
  envelope_state_ fresh = k_state_off /\
  envelope_state_ (NoteOff 255 fresh) = k_state_release.
Proof. split; reflexivity. Qed.

(** C4, as amended.  NoteOff sets the envelope phase to Release exactly
    when the note equals the current note or the wildcard 0xFF, whatever
    the phase was (Idle included), and changes nothing else; with any other
    note it changes nothing at all.  From Idle, process, setParameter,
    LoadPreset, reset and a non-matching NoteOff leave the phase Idle; only
    NoteOn (to Attack) and a matching NoteOff (to Release) leave Idle. *)
Theorem C4_NoteOff_effect (note : Z) (s : Synth) :
  (note_matches note s /\ NoteOff note s = set_envelope_state_ k_state_release s
   \/ ~ note_matches note s /\ NoteOff note s = s) /\
  envelopes (NoteOff note s) = envelopes s /\
  phases (NoteOff note s) = phases s /\
  parameters (NoteOff note s) = parameters s /\
  (envelope_state_ s = k_state_off ->
     (forall rnd k, envelope_state_ (snd (fst (process rnd s k))) = k_state_off) /\
     (forall index value, envelope_state_ (setParameter index value s) = k_state_off) /\
     (forall index, envelope_state_ (LoadPreset index s) = k_state_off) /\
     envelope_state_ (reset s) = k_state_off /\
     (forall n v, envelope_state_ (NoteOn n v s) = k_state_attack) /\
     (envelope_state_ (NoteOff note s) = k_state_release <-> note_matches note s) /\
     (envelope_state_ (NoteOff note s) = k_state_off <-> ~ note_matches note s)).
Proof.
  assert (Hframe : envelopes (NoteOff note s) = envelopes s /\
                   phases (NoteOff note s) = phases s /\
                   parameters (NoteOff note s) = parameters s).
  { unfold NoteOff. case_ifs; repeat split; reflexivity. }
  destruct Hframe as (He & Hp & Hq).
  split; [| split; [exact He | split; [exact Hp | split; [exact Hq |]]]].
  - destruct (note_matches_dec note s) as [M | M].
    + left. split; [exact M | apply NoteOff_matching; exact M].
    + right. split; [exact M | apply NoteOff_other; exact M].
  - intros Hoff.
    split; [intros; apply process_idle_state; exact Hoff |].
    split; [intros; rewrite setParameter_envelope_state; exact Hoff |].
    split; [intros; rewrite LoadPreset_envelope_state; exact Hoff |].
    split; [reflexivity |].
    split; [intros; reflexivity |].
    destruct (note_matches_dec note s) as [M | M].
    + rewrite (NoteOff_matching _ _ M). cbn.
      split; split; intros; try tauto; try reflexivity; discriminate.
    + rewrite (NoteOff_other _ _ M). rewrite Hoff.
      split; split; intros; try tauto; try reflexivity; discriminate.
Qed.

(** ** Reset *)

Lemma reset_voice_state_zero (s : Synth) : voice_state_zero (reset s).
Proof. unfold voice_state_zero. synth_simpl. repeat split; reflexivity. Qed.

Lemma reset_parameters (s : Synth) :
  parameters (reset s) = parameters_but_filter_switches s /\
  preset_index_ (reset s) = preset_index_ s /\
  pulse_width_ (reset s) = pulse_width_ s.
Proof. synth_simpl. repeat split; reflexivity. Qed.

(** C5, at a failing input.  After the preset Sub Bass both filter
    switches are on; reset re-zeros the Voice State, keeps the twenty other
    parameters, and turns both switches off. *)
Theorem C5_reset_clears_filter_switches :
  let s := LoadPreset k_preset_sub fresh in
  filter_enabled_ s = true /\ filter_mode_24db_ s = true /\
  voice_state_zero (reset s) /\
  filter_enabled_ (reset s) = false /\ filter_mode_24db_ (reset s) = false /\
  parameters (reset s) = parameters_but_filter_switches s /\
  parameters (reset s) <> parameters s.
Proof.
  cbv zeta.
  split; [reflexivity |]. split; [reflexivity |].
  split; [apply reset_voice_state_zero |].
  split; [reflexivity |]. split; [reflexivity |].
  split; [synth_eval; reflexivity |].
  intros H. apply (f_equal p_filter_enabled) in H. revert H.
  synth_eval. discriminate.
Qed.

(** ** Presets *)

Lemma LoadPreset_unknown (index : Z) (s : Synth) :
  (index < 0 \/ 5 <= index)%Z -> LoadPreset index s = set_preset_index_ index s.
Proof.
  intros H. unfold LoadPreset, k_preset_basic, k_preset_punchy, k_preset_sub,
    k_preset_fm_kick, k_preset_noise_attack.
  repeat match goal with
         | |- context [(index =? ?c)%Z] => destruct (Z.eqb_spec index c); [lia |]
         end.
  reflexivity.
Qed.

(** C7, at a failing input.  After FM Kick (index 3) has been loaded,
    LoadPreset 7 leaves the Parameter Set and the Voice State as they
    were, and getPresetIndex returns 7. *)
Theorem C7_LoadPreset_unknown_index_recorded :
  let s := LoadPreset k_preset_fm_kick fresh in
  getPresetIndex s = 3%Z /\
  parameters (LoadPreset 7 s) = parameters s /\
  LoadPreset 7 s = set_preset_index_ 7 s /\
  getPresetIndex (LoadPreset 7 s) = 7%Z.
Proof. synth_eval. repeat split; reflexivity. Qed.

(** ** Display strings *)

Lemma getParameterStrValue_other_index (index value : Z) :
  index <> k_param_osc2_waveform -> getParameterStrValue index value = placeholder.
Proof.
  intros H. unfold getParameterStrValue.
  destruct (Z.eqb_spec index k_param_osc2_waveform); [contradiction | reflexivity].
Qed.

Lemma getParameterStrValue_known (value : Z) :
  (0 <= value < 5)%Z ->
  getParameterStrValue k_param_osc2_waveform value
  = nth (Z.to_nat value) s_waveform_names placeholder /\
  In (getParameterStrValue k_param_osc2_waveform value) s_waveform_names.
Proof.
  intros H.
  assert (E : value = 0%Z \/ value = 1%Z \/ value = 2%Z \/ value = 3%Z \/ value = 4%Z) by lia.
  destruct E as [E | [E | [E | [E | E]]]]; subst value; split;
    try reflexivity; cbn; tauto.
Qed.

Lemma getParameterStrValue_wraps (value : Z) :
  getParameterStrValue k_param_osc2_waveform value
  = getParameterStrValue k_param_osc2_waveform (value mod 256).
Proof.
  unfold getParameterStrValue, to_uint8. rewrite Z.mod_mod by lia. reflexivity.
Qed.

(** C8, at a failing input.  The value 256 is none of 0..4, and the
    lookup for the waveform parameter returns the first waveform name
    instead of the placeholder. *)
Theorem C8_getParameterStrValue_256 :
  getParameterStrValue k_param_osc2_waveform 256 = "Sine"%string /\
  getParameterStrValue k_param_osc2_waveform 256 <> placeholder.
Proof. split; [reflexivity | discriminate]. Qed.

(** ** Initialisation *)

Section InitResult.
Variables k_unit_err_none k_unit_err_samplerate k_unit_err_geometry : Z.

Let init := Init k_unit_err_none k_unit_err_samplerate k_unit_err_geometry.

Lemma Init_bad_samplerate (desc : unit_runtime_desc_t) (s : Synth) :
  samplerate desc <> 48000%Z -> init desc s = (k_unit_err_samplerate, s).
Proof.
  intros H. unfold init, Init.
  destruct (Z.eqb_spec (samplerate desc) 48000); [contradiction | reflexivity].
Qed.

Lemma Init_bad_geometry (desc : unit_runtime_desc_t) (s : Synth) :
  samplerate desc = 48000%Z -> output_channels desc <> 2%Z ->
  init desc s = (k_unit_err_geometry, s).
Proof.
  intros H1 H2. unfold init, Init. rewrite H1. cbn.
  destruct (Z.eqb_spec (output_channels desc) 2); [contradiction | reflexivity].
Qed.

Lemma Init_ok (desc : unit_runtime_desc_t) (s : Synth) :
  samplerate desc = 48000%Z -> output_channels desc = 2%Z ->
  init desc s = (k_unit_err_none, initParams (reset s)).
Proof. intros H1 H2. unfold init, Init. rewrite H1, H2. reflexivity. Qed.

(** C9.  With pairwise distinct error codes: Init returns the
    sample-rate error exactly when the sample rate is not 48000;
    otherwise the geometry error exactly when the channel count is not 2;
    otherwise the success code, with the object as reset and initParams
    leave it (Voice State zero, default parameters).  A failing Init
    leaves the object as it was. *)
Theorem C9_Init_result (desc : unit_runtime_desc_t) (s : Synth) :
  k_unit_err_none <> k_unit_err_samplerate ->
  k_unit_err_none <> k_unit_err_geometry ->
  k_unit_err_samplerate <> k_unit_err_geometry ->
  (fst (init desc s) = k_unit_err_samplerate <-> samplerate desc <> 48000%Z) /\
  (samplerate desc = 48000%Z ->
     (fst (init desc s) = k_unit_err_geometry <-> output_channels desc <> 2%Z)) /\
  (samplerate desc = 48000%Z -> output_channels desc = 2%Z ->
     fst (init desc s) = k_unit_err_none /\
     snd (init desc s) = initParams (reset s) /\
     voice_state_zero (snd (init desc s)) /\
     parameters (snd (init desc s)) = default_parameters) /\
  (fst (init desc s) <> k_unit_err_none -> snd (init desc s) = s).
Proof.
  intros Hns Hng Hsg.
  destruct (Z.eq_dec (samplerate desc) 48000) as [Hr | Hr];
    [destruct (Z.eq_dec (output_channels desc) 2) as [Hc | Hc] |].
  - rewrite (Init_ok desc s Hr Hc). cbn [fst snd].
    split; [split; [intros E; congruence | intros E; contradiction] |].
    split; [intros _; split; [intros E; congruence | intros E; contradiction] |].
    split; [| intros E; contradiction].
    intros _ _. split; [reflexivity |]. split; [reflexivity |].
    split; [apply (ctor_voice_state_zero s) | apply (ctor_default_parameters s)].
  - rewrite (Init_bad_geometry desc s Hr Hc). cbn [fst snd].
    split; [split; [intros E; congruence | intros E; contradiction] |].
    split; [intros _; split; [intros _; exact Hc | reflexivity] |].
    split; [intros _ E; contradiction | reflexivity].
  - rewrite (Init_bad_samplerate desc s Hr). cbn [fst snd].
    split; [split; [intros _; exact Hr | reflexivity] |].
    split; [intros E; contradiction |].
    split; [intros E; contradiction | reflexivity].
Qed.
End InitResult.

(** C9 applied to the codes 0, -4 and -8 of the logue SDK and a 44.1 kHz
    stereo descriptor. *)
Lemma C9_Init_result_witness :
  (0 <> -4)%Z /\ (0 <> -8)%Z /\ (-4 <> -8)%Z /\
  let init := Init 0 (-4) (-8) in
  let desc := mk_desc 44100 2 in
  (fst (init desc fresh) = (-4)%Z <-> samplerate desc <> 48000%Z) /\
  (samplerate desc = 48000%Z ->
     (fst (init desc fresh) = (-8)%Z <-> output_channels desc <> 2%Z)) /\
  (samplerate desc = 48000%Z -> output_channels desc = 2%Z ->
     fst (init desc fresh) = 0%Z /\
     snd (init desc fresh) = initParams (reset fresh) /\
     voice_state_zero (snd (init desc fresh)) /\
     parameters (snd (init desc fresh)) = default_parameters) /\
  (fst (init desc fresh) <> 0%Z -> snd (init desc fresh) = fresh).
Proof.
  split; [lia |]. split; [lia |]. split; [lia |].
  exact (C9_Init_result 0 (-4) (-8) (mk_desc 44100 2) fresh
           ltac:(lia) ltac:(lia) ltac:(lia)).
Defined.

(** ** The phase accumulators across the control operations *)

Lemma setParameter_phases (index value : Z) (s : Synth) :
  phases (setParameter index value s) = phases s.
Proof. unfold setParameter. case_ifs; reflexivity. Qed.

Lemma LoadPreset_phases (index : Z) (s : Synth) :
  phases (LoadPreset index s) = phases s.
Proof. unfold LoadPreset. case_ifs; reflexivity. Qed.

Lemma NoteOff_phases (note : Z) (s : Synth) :
  phases (NoteOff note s) = phases s.
Proof. unfold NoteOff. case_ifs; reflexivity. Qed.

Lemma process_click_phase (rnd : nat -> Z) (s : Synth) (k : nat) :
  click_phase_ (snd (fst (process rnd s k)))
  = advance_phase (click_phase_ s) (click_freq_ s / k_samplerate).
Proof. reflexivity. Qed.

(** C10.  NoteOn leaves the three phase accumulators as they were, and so
    do NoteOff, setParameter and LoadPreset; reset, the constructor and a
    successful Init set them to zero.  The first sample after a NoteOn
    advances the click phase from the value it held before the NoteOn. *)
Theorem C10_NoteOn_keeps_phases (note velocity : Z) (s : Synth) :
  phases (NoteOn note velocity s) = phases s /\
  phases (NoteOff note s) = phases s /\
  (forall index value, phases (setParameter index value s) = phases s) /\
  (forall index, phases (LoadPreset index s) = phases s) /\
  phases (reset s) = (0, 0, 0) /\
  phases (Synth_ctor s) = (0, 0, 0) /\
  (forall en es eg desc,
      samplerate desc = 48000%Z -> output_channels desc = 2%Z ->
      phases (snd (Init en es eg desc s)) = (0, 0, 0)) /\
  (forall rnd k,
      click_phase_ (snd (fst (process rnd (NoteOn note velocity s) k)))
      = advance_phase (click_phase_ s) (click_freq_ (NoteOn note velocity s) / k_samplerate)).
Proof.
  split; [reflexivity |].
  split; [apply NoteOff_phases |].
  split; [intros; apply setParameter_phases |].
  split; [intros; apply LoadPreset_phases |].
  split; [reflexivity |].
  split; [reflexivity |].
  split.
  - intros en es eg desc Hr Hc. rewrite (Init_ok en es eg desc s Hr Hc). reflexivity.
  - intros. rewrite process_click_phase. reflexivity.
Qed.

(** ** Comparisons *)

Lemma Rgeb_true (x y : R) : Rgeb x y = true <-> x >= y.
Proof. unfold Rgeb. destruct (Rge_dec x y); split; intros; auto; discriminate. Qed.

Lemma Rgeb_false (x y : R) : Rgeb x y = false <-> x < y.
Proof.
  unfold Rgeb. destruct (Rge_dec x y); split; intros; auto; try discriminate; lra.
Qed.

Lemma Rgtb_true (x y : R) : Rgtb x y = true <-> x > y.
Proof. unfold Rgtb. destruct (Rgt_dec x y); split; intros; auto; discriminate. Qed.

Lemma Rgtb_false (x y : R) : Rgtb x y = false <-> x <= y.
Proof.
  unfold Rgtb. destruct (Rgt_dec x y); split; intros; auto; try discriminate; lra.
Qed.

Lemma Rleb_true (x y : R) : Rleb x y = true <-> x <= y.
Proof. unfold Rleb. destruct (Rle_dec x y); split; intros; auto; discriminate. Qed.

Lemma Rleb_false (x y : R) : Rleb x y = false <-> x > y.
Proof.
  unfold Rleb. destruct (Rle_dec x y); split; intros; auto; try discriminate; lra.
Qed.

Lemma Rltb_true (x y : R) : Rltb x y = true <-> x < y.
Proof. unfold Rltb. destruct (Rlt_dec x y); split; intros; auto; discriminate. Qed.

Lemma Rltb_false (x y : R) : Rltb x y = false <-> x >= y.
Proof.
  unfold Rltb. destruct (Rlt_dec x y); split; intros; auto; try discriminate; lra.
Qed.

(** ** The output stage *)








(** ** The amplitude envelope *)

Lemma recip_nonzero (y : R) : y <> 0 -> recip y = Some (1 / y).
Proof. intros H. unfold recip. destruct (Req_dec_T y 0); [contradiction | reflexivity]. Qed.

Lemma recip_zero : recip 0 = None.
Proof. unfold recip. destruct (Req_dec_T 0 0); [reflexivity | contradiction]. Qed.

Lemma recip_time (t : R) :
  0 < t -> recip (t / 1000 * k_samplerate) = Some (1000 / (t * 48000)).
Proof.
  intros H. unfold k_samplerate. rewrite recip_nonzero by lra.
  f_equal. field. lra.
Qed.

Lemma recip_time_zero : recip (0 / 1000 * k_samplerate) = None.
Proof.
  replace (0 / 1000 * k_samplerate) with 0 by (unfold k_samplerate; lra).
  apply recip_zero.
Qed.

Lemma amp_increment_pos (t : R) : 0 < t -> 0 < amp_increment t.
Proof.
  intros H. unfold amp_increment. apply Rdiv_lt_0_compat; lra.
Qed.

Lemma amp_decrement_pos (t : R) : 0 < t -> 0 < amp_decrement t.
Proof.
  intros H. unfold amp_decrement. apply Rdiv_lt_0_compat; lra.
Qed.

Lemma amp_attack_step (env attack release : R) :
  0 < attack ->
  amp_envelope k_state_attack env attack release
  = if Rgeb (env + amp_increment attack) 1
    then (1, k_state_decay)
    else (env + amp_increment attack, k_state_attack).
Proof. intros H. unfold amp_envelope. rewrite (recip_time _ H). reflexivity. Qed.

Lemma amp_attack_zero (env release : R) :
  amp_envelope k_state_attack env 0 release = (1, k_state_decay).
Proof. unfold amp_envelope. rewrite recip_time_zero. reflexivity. Qed.

Lemma amp_decay_step (env attack release : R) :
  0 < release ->
  amp_envelope k_state_decay env attack release
  = if Rleb (env - amp_decrement release) 0
    then (0, k_state_off)
    else (env - amp_decrement release, k_state_decay).
Proof. intros H. unfold amp_envelope. rewrite (recip_time _ H). reflexivity. Qed.

Lemma amp_release_step (env attack release : R) :
  0 < release ->
  amp_envelope k_state_release env attack release
  = if Rleb (env - amp_decrement release) 0
    then (0, k_state_off)
    else (env - amp_decrement release, k_state_release).
Proof. intros H. unfold amp_envelope. rewrite (recip_time _ H). reflexivity. Qed.

Lemma process_envelope (rnd : nat -> Z) (s : Synth) (k : nat) :
  envelope_ (snd (fst (process rnd s k)))
  = fst (amp_envelope (envelope_state_ s) (envelope_ s) (attack_ s) (release_ s)).
Proof. reflexivity. Qed.

Lemma process_envelope_state (rnd : nat -> Z) (s : Synth) (k : nat) :
  envelope_state_ (snd (fst (process rnd s k)))
  = snd (amp_envelope (envelope_state_ s) (envelope_ s) (attack_ s) (release_ s)).
Proof. reflexivity. Qed.

Lemma process_parameters (rnd : nat -> Z) (s : Synth) (k : nat) :
  parameters (snd (fst (process rnd s k))) = parameters s.
Proof. reflexivity. Qed.

Lemma process_attack_release (rnd : nat -> Z) (s : Synth) (k : nat) :
  attack_ (snd (fst (process rnd s k))) = attack_ s /\
  release_ (snd (fst (process rnd s k))) = release_ s.
Proof. split; reflexivity. Qed.

(* One sample of the amplitude envelope, in each phase. *)
Lemma process_amp_sample (rnd : nat -> Z) (s : Synth) (k : nat) :
  let s' := snd (fst (process rnd s k)) in
  let inc := amp_increment (attack_ s) in
  let dec := amp_decrement (release_ s) in
  (envelope_state_ s = k_state_attack -> 0 < attack_ s ->
     (envelope_ s + inc < 1 ->
        envelope_ s' = envelope_ s + inc /\ envelope_state_ s' = k_state_attack) /\
     (envelope_ s + inc >= 1 ->
        envelope_ s' = 1 /\ envelope_state_ s' = k_state_decay)) /\
  (envelope_state_ s = k_state_attack -> attack_ s = 0 ->
     envelope_ s' = 1 /\ envelope_state_ s' = k_state_decay) /\
  (envelope_state_ s = k_state_decay -> 0 < release_ s ->
     (envelope_ s - dec > 0 ->
        envelope_ s' = envelope_ s - dec /\ envelope_state_ s' = k_state_decay) /\
     (envelope_ s - dec <= 0 ->
        envelope_ s' = 0 /\ envelope_state_ s' = k_state_off)) /\
  (envelope_state_ s = k_state_release -> 0 < release_ s ->
     (envelope_ s - dec > 0 ->
        envelope_ s' = envelope_ s - dec /\ envelope_state_ s' = k_state_release) /\
     (envelope_ s - dec <= 0 ->
        envelope_ s' = 0 /\ envelope_state_ s' = k_state_off)) /\
  (envelope_state_ s = k_state_off ->
     envelope_ s' = envelope_ s /\ envelope_state_ s' = k_state_off).
Proof.
  cbv zeta. rewrite process_envelope, process_envelope_state.
  repeat apply conj.
  - intros Hs Ha. rewrite Hs, (amp_attack_step _ _ _ Ha). split; intros H.
    + apply Rgeb_false in H. rewrite H. split; reflexivity.
    + apply Rgeb_true in H. rewrite H. split; reflexivity.
  - intros Hs Ha. rewrite Hs, Ha, amp_attack_zero. split; reflexivity.
  - intros Hs Hr. rewrite Hs, (amp_decay_step _ _ _ Hr). split; intros H.
    + apply Rleb_false in H. rewrite H. split; reflexivity.
    + apply Rleb_true in H. rewrite H. split; reflexivity.
  - intros Hs Hr. rewrite Hs, (amp_release_step _ _ _ Hr). split; intros H.
    + apply Rleb_false in H. rewrite H. split; reflexivity.
    + apply Rleb_true in H. rewrite H. split; reflexivity.
  - intros Hs. rewrite Hs. split; reflexivity.
Qed.

(** ** The envelope over a run of samples *)

Lemma after_samples_0 (rnd : nat -> Z) (s : Synth) (k : nat) :
  after_samples rnd 0 s k = (s, k).
Proof. reflexivity. Qed.

Lemma after_samples_S (rnd : nat -> Z) (n : nat) (s : Synth) (k : nat) :
  after_samples rnd (S n) s k
  = after_samples rnd n (snd (fst (process rnd s k))) (snd (process rnd s k)).
Proof. reflexivity. Qed.

Lemma after_samples_add (rnd : nat -> Z) (m n : nat) :
  forall s k,
    after_samples rnd (m + n) s k
    = after_samples rnd n (fst (after_samples rnd m s k)) (snd (after_samples rnd m s k)).
Proof.
  induction m as [| m IH]; intros s k.
  - reflexivity.
  - replace (S m + n)%nat with (S (m + n)) by lia.
    rewrite (after_samples_S rnd (m + n)), IH, (after_samples_S rnd m). reflexivity.
Qed.

Lemma after_samples_attack_release (rnd : nat -> Z) (n : nat) :
  forall s k,
    attack_ (fst (after_samples rnd n s k)) = attack_ s /\
    release_ (fst (after_samples rnd n s k)) = release_ s.
Proof.
  induction n as [| n IH]; intros s k; [split; reflexivity |].
  rewrite after_samples_S.
  destruct (IH (snd (fst (process rnd s k))) (snd (process rnd s k))) as [Ha Hr].
  rewrite Ha, Hr. apply process_attack_release.
Qed.

Lemma nat_multiple_reaches (x y : R) : 0 < y -> exists N : nat, x <= INR N * y.
Proof.
  intros Hy. destruct (archimed (x / y)) as [Hup _].
  exists (Z.to_nat (up (x / y))).
  destruct (Z_lt_le_dec (up (x / y)) 0) as [Hneg | Hpos].
  - replace (Z.to_nat (up (x / y))) with 0%nat by lia. cbn [INR].
    assert (IZR (up (x / y)) < 0) by (apply (IZR_lt _ 0); exact Hneg).
    assert (x / y < 0) by lra.
    assert (x = x / y * y) by (field; lra).
    assert (x / y * y < 0) by nra.
    lra.
  - rewrite INR_IZR_INZ, Z2Nat.id by exact Hpos.
    assert (x = x / y * y) by (field; lra).
    nra.
Qed.

Section Trajectory.
Variable rnd : nat -> Z.

Let env (n : nat) (s : Synth) (k : nat) : R := envelope_ (fst (after_samples rnd n s k)).
Let st (n : nat) (s : Synth) (k : nat) : env_state :=
  envelope_state_ (fst (after_samples rnd n s k)).

(* Attack with a positive attack time: within N samples, where N
   increments reach 1, the envelope has risen strictly to exactly 1. *)
Lemma attack_run_positive (N : nat) :
  forall s k,
    envelope_state_ s = k_state_attack -> 0 < attack_ s ->
    0 <= envelope_ s < 1 ->
    envelope_ s + INR N * amp_increment (attack_ s) >= 1 ->
    exists Na : nat,
      (1 <= Na <= N)%nat /\
      (forall n, (n < Na)%nat ->
         st n s k = k_state_attack /\ 0 <= env n s k < 1 /\ env n s k < env (S n) s k) /\
      st Na s k = k_state_decay /\ env Na s k = 1.
Proof.
  induction N as [| N IH]; intros s k Hs Ha He Hreach.
  - cbn [INR] in Hreach. lra.
  - pose proof (amp_increment_pos _ Ha) as Hinc.
    destruct (process_amp_sample rnd s k) as (Hatt & _). cbv zeta in Hatt.
    destruct (Hatt Hs Ha) as [Hlt Hge].
    destruct (Rlt_dec (envelope_ s + amp_increment (attack_ s)) 1) as [Hin | Hout].
    + destruct (Hlt Hin) as [He' Hs'].
      destruct (process_attack_release rnd s k) as [Ha' _].
      destruct (IH (snd (fst (process rnd s k))) (snd (process rnd s k))) as (Na & HNa & Hbefore & Hst & Henv).
      * exact Hs'.
      * rewrite Ha'. exact Ha.
      * rewrite He'. lra.
      * rewrite He', Ha'. rewrite S_INR in Hreach. lra.
      * exists (S Na). split; [lia |]. split; [| split].
        -- intros n Hn. destruct n as [| n].
           ++ unfold st, env. rewrite after_samples_S, !after_samples_0. cbn [fst].
              rewrite He'. split; [exact Hs | split; lra].
           ++ unfold st, env.
              rewrite (after_samples_S rnd (S n) s k), (after_samples_S rnd n s k).
              apply Hbefore. lia.
        -- unfold st. rewrite after_samples_S. exact Hst.
        -- unfold env. rewrite after_samples_S. exact Henv.
    + destruct (Hge ltac:(lra)) as [He' Hs'].
      exists 1%nat. split; [lia |]. split; [| split].
      * intros n Hn. assert (n = 0%nat) by lia. subst n.
        unfold st, env. rewrite after_samples_S, !after_samples_0. cbn [fst].
        rewrite He'. split; [exact Hs | split; lra].
      * unfold st. rewrite after_samples_S, after_samples_0. exact Hs'.
      * unfold env. rewrite after_samples_S, after_samples_0. exact He'.
Qed.

(* Attack, for every attack time from 0 on. *)
Lemma attack_run (s : Synth) (k : nat) :
  envelope_state_ s = k_state_attack -> 0 <= attack_ s ->
  0 <= envelope_ s < 1 ->
  exists Na : nat,
    (1 <= Na)%nat /\
    (forall n, (n < Na)%nat ->
       st n s k = k_state_attack /\ 0 <= env n s k < 1 /\ env n s k < env (S n) s k) /\
    st Na s k = k_state_decay /\ env Na s k = 1.
Proof.
  intros Hs Ha He. destruct (Rle_lt_or_eq_dec _ _ Ha) as [Hpos | Hzero].
  - destruct (nat_multiple_reaches 1 (amp_increment (attack_ s))
                (amp_increment_pos _ Hpos)) as [N HN].
    destruct (attack_run_positive N s k Hs Hpos He) as (Na & HNa & H).
    + lra.
    + exists Na. split; [lia | exact H].
  - destruct (process_amp_sample rnd s k) as (_ & Hz & _). cbv zeta in Hz.
    destruct (Hz Hs (eq_sym Hzero)) as [He' Hs'].
    exists 1%nat. split; [lia |]. split; [| split].
    + intros n Hn. assert (n = 0%nat) by lia. subst n.
      unfold st, env. rewrite after_samples_S, !after_samples_0. cbn [fst].
      rewrite He'. split; [exact Hs | split; lra].
    + unfold st. rewrite after_samples_S, after_samples_0. exact Hs'.
    + unfold env. rewrite after_samples_S, after_samples_0. exact He'.
Qed.

(* Decay or Release: the envelope falls strictly to exactly 0, and the
   phase becomes Idle. *)
Lemma fall_run_bounded (falling : env_state) (N : nat) :
  falling = k_state_decay \/ falling = k_state_release ->
  forall s k,
    envelope_state_ s = falling -> 0 < release_ s ->
    0 < envelope_ s <= 1 ->
    envelope_ s - INR N * amp_decrement (release_ s) <= 0 ->
    exists Nr : nat,
      (1 <= Nr <= N)%nat /\
      (forall n, (n < Nr)%nat ->
         st n s k = falling /\ 0 < env n s k <= 1 /\ env (S n) s k < env n s k) /\
      st Nr s k = k_state_off /\ env Nr s k = 0.
Proof.
  intros Hfalling.
  induction N as [| N IH]; intros s k Hs Hr He Hreach.
  - cbn [INR] in Hreach. lra.
  - pose proof (amp_decrement_pos _ Hr) as Hdec.
    assert (Hstep :
      (envelope_ s - amp_decrement (release_ s) > 0 ->
         envelope_ (snd (fst (process rnd s k))) = envelope_ s - amp_decrement (release_ s) /\
         envelope_state_ (snd (fst (process rnd s k))) = falling) /\
      (envelope_ s - amp_decrement (release_ s) <= 0 ->
         envelope_ (snd (fst (process rnd s k))) = 0 /\
         envelope_state_ (snd (fst (process rnd s k))) = k_state_off)).
    { destruct (process_amp_sample rnd s k) as (_ & _ & Hd & Hrel & _).
      cbv zeta in Hd, Hrel.
      destruct Hfalling as [F | F]; rewrite F in *; auto. }
    destruct Hstep as [Hgt Hle].
    destruct (Rlt_dec 0 (envelope_ s - amp_decrement (release_ s))) as [Hin | Hout].
    + destruct (Hgt Hin) as [He' Hs'].
      destruct (process_attack_release rnd s k) as [_ Hr'].
      destruct (IH (snd (fst (process rnd s k))) (snd (process rnd s k))) as (Nr & HNr & Hbefore & Hst & Henv).
      * exact Hs'.
      * rewrite Hr'. exact Hr.
      * rewrite He'. lra.
      * rewrite He', Hr'. rewrite S_INR in Hreach. lra.
      * exists (S Nr). split; [lia |]. split; [| split].
        -- intros n Hn. destruct n as [| n].
           ++ unfold st, env. rewrite after_samples_S, !after_samples_0. cbn [fst].
              rewrite He'. split; [exact Hs | split; lra].
           ++ unfold st, env.
              rewrite (after_samples_S rnd (S n) s k), (after_samples_S rnd n s k).
              apply Hbefore. lia.
        -- unfold st. rewrite after_samples_S. exact Hst.
        -- unfold env. rewrite after_samples_S. exact Henv.
    + destruct (Hle ltac:(lra)) as [He' Hs'].
      exists 1%nat. split; [lia |]. split; [| split].
      * intros n Hn. assert (n = 0%nat) by lia. subst n.
        unfold st, env. rewrite after_samples_S, !after_samples_0. cbn [fst].
        rewrite He'. split; [exact Hs | split; lra].
      * unfold st. rewrite after_samples_S, after_samples_0. exact Hs'.
      * unfold env. rewrite after_samples_S, after_samples_0. exact He'.
Qed.

Lemma fall_run (falling : env_state) (s : Synth) (k : nat) :
  falling = k_state_decay \/ falling = k_state_release ->
  envelope_state_ s = falling -> 0 < release_ s ->
  0 < envelope_ s <= 1 ->
  exists Nr : nat,
    (1 <= Nr)%nat /\
    (forall n, (n < Nr)%nat ->
       st n s k = falling /\ 0 < env n s k <= 1 /\ env (S n) s k < env n s k) /\
    st Nr s k = k_state_off /\ env Nr s k = 0.
Proof.
  intros Hf Hs Hr He.
  destruct (nat_multiple_reaches (envelope_ s) (amp_decrement (release_ s))
              (amp_decrement_pos _ Hr)) as [N HN].
  destruct (fall_run_bounded falling N Hf s k Hs Hr He) as (Nr & HNr & H).
  - lra.
  - exists Nr. split; [lia | exact H].
Qed.

(* Idle: nothing moves. *)
Lemma idle_run (n : nat) :
  forall s k,
    envelope_state_ s = k_state_off ->
    st n s k = k_state_off /\ env n s k = envelope_ s.
Proof.
  induction n as [| n IH]; intros s k Hs.
  - split; [exact Hs | reflexivity].
  - destruct (process_amp_sample rnd s k) as (_ & _ & _ & _ & Hoff). cbv zeta in Hoff.
    destruct (Hoff Hs) as [He' Hs'].
    unfold st, env. rewrite after_samples_S.
    destruct (IH (snd (fst (process rnd s k))) (snd (process rnd s k)) Hs') as [H1 H2].
    unfold st, env in H1, H2. rewrite H1, H2. split; [reflexivity | exact He'].
Qed.
End Trajectory.

Lemma NoteOn_envelope_start (note velocity : Z) (s : Synth) :
  envelope_state_ (NoteOn note velocity s) = k_state_attack /\
  envelope_ (NoteOn note velocity s) = 0 /\
  attack_ (NoteOn note velocity s) = attack_ s /\
  release_ (NoteOn note velocity s) = release_ s.
Proof. repeat split; reflexivity. Qed.

(* One note without note-off: the envelope rises strictly to exactly 1,
   then falls strictly to exactly 0 and stays there. *)
Lemma note_cycle (rnd : nat -> Z) (s0 : Synth) (k : nat) :
  envelope_state_ s0 = k_state_attack -> envelope_ s0 = 0 ->
  0 <= attack_ s0 -> 0 < release_ s0 ->
  let env n := envelope_ (fst (after_samples rnd n s0 k)) in
  let st n := envelope_state_ (fst (after_samples rnd n s0 k)) in
  exists Na Nr : nat,
    (1 <= Na)%nat /\ (1 <= Nr)%nat /\
    (forall n, (n < Na)%nat -> st n = k_state_attack /\ env n < env (S n)) /\
    st Na = k_state_decay /\ env Na = 1 /\
    (forall n, (Na <= n < Na + Nr)%nat -> st n = k_state_decay /\ env (S n) < env n) /\
    st (Na + Nr)%nat = k_state_off /\ env (Na + Nr)%nat = 0 /\
    (forall n, (Na + Nr <= n)%nat -> st n = k_state_off /\ env n = 0) /\
    (forall n, 0 <= env n <= 1).
Proof.
  intros Hs He Ha Hr. cbv zeta.
  destruct (attack_run rnd s0 k Hs Ha ltac:(lra)) as (Na & HNa & Hrise & HstA & HenvA).
  remember (after_samples rnd Na s0 k) as wa eqn:Ewa.
  assert (Hra : release_ (fst wa) = release_ s0).
  { subst wa. apply after_samples_attack_release. }
  destruct (fall_run rnd k_state_decay (fst wa) (snd wa) (or_introl eq_refl))
    as (Nr & HNr & Hfall & HstR & HenvR).
  { exact HstA. } { rewrite Hra. exact Hr. } { rewrite HenvA. lra. }
  assert (Hsplit : forall j, after_samples rnd (Na + j) s0 k
                             = after_samples rnd j (fst wa) (snd wa)).
  { intros j. rewrite after_samples_add, <- Ewa. reflexivity. }
  remember (after_samples rnd Nr (fst wa) (snd wa)) as wr eqn:Ewr.
  assert (Hsplit2 : forall j, after_samples rnd (Na + Nr + j) s0 k
                              = after_samples rnd j (fst wr) (snd wr)).
  { intros j. rewrite after_samples_add, Hsplit, <- Ewr. reflexivity. }
  assert (Hidle : forall j, envelope_state_ (fst (after_samples rnd j (fst wr) (snd wr)))
                            = k_state_off /\
                            envelope_ (fst (after_samples rnd j (fst wr) (snd wr))) = 0).
  { intros j. destruct (idle_run rnd j (fst wr) (snd wr) HstR) as [H1 H2].
    split; [exact H1 | rewrite H2; exact HenvR]. }
  exists Na, Nr.
  split; [exact HNa |]. split; [exact HNr |].
  split; [intros n Hn; destruct (Hrise n Hn) as (H1 & _ & H3); split; assumption |].
  split; [rewrite <- Ewa; exact HstA |]. split; [rewrite <- Ewa; exact HenvA |].
  split.
  { intros n Hn. replace n with (Na + (n - Na))%nat by lia.
    replace (S (Na + (n - Na))) with (Na + S (n - Na))%nat by lia.
    rewrite !Hsplit. destruct (Hfall (n - Na)%nat ltac:(lia)) as (H1 & _ & H3).
    split; assumption. }
  split; [rewrite Hsplit, <- Ewr; exact HstR |].
  split; [rewrite Hsplit, <- Ewr; exact HenvR |].
  split.
  { intros n Hn. replace n with (Na + Nr + (n - (Na + Nr)))%nat by lia.
    rewrite Hsplit2. apply Hidle. }
  intros n.
  destruct (Nat.lt_ge_cases n Na) as [H1 | H1].
  { destruct (Hrise n H1) as (_ & H2 & _). lra. }
  destruct (Nat.lt_ge_cases n (Na + Nr)) as [H2 | H2].
  { replace n with (Na + (n - Na))%nat by lia. rewrite Hsplit.
    destruct (Hfall (n - Na)%nat ltac:(lia)) as (_ & H3 & _). lra. }
  replace n with (Na + Nr + (n - (Na + Nr)))%nat by lia.
  rewrite Hsplit2. destruct (Hidle (n - (Na + Nr))%nat) as [_ H3]. rewrite H3. lra.
Qed.

(** C2.  For an attack time of at least 0 ms and a positive release time.
    Per sample: in Attack the envelope grows by 1000 / (attack_ms * 48000)
    and, once that reaches or exceeds 1, is set to exactly 1 with the phase
    Decay (with attack 0 the step is infinite and this happens at once); in
    Decay and in Release it shrinks by 1000 / (release_ms * 48000), the
    release time in both, and, once that reaches or falls below 0, is set
    to exactly 0 with the phase Idle; in Idle it stays.  Over a note: after
    NoteOn the envelope rises strictly until it is exactly 1 and the phase
    is Decay, then falls strictly until it is exactly 0 and the phase is
    Idle, stays there, and is in [0, 1] at every sample; a note-off at any
    sample where the envelope is positive makes it fall strictly, in
    Release, to exactly 0 and Idle. *)
Theorem C2_amplitude_envelope (rnd : nat -> Z) (note velocity : Z) (s : Synth) (k : nat) :
  0 <= attack_ s -> 0 < release_ s ->
  (let s' := snd (fst (process rnd s k)) in
   let inc := amp_increment (attack_ s) in
   let dec := amp_decrement (release_ s) in
   (envelope_state_ s = k_state_attack -> 0 < attack_ s ->
      (envelope_ s + inc < 1 ->
         envelope_ s' = envelope_ s + inc /\ envelope_state_ s' = k_state_attack) /\
      (envelope_ s + inc >= 1 ->
         envelope_ s' = 1 /\ envelope_state_ s' = k_state_decay)) /\
   (envelope_state_ s = k_state_attack -> attack_ s = 0 ->
      envelope_ s' = 1 /\ envelope_state_ s' = k_state_decay) /\
   (envelope_state_ s = k_state_decay ->
      (envelope_ s - dec > 0 ->
         envelope_ s' = envelope_ s - dec /\ envelope_state_ s' = k_state_decay) /\
      (envelope_ s - dec <= 0 ->
         envelope_ s' = 0 /\ envelope_state_ s' = k_state_off)) /\
   (envelope_state_ s = k_state_release ->
      (envelope_ s - dec > 0 ->
         envelope_ s' = envelope_ s - dec /\ envelope_state_ s' = k_state_release) /\
      (envelope_ s - dec <= 0 ->
         envelope_ s' = 0 /\ envelope_state_ s' = k_state_off)) /\
   (envelope_state_ s = k_state_off ->
      envelope_ s' = envelope_ s /\ envelope_state_ s' = k_state_off)) /\
  (let s0 := NoteOn note velocity s in
   let env n := envelope_ (fst (after_samples rnd n s0 k)) in
   let st n := envelope_state_ (fst (after_samples rnd n s0 k)) in
   exists Na Nr : nat,
     (1 <= Na)%nat /\ (1 <= Nr)%nat /\
     (forall n, (n < Na)%nat -> st n = k_state_attack /\ env n < env (S n)) /\
     st Na = k_state_decay /\ env Na = 1 /\
     (forall n, (Na <= n < Na + Nr)%nat -> st n = k_state_decay /\ env (S n) < env n) /\
     st (Na + Nr)%nat = k_state_off /\ env (Na + Nr)%nat = 0 /\
     (forall n, (Na + Nr <= n)%nat -> st n = k_state_off /\ env n = 0) /\
     (forall n, 0 <= env n <= 1)) /\
  (forall m : nat,
     let w := after_samples rnd m (NoteOn note velocity s) k in
     let s1 := NoteOff 255 (fst w) in
     let env n := envelope_ (fst (after_samples rnd n s1 (snd w))) in
     let st n := envelope_state_ (fst (after_samples rnd n s1 (snd w))) in
     0 < envelope_ (fst w) ->
     exists Nr : nat,
       (1 <= Nr)%nat /\
       (forall n, (n < Nr)%nat -> st n = k_state_release /\ env (S n) < env n) /\
       st Nr = k_state_off /\ env Nr = 0).
Proof.
  intros Ha Hr.
  destruct (NoteOn_envelope_start note velocity s) as (Hs0 & He0 & Ha0 & Hr0).
  assert (Hcycle := note_cycle rnd (NoteOn note velocity s) k Hs0 He0
                      ltac:(rewrite Ha0; exact Ha) ltac:(rewrite Hr0; exact Hr)).
  split; [| split].
  - destruct (process_amp_sample rnd s k) as (H1 & H2 & H3 & H4 & H5).
    cbv zeta in *.
    split; [exact H1 |]. split; [exact H2 |].
    split; [intros Hs; exact (H3 Hs Hr) |].
    split; [intros Hs; exact (H4 Hs Hr) | exact H5].
  - exact Hcycle.
  - intros m. cbv zeta. intros Hpos.
    destruct Hcycle as (Na & Nr0 & _ & _ & _ & _ & _ & _ & _ & _ & _ & Hbound).
    cbv zeta in Hbound. specialize (Hbound m).
    set (w := after_samples rnd m (NoteOn note velocity s) k) in *.
    assert (Hrel : release_ (fst w) = release_ s).
    { unfold w. rewrite (proj2 (after_samples_attack_release rnd m _ k)). exact Hr0. }
    destruct (fall_run rnd k_state_release (NoteOff 255 (fst w)) (snd w)
                (or_intror eq_refl)) as (Nr & HNr & Hfall & HstR & HenvR).
    + rewrite (NoteOff_matching 255 (fst w) (or_intror eq_refl)). reflexivity.
    + rewrite (NoteOff_matching 255 (fst w) (or_intror eq_refl)).
      change (0 < release_ (fst w)). rewrite Hrel. exact Hr.
    + rewrite (NoteOff_matching 255 (fst w) (or_intror eq_refl)).
      change (0 < envelope_ (fst w) <= 1). lra.
    + exists Nr. split; [exact HNr |].
      split; [| split; [exact HstR | exact HenvR]].
      intros n Hn. destruct (Hfall n Hn) as (H1 & _ & H3). split; assumption.
Qed.

(** C2 applied to the constructed object (attack 2 ms, release 300 ms), the
    note 36 at velocity 100 and a std::rand that returns 0. *)
Lemma C2_amplitude_envelope_witness :
  0 <= attack_ fresh /\ 0 < release_ fresh /\
  (let s0 := NoteOn 36 100 fresh in
   let env n := envelope_ (fst (after_samples (fun _ => 0%Z) n s0 0)) in
   let st n := envelope_state_ (fst (after_samples (fun _ => 0%Z) n s0 0)) in
   exists Na Nr : nat,
     (1 <= Na)%nat /\ (1 <= Nr)%nat /\
     (forall n, (n < Na)%nat -> st n = k_state_attack /\ env n < env (S n)) /\
     st Na = k_state_decay /\ env Na = 1 /\
     (forall n, (Na <= n < Na + Nr)%nat -> st n = k_state_decay /\ env (S n) < env n) /\
     st (Na + Nr)%nat = k_state_off /\ env (Na + Nr)%nat = 0 /\
     (forall n, (Na + Nr <= n)%nat -> st n = k_state_off /\ env n = 0) /\
     (forall n, 0 <= env n <= 1)).
Proof.
  assert (Ha : 0 <= attack_ fresh) by (synth_eval; lra).
  assert (Hr : 0 < release_ fresh) by (synth_eval; lra).
  split; [exact Ha |]. split; [exact Hr |].
  exact (proj1 (proj2 (C2_amplitude_envelope (fun _ => 0%Z) 36 100 fresh 0 Ha Hr))).
Defined.

(** ** The phases over one sample *)

Lemma process_pitch_envelope (rnd : nat -> Z) (s : Synth) (k : nat) :
  pitch_envelope_ (snd (fst (process rnd s k))) = pitch_envelope_next s.
Proof. reflexivity. Qed.

Lemma process_osc2_envelope (rnd : nat -> Z) (s : Synth) (k : nat) :
  osc2_envelope_ (snd (fst (process rnd s k))) = osc2_envelope_next s.
Proof. reflexivity. Qed.

Lemma process_click_envelope (rnd : nat -> Z) (s : Synth) (k : nat) :
  click_envelope_ (snd (fst (process rnd s k))) = click_envelope_next s.
Proof. reflexivity. Qed.

Lemma process_phase1 (rnd : nat -> Z) (s : Synth) (k : nat) :
  phase1_ (snd (fst (process rnd s k)))
  = advance_phase (phase1_ s) (body_frequency s / k_samplerate).
Proof. reflexivity. Qed.

Lemma process_phase2 (rnd : nat -> Z) (s : Synth) (k : nat) :
  phase2_ (snd (fst (process rnd s k)))
  = advance_phase (phase2_ s) (osc2_frequency s / k_samplerate).
Proof. reflexivity. Qed.

Lemma advance_phase_no_wrap (p inc : R) : p + inc < 1 -> advance_phase p inc = p + inc.
Proof.
  intros H. unfold advance_phase. cbv zeta.
  apply Rgeb_false in H. rewrite H. reflexivity.
Qed.

Lemma advance_phase_wrap (p inc : R) : p + inc >= 1 -> advance_phase p inc = p + inc - 1.
Proof.
  intros H. unfold advance_phase. cbv zeta.
  apply Rgeb_true in H. rewrite H. reflexivity.
Qed.

Lemma advance_phase_cases (p inc : R) :
  p + inc < 1 /\ advance_phase p inc = p + inc \/
  p + inc >= 1 /\ advance_phase p inc = p + inc - 1.
Proof.
  destruct (Rlt_dec (p + inc) 1) as [H | H].
  - left. split; [exact H | apply advance_phase_no_wrap; exact H].
  - right. split; [lra | apply advance_phase_wrap; lra].
Qed.

(* A phase in [0, 1) advanced by a step in [0, 1) is in [0, 1) again. *)
Lemma advance_phase_range (p inc : R) :
  0 <= p < 1 -> 0 <= inc < 1 -> 0 <= advance_phase p inc < 1.
Proof.
  intros Hp Hi. destruct (advance_phase_cases p inc) as [[H E] | [H E]]; rewrite E; lra.
Qed.

(* The wrap keeps a phase below 1 whatever the sign of the step. *)
Lemma advance_phase_below_one (p inc : R) :
  p < 1 -> inc < 1 -> advance_phase p inc < 1.
Proof.
  intros Hp Hi. destruct (advance_phase_cases p inc) as [[H E] | [H E]]; rewrite E; lra.
Qed.

(* A negative step is never wrapped back. *)
Lemma advance_phase_negative (p inc : R) :
  p + inc < 0 -> advance_phase p inc = p + inc /\ advance_phase p inc < 0.
Proof.
  intros H. rewrite advance_phase_no_wrap by lra. split; [reflexivity | exact H].
Qed.

Lemma decay_envelope_step (e t : R) :
  0 < t ->
  decay_envelope e t
  = if Rltb (e - 1000 / (t * 48000)) 0 then 0 else e - 1000 / (t * 48000).
Proof. intros H. unfold decay_envelope. rewrite (recip_time _ H). reflexivity. Qed.

Lemma decay_envelope_range (e t : R) :
  0 < t -> 0 <= e <= 1 -> 0 <= decay_envelope e t <= e.
Proof.
  intros Ht He. rewrite (decay_envelope_step _ _ Ht).
  assert (0 < 1000 / (t * 48000)) by (apply Rdiv_lt_0_compat; lra).
  unfold Rltb. destruct (Rlt_dec (e - 1000 / (t * 48000)) 0); lra.
Qed.

(** ** The documented ranges *)

Ltac eval_ranges :=
  repeat match goal with
         | |- context [documented_range ?n] =>
             let r := eval vm_compute in (documented_range n) in
             change (documented_range n) with r
         end;
  cbn [fst snd].

Lemma documented_bounds (s : Synth) :
  in_documented_ranges s <->
  40 <= pitch_ s <= 150 /\ 10 <= decay_ s <= 500 /\
  0 <= body_level_ s <= 1 /\ 0 <= drive_ s <= 1 /\
  0 <= attack_ s <= 50 /\ 10 <= release_ s <= 1000 /\
  0 <= pitch_curve_ s <= 1 /\
  0 <= click_level_ s <= 1 /\ 50 <= click_freq_ s <= 400 /\
  1 <= click_decay_ s <= 100 /\ 0 <= click_tone_ s <= 1 /\
  0 <= filter_cutoff_ s <= 1 /\ 0 <= filter_resonance_ s <= 1 /\
  (0 <= osc2_enabled_ s <= 1)%Z /\ (0 <= osc2_waveform_ s <= 4)%Z /\
  0.5 <= osc2_pitch_ s <= 6 /\ 0 <= osc2_level_ s <= 1 /\
  0 <= fm_amount_ s <= 1 /\ 0.5 <= fm_ratio_ s <= 5 /\
  10 <= osc2_decay_ s <= 500.
Proof.
  unfold in_documented_ranges, in_range, in_range_Z. eval_ranges.
  split; intros H; repeat (destruct H as [? H]); repeat apply conj; try lra; try lia.
Qed.

(** ** Sine near three quarters of a cycle *)

Lemma cos_small (t : R) : 0 <= t <= 1 -> 1 - t * t / 2 <= cos t.
Proof.
  intros Ht.
  assert (E : cos t = 1 - 2 * sin (t / 2) * sin (t / 2)).
  { rewrite <- cos_2a_sin. f_equal. lra. }
  rewrite E.
  assert (H0 : 0 <= sin (t / 2)).
  { apply sin_ge_0; [lra |]. pose proof PI_RGT_0. pose proof PI2_3_2. lra. }
  assert (H1 : sin (t / 2) <= t / 2).
  { destruct (Req_dec t 0) as [Z0 | Z0].
    - rewrite Z0. replace (0 / 2) with 0 by lra. rewrite sin_0. lra.
    - left. apply sin_lt_x. lra. }
  nra.
Qed.

Lemma waveformSine_three_quarters (p : R) :
  0.75 <= p <= 0.751 -> -1 <= waveformSine p <= -0.99.
Proof.
  intros Hp. unfold waveformSine, k_twopi, k_pi.
  split; [apply SIN_bound |].
  replace (p * (2 * PI)) with (3 * (PI / 2) + (p - 0.75) * (2 * PI)) by lra.
  rewrite sin_plus, sin_3PI2, cos_3PI2.
  pose proof PI_RGT_0 as Hpi0. pose proof PI_4 as Hpi4.
  assert (Ht : 0 <= (p - 0.75) * (2 * PI) <= 0.008) by nra.
  pose proof (cos_small ((p - 0.75) * (2 * PI)) ltac:(lra)) as Hc.
  assert (((p - 0.75) * (2 * PI)) * ((p - 0.75) * (2 * PI)) <= 0.008 * 0.008) by nra.
  lra.
Qed.

(** ** Parameters over a run of samples *)

Lemma parameters_fields (s t : Synth) :
  parameters s = parameters t ->
  pitch_ s = pitch_ t /\ decay_ s = decay_ t /\ body_level_ s = body_level_ t /\
  drive_ s = drive_ t /\ attack_ s = attack_ t /\ release_ s = release_ t /\
  pitch_curve_ s = pitch_curve_ t /\
  click_level_ s = click_level_ t /\ click_freq_ s = click_freq_ t /\
  click_decay_ s = click_decay_ t /\ click_tone_ s = click_tone_ t /\
  filter_enabled_ s = filter_enabled_ t /\ filter_cutoff_ s = filter_cutoff_ t /\
  filter_resonance_ s = filter_resonance_ t /\ filter_mode_24db_ s = filter_mode_24db_ t /\
  osc2_enabled_ s = osc2_enabled_ t /\ osc2_waveform_ s = osc2_waveform_ t /\
  osc2_pitch_ s = osc2_pitch_ t /\ osc2_level_ s = osc2_level_ t /\
  fm_amount_ s = fm_amount_ t /\ fm_ratio_ s = fm_ratio_ t /\
  osc2_decay_ s = osc2_decay_ t.
Proof.
  unfold parameters. intros H. injection H. intros. repeat split; assumption.
Qed.

Lemma after_samples_parameters (rnd : nat -> Z) (n : nat) :
  forall s k, parameters (fst (after_samples rnd n s k)) = parameters s.
Proof.
  induction n as [| n IH]; intros s k; [reflexivity |].
  rewrite after_samples_S, IH. apply process_parameters.
Qed.

Lemma in_documented_ranges_parameters (s t : Synth) :
  parameters s = parameters t -> in_documented_ranges s -> in_documented_ranges t.
Proof.
  intros H. apply parameters_fields in H.
  unfold in_documented_ranges.
  destruct H as (-> & -> & -> & -> & -> & -> & -> & -> & -> & -> & -> & _ & -> & -> & _
                 & -> & -> & -> & -> & -> & -> & ->).
  exact (fun x => x).
Qed.

(** ** Idle, FM off: the oscillators run at the set pitch *)

Lemma idle_sample (rnd : nat -> Z) (s : Synth) (k : nat) :
  envelope_state_ s = k_state_off -> pitch_envelope_ s = 0 -> fm_amount_ s = 0 ->
  let s' := snd (fst (process rnd s k)) in
  envelope_state_ s' = k_state_off /\ pitch_envelope_ s' = 0 /\
  phase1_ s' = advance_phase (phase1_ s) (pitch_ s / 48000) /\
  phase2_ s' = advance_phase (phase2_ s) (pitch_ s * osc2_pitch_ s * fm_ratio_ s / 48000).
Proof.
  intros Hs Hp Hf. cbv zeta.
  assert (Hrun : running_next s = false).
  { unfold running_next. rewrite Hs. reflexivity. }
  assert (Hpe : pitch_envelope_next s = 0).
  { unfold pitch_envelope_next. rewrite Hrun. exact Hp. }
  assert (Hcp : current_pitch s = pitch_ s).
  { unfold current_pitch. rewrite Hpe. lra. }
  assert (Hfm : fm_offset s = 0).
  { unfold fm_offset, fm_active. rewrite Hf.
    replace (Rgtb 0 0) with false by (symmetry; apply Rgtb_false; lra).
    rewrite andb_false_r. reflexivity. }
  split; [apply process_idle_state; exact Hs |].
  split; [rewrite process_pitch_envelope; exact Hpe |].
  split.
  - rewrite process_phase1. unfold body_frequency, k_samplerate.
    rewrite Hcp, Hfm. f_equal. lra.
  - rewrite process_phase2. unfold osc2_frequency, k_samplerate. rewrite Hcp. reflexivity.
Qed.

Lemma idle_free_run (rnd : nat -> Z) (n : nat) :
  forall s k,
    envelope_state_ s = k_state_off -> pitch_envelope_ s = 0 -> fm_amount_ s = 0 ->
    0 <= pitch_ s -> 0 <= pitch_ s * osc2_pitch_ s * fm_ratio_ s ->
    phase1_ s + INR n * (pitch_ s / 48000) < 1 ->
    phase2_ s + INR n * (pitch_ s * osc2_pitch_ s * fm_ratio_ s / 48000) < 1 ->
    phase1_ (fst (after_samples rnd n s k)) = phase1_ s + INR n * (pitch_ s / 48000) /\
    phase2_ (fst (after_samples rnd n s k))
    = phase2_ s + INR n * (pitch_ s * osc2_pitch_ s * fm_ratio_ s / 48000).
Proof.
  induction n as [| n IH]; intros s k Hs Hp Hf Hpitch Hosc H1 H2.
  - rewrite after_samples_0. cbn [fst INR]. split; lra.
  - rewrite after_samples_S. rewrite S_INR in H1, H2.
    destruct (idle_sample rnd s k Hs Hp Hf) as (Hs' & Hp' & E1 & E2). cbv zeta in *.
    pose proof (parameters_fields _ _ (process_parameters rnd s k)) as F.
    destruct F as (Fp & _ & _ & _ & _ & _ & _ & _ & _ & _ & _ & _ & _ & _ & _ & _ & _
                   & Fo & _ & Ff & Fr & _).
    assert (I1 : 0 <= INR n * (pitch_ s / 48000)).
    { apply Rmult_le_pos; [apply pos_INR | lra]. }
    assert (I2 : 0 <= INR n * (pitch_ s * osc2_pitch_ s * fm_ratio_ s / 48000)).
    { apply Rmult_le_pos; [apply pos_INR | lra]. }
    rewrite advance_phase_no_wrap in E1 by lra.
    rewrite advance_phase_no_wrap in E2 by lra.
    destruct (IH (snd (fst (process rnd s k))) (snd (process rnd s k))) as [G1 G2].
    + exact Hs'.
    + exact Hp'.
    + rewrite Ff. exact Hf.
    + rewrite Fp. exact Hpitch.
    + rewrite Fp, Fo, Fr. exact Hosc.
    + rewrite Fp, E1. lra.
    + rewrite Fp, Fo, Fr, E2. lra.
    + rewrite G1, G2, E1, E2, Fp, Fo, Fr, S_INR. split; lra.
Qed.

(** ** Attack with full FM at the lowest pitch: the body phase falls *)

Lemma fm_attack_sample (rnd : nat -> Z) (s : Synth) (k : nat) :
  envelope_state_ s = k_state_attack ->
  attack_ s = 2 -> pitch_ s = 40 -> pitch_curve_ s = 1 ->
  decay_ s = 130 -> osc2_decay_ s = 100 ->
  osc2_enabled_ s = 1%Z -> fm_amount_ s = 1 -> osc2_pitch_ s = 6 -> fm_ratio_ s = 5 ->
  0 <= envelope_ s -> envelope_ s + 1 / 96 < 1 ->
  0.997 <= pitch_envelope_ s - 1 / 6240 -> pitch_envelope_ s <= 1 ->
  0.99 <= osc2_envelope_ s - 1 / 4800 -> osc2_envelope_ s <= 1 ->
  0.75 <= phase2_ s <= 0.751 ->
  phase1_ s < 1 ->
  let s' := snd (fst (process rnd s k)) in
  envelope_state_ s' = k_state_attack /\
  envelope_ s' = envelope_ s + 1 / 96 /\
  pitch_envelope_ s' = pitch_envelope_ s - 1 / 6240 /\
  osc2_envelope_ s' = osc2_envelope_ s - 1 / 4800 /\
  phase2_ s <= phase2_ s' <= phase2_ s + 0.000075 /\
  body_frequency s < 0 /\
  phase1_ s' <= phase1_ s - 0.002.
Proof.
  intros Hs Ha Hp Hc Hd Hod Hen Hfm Hop Hfr He0 He1 Hpe0 Hpe1 Hoe0 Hoe1 Hp2 Hp1.
  cbv zeta.
  assert (Hinc : amp_increment 2 = 1 / 96) by (unfold amp_increment; lra).
  assert (Hamp : amp_envelope k_state_attack (envelope_ s) 2 (release_ s)
                 = (envelope_ s + 1 / 96, k_state_attack)).
  { rewrite amp_attack_step by lra. rewrite Hinc.
    replace (Rgeb (envelope_ s + 1 / 96) 1) with false
      by (symmetry; apply Rgeb_false; lra).
    reflexivity. }
  assert (Hrun : running_next s = true).
  { unfold running_next. rewrite Hs, Ha, Hamp. reflexivity. }
  assert (Hpe : pitch_envelope_next s = pitch_envelope_ s - 1 / 6240).
  { unfold pitch_envelope_next. rewrite Hrun, Hd, decay_envelope_step by lra.
    replace (1000 / (130 * 48000)) with (1 / 6240) by lra.
    replace (Rltb (pitch_envelope_ s - 1 / 6240) 0) with false
      by (symmetry; apply Rltb_false; lra).
    reflexivity. }
  assert (Hoe : osc2_envelope_next s = osc2_envelope_ s - 1 / 4800).
  { unfold osc2_envelope_next. rewrite Hrun, Hod, decay_envelope_step by lra.
    replace (1000 / (100 * 48000)) with (1 / 4800) by lra.
    replace (Rltb (osc2_envelope_ s - 1 / 4800) 0) with false
      by (symmetry; apply Rltb_false; lra).
    reflexivity. }
  assert (Hcp : 0 <= current_pitch s <= 0.12).
  { unfold current_pitch. rewrite Hp, Hc, Hpe. lra. }
  assert (Hact : fm_active s = true).
  { unfold fm_active. rewrite Hen, Hfm.
    replace (Rgtb 1 0) with true by (symmetry; apply Rgtb_true; lra).
    reflexivity. }
  pose proof (waveformSine_three_quarters (phase2_ s) Hp2) as Hsin.
  assert (Hoff : fm_offset s <= -98).
  { unfold fm_offset. rewrite Hact, Hfm, Hoe.
    assert (waveformSine (phase2_ s) * (osc2_envelope_ s - 1 / 4800) <= -0.98) by nra.
    lra. }
  assert (Hbf : body_frequency s <= -97.8).
  { unfold body_frequency. lra. }
  assert (Hof : 0 <= osc2_frequency s <= 3.6).
  { unfold osc2_frequency. rewrite Hop, Hfr. lra. }
  split; [rewrite process_envelope_state, Hs, Ha, Hamp; reflexivity |].
  split; [rewrite process_envelope, Hs, Ha, Hamp; reflexivity |].
  split; [rewrite process_pitch_envelope; exact Hpe |].
  split; [rewrite process_osc2_envelope; exact Hoe |].
  split.
  { rewrite process_phase2, advance_phase_no_wrap by (unfold k_samplerate; lra).
    unfold k_samplerate. lra. }
  split; [lra |].
  rewrite process_phase1, advance_phase_no_wrap by (unfold k_samplerate; lra).
  unfold k_samplerate. lra.
Qed.

Lemma fm_descent (rnd : nat -> Z) (j : nat) :
  forall s k,
    envelope_state_ s = k_state_attack ->
    attack_ s = 2 -> pitch_ s = 40 -> pitch_curve_ s = 1 ->
    decay_ s = 130 -> osc2_decay_ s = 100 ->
    osc2_enabled_ s = 1%Z -> fm_amount_ s = 1 -> osc2_pitch_ s = 6 -> fm_ratio_ s = 5 ->
    0 <= envelope_ s -> envelope_ s + INR j / 96 < 1 ->
    0.997 <= pitch_envelope_ s - INR j / 6240 -> pitch_envelope_ s <= 1 ->
    0.99 <= osc2_envelope_ s - INR j / 4800 -> osc2_envelope_ s <= 1 ->
    0.75 <= phase2_ s -> phase2_ s + INR j * 0.000075 <= 0.751 ->
    phase1_ s < 1 ->
    phase1_ (fst (after_samples rnd j s k)) <= phase1_ s - INR j * 0.002.
Proof.
  induction j as [| j IH];
    intros s k Hs Ha Hp Hc Hd Hod Hen Hfm Hop Hfr He0 He1 Hpe0 Hpe1 Hoe0 Hoe1 Hp20 Hp21 Hp1.
  - rewrite after_samples_0. cbn [fst INR]. lra.
  - rewrite after_samples_S. rewrite S_INR in *.
    pose proof (pos_INR j) as Hj.
    destruct (fm_attack_sample rnd s k Hs Ha Hp Hc Hd Hod Hen Hfm Hop Hfr)
      as (Hs' & He' & Hpe' & Hoe' & Hp2' & _ & Hp1'); try lra.
    cbv zeta in *.
    pose proof (parameters_fields _ _ (process_parameters rnd s k)) as F.
    destruct F as (Fp & Fd & _ & _ & Fa & _ & Fc & _ & _ & _ & _ & _ & _ & _ & _ & Fen & _
                   & Fo & _ & Ff & Fr & Fod).
    specialize (IH (snd (fst (process rnd s k))) (snd (process rnd s k))).
    rewrite Fp, Fd, Fa, Fc, Fen, Fo, Ff, Fr, Fod, He', Hpe', Hoe' in IH.
    assert (G : phase1_ (fst (after_samples rnd j (snd (fst (process rnd s k)))
                               (snd (process rnd s k))))
                <= phase1_ (snd (fst (process rnd s k))) - INR j * 0.002).
    { apply IH; try assumption; lra. }
    lra.
Qed.

Lemma setParameter_parameters (index value : Z) (s t : Synth) :
  parameters s = parameters t ->
  parameters (setParameter index value s) = parameters (setParameter index value t).
Proof.
  intros H. apply parameters_fields in H.
  destruct H as (H1 & H2 & H3 & H4 & H5 & H6 & H7 & H8 & H9 & H10 & H11 & H12 & H13 & H14
                 & H15 & H16 & H17 & H18 & H19 & H20 & H21 & H22).
  unfold setParameter. case_ifs; unfold parameters; synth_simpl;
    rewrite ?H1, ?H2, ?H3, ?H4, ?H5, ?H6, ?H7, ?H8, ?H9, ?H10, ?H11, ?H12, ?H13, ?H14,
      ?H15, ?H16, ?H17, ?H18, ?H19, ?H20, ?H21, ?H22; reflexivity.
Qed.

Lemma NoteOn_parameters (note velocity : Z) (s : Synth) :
  parameters (NoteOn note velocity s) = parameters s.
Proof. reflexivity. Qed.

Lemma NoteOn_phases (note velocity : Z) (s : Synth) :
  phases (NoteOn note velocity s) = phases s.
Proof. reflexivity. Qed.

Lemma NoteOn_aux_envelopes (note velocity : Z) (s : Synth) :
  pitch_envelope_ (NoteOn note velocity s) = 1 /\
  osc2_envelope_ (NoteOn note velocity s) = 1 /\
  click_envelope_ (NoteOn note velocity s) = 1.
Proof. repeat split; reflexivity. Qed.

Ltac concrete_ranges :=
  apply documented_bounds; synth_eval; repeat apply conj; first [lra | lia].

(** ** Histories, event by event *)

Lemma run_cons (rnd : nat -> Z) (e : event) (history : list event) (w : Synth * nat) :
  run rnd (e :: history) w = run rnd history (apply_event rnd e w).
Proof. reflexivity. Qed.

Lemma run_nil (rnd : nat -> Z) (w : Synth * nat) : run rnd [] w = w.
Proof. reflexivity. Qed.

Lemma stays_in_ranges_cons (rnd : nat -> Z) (e : event) (history : list event)
    (w : Synth * nat) :
  stays_in_ranges rnd (e :: history) w
  = (in_documented_ranges (fst (apply_event rnd e w)) /\
     stays_in_ranges rnd history (apply_event rnd e w)).
Proof. reflexivity. Qed.

Lemma stays_in_ranges_nil (rnd : nat -> Z) (w : Synth * nat) :
  stays_in_ranges rnd [] w = True.
Proof. reflexivity. Qed.

Lemma apply_event_setParameter (rnd : nat -> Z) (index value : Z) (s : Synth) (k : nat) :
  apply_event rnd (ev_setParameter index value) (s, k) = (setParameter index value s, k).
Proof. reflexivity. Qed.

Lemma apply_event_NoteOn (rnd : nat -> Z) (note velocity : Z) (s : Synth) (k : nat) :
  apply_event rnd (ev_NoteOn note velocity) (s, k) = (NoteOn note velocity s, k).
Proof. reflexivity. Qed.

Lemma apply_event_Render (rnd : nat -> Z) (frames : nat) (s : Synth) (k : nat) :
  apply_event rnd (ev_Render frames) (s, k) = after_samples rnd frames s k.
Proof. reflexivity. Qed.

Lemma fst_pair (A B : Type) (a : A) (b : B) : fst (a, b) = a.
Proof. reflexivity. Qed.

Section FmHistory.
Variable rnd : nat -> Z.

Let s1 : Synth :=
  setParameter k_param_fm_ratio 50
    (setParameter k_param_osc2_pitch 60 (setParameter k_param_pitch 150 fresh)).

(* Eight idle frames at 150 Hz, modulator at 30 times the pitch. *)
Lemma fm_history_idle_frames :
  phase1_ (fst (after_samples rnd 8 s1 0)) = 0.025 /\
  phase2_ (fst (after_samples rnd 8 s1 0)) = 0.75 /\
  parameters (fst (after_samples rnd 8 s1 0)) = parameters s1.
Proof.
  destruct (idle_free_run rnd 8 s1 0) as [P1 P2];
    try (unfold s1; synth_eval; try reflexivity; simpl INR; lra).
  split; [| split].
  - rewrite P1. unfold s1. synth_eval. simpl INR. lra.
  - rewrite P2. unfold s1. synth_eval. simpl INR. lra.
  - apply after_samples_parameters.
Qed.

Let t7 : Synth :=
  setParameter k_param_fm_amount 100
    (setParameter k_param_pitch_curve 100 (setParameter k_param_pitch 40 s1)).

Lemma fm_history_note_parameters :
  attack_ t7 = 2 /\ pitch_ t7 = 40 /\ pitch_curve_ t7 = 1 /\
  decay_ t7 = 130 /\ osc2_decay_ t7 = 100 /\ osc2_enabled_ t7 = 1%Z /\
  fm_amount_ t7 = 1 /\ osc2_pitch_ t7 = 6 /\ fm_ratio_ t7 = 5.
Proof.
  unfold t7, s1. synth_eval. repeat apply conj; first [reflexivity | lra].
Qed.

Lemma fm_history_concrete_ranges :
  in_documented_ranges (setParameter k_param_pitch 150 fresh) /\
  in_documented_ranges
    (setParameter k_param_osc2_pitch 60 (setParameter k_param_pitch 150 fresh)) /\
  in_documented_ranges s1 /\
  in_documented_ranges (setParameter k_param_pitch 40 s1) /\
  in_documented_ranges
    (setParameter k_param_pitch_curve 100 (setParameter k_param_pitch 40 s1)) /\
  in_documented_ranges t7.
Proof.
  unfold t7, s1.
  split; [concrete_ranges |]. split; [concrete_ranges |]. split; [concrete_ranges |].
  split; [concrete_ranges |]. split; [concrete_ranges | concrete_ranges].
Qed.

(* The note of [fm_history], from any object that has the phases and the
   parameters the first four events leave. *)
Lemma fm_history_note (a : Synth) (k : nat) :
  phase1_ a = 0.025 -> phase2_ a = 0.75 -> parameters a = parameters s1 ->
  let s5 := setParameter k_param_pitch 40 a in
  let s6 := setParameter k_param_pitch_curve 100 s5 in
  let s7 := setParameter k_param_fm_amount 100 s6 in
  let s8 := NoteOn 36 127 s7 in
  (in_documented_ranges s5 /\ in_documented_ranges s6 /\ in_documented_ranges s7 /\
   in_documented_ranges s8 /\
   in_documented_ranges (fst (after_samples rnd 13 s8 k))) /\
  phase1_ (fst (after_samples rnd 13 s8 k)) < 0.
Proof.
  intros Q1 Q2 Hpar s5 s6 s7 s8.
  destruct fm_history_concrete_ranges as (_ & _ & _ & R5 & R6 & R7).
  assert (Hpar5 : parameters (setParameter k_param_pitch 40 s1) = parameters s5).
  { apply setParameter_parameters. symmetry. exact Hpar. }
  assert (Hpar6 : parameters (setParameter k_param_pitch_curve 100
                                (setParameter k_param_pitch 40 s1)) = parameters s6).
  { apply setParameter_parameters. exact Hpar5. }
  assert (Hpar7 : parameters t7 = parameters s7).
  { apply setParameter_parameters. exact Hpar6. }
  assert (Hpar8 : parameters t7 = parameters s8).
  { rewrite Hpar7. symmetry. apply NoteOn_parameters. }
  assert (Hph : phases s8 = phases a).
  { unfold s8, s7, s6, s5. rewrite NoteOn_phases, !setParameter_phases. reflexivity. }
  assert (E1 : phase1_ s8 = 0.025).
  { rewrite <- Q1. apply (f_equal (fun x => fst (fst x)) Hph). }
  assert (E2 : phase2_ s8 = 0.75).
  { rewrite <- Q2. apply (f_equal (fun x => snd (fst x)) Hph). }
  destruct (NoteOn_envelope_start 36 127 s7) as (N1 & N2 & _).
  destruct (NoteOn_aux_envelopes 36 127 s7) as (N3 & N4 & _).
  fold s8 in N1, N2, N3, N4.
  clearbody s8 s7 s6 s5.
  split.
  - split; [exact (in_documented_ranges_parameters _ _ Hpar5 R5) |].
    split; [exact (in_documented_ranges_parameters _ _ Hpar6 R6) |].
    split; [exact (in_documented_ranges_parameters _ _ Hpar7 R7) |].
    split; [exact (in_documented_ranges_parameters _ _ Hpar8 R7) |].
    apply (in_documented_ranges_parameters s8).
    + symmetry. apply after_samples_parameters.
    + exact (in_documented_ranges_parameters _ _ Hpar8 R7).
  - pose proof (parameters_fields _ _ Hpar8) as F.
    destruct F as (Fp & Fd & _ & _ & Fa & _ & Fc & _ & _ & _ & _ & _ & _ & _ & _ & Fen & _
                   & Fo & _ & Ff & Fr & Fod).
    destruct fm_history_note_parameters as (Ta & Tp & Tc & Td & Tod & Ten & Tf & To & Tr).
    pose proof (fm_descent rnd 13 s8 k) as D.
    rewrite <- Fa, <- Fp, <- Fc, <- Fd, <- Fod, <- Fen, <- Ff, <- Fo, <- Fr in D.
    rewrite N2, N3, N4, E1, E2 in D.
    assert (G : phase1_ (fst (after_samples rnd 13 s8 k)) <= 0.025 - INR 13 * 0.002).
    { apply D; try assumption; simpl INR; lra. }
    simpl INR in G. lra.
Qed.
End FmHistory.

(** C6, at a failing input.  Every parameter stays inside its documented
    range: from the constructed object, pitch 150 Hz with the modulator at
    30 times the pitch for eight frames (body phase 0.025, osc2 phase 0.75),
    then pitch 40 Hz, pitch curve 100 %, FM amount 100 %, a note-on and
    thirteen frames.  The body frequency is then negative at every sample,
    the wrap only handles values of 1 and more, and the body phase ends
    below 0, whatever std::rand returns. *)
Theorem C6_body_phase_below_zero (rnd : nat -> Z) :
  stays_in_ranges rnd fm_history (fresh, 0%nat) /\
  phase1_ (fst (run rnd fm_history (fresh, 0%nat))) < 0.
Proof.
  unfold fm_history.
  rewrite !run_cons, run_nil, !stays_in_ranges_cons, stays_in_ranges_nil.
  rewrite !apply_event_setParameter, apply_event_Render.
  rewrite (surjective_pairing (after_samples rnd 8 _ 0)).
  rewrite !apply_event_setParameter, apply_event_NoteOn, apply_event_Render.
  rewrite !fst_pair.
  destruct (fm_history_idle_frames rnd) as (Q1 & Q2 & Hpar).
  destruct fm_history_concrete_ranges as (R1 & R2 & R3 & _).
  destruct (fm_history_note rnd _ (snd (after_samples rnd 8
              (setParameter k_param_fm_ratio 50
                 (setParameter k_param_osc2_pitch 60
                    (setParameter k_param_pitch 150 fresh))) 0)) Q1 Q2 Hpar)
    as ((R5 & R6 & R7 & R8 & R9) & Hneg).
  split; [| exact Hneg].
  split; [exact R1 |]. split; [exact R2 |]. split; [exact R3 |].
  split; [exact (in_documented_ranges_parameters _ _ (eq_sym Hpar) R3) |].
  split; [exact R5 |]. split; [exact R6 |]. split; [exact R7 |].
  split; [exact R8 |]. split; [exact R9 | exact I].
Qed.

(** * The binary32 embedding: a history that ends in NaN *)

Ltac f32_views :=
  unfold F32.process, F32.complete, F32.phase1_next, F32.mix, F32.last_noise_next,
    F32.count_next, F32.body, F32.osc2_out, F32.click, F32.click_source, F32.wave2,
    F32.fm_offset, F32.clicking, F32.fm_active, F32.current_pitch, F32.phase2_next,
    F32.click_phase_next, F32.click_envelope_next, F32.osc2_envelope_next,
    F32.pitch_envelope_next, F32.running_next.

Lemma f32_process_complete (sinf tanhf : F32.f32 -> F32.f32) (rnd : nat -> Z)
    (s : Synth_ F32.f32) (k : nat) :
  F32.process sinf tanhf rnd s k
  = F32.complete s (F32.phase1_next sinf s) (F32.mix sinf tanhf rnd s k)
      (F32.last_noise_next sinf rnd s k) (F32.count_next sinf rnd s k).
Proof. f32_views. cbv zeta. reflexivity. Qed.

(** ** Zero in binary32 *)

Lemma fmul_finite_zero (x : F32.f32) :
  F32.is_finite x = true -> exists sg, F32.fmul x F32.zero = S754_zero sg.
Proof.
  destruct x as [sx | sx | | sx m e]; intros H; try discriminate H.
  - exists (xorb sx false). reflexivity.
  - exists (xorb sx false). reflexivity.
Qed.

Lemma fadd_zero_absorbed (sg : bool) (y : F32.f32) :
  F32.absorbs_zero y = true -> F32.fadd (S754_zero sg) y = y.
Proof.
  destruct y as [[|] | sy | | sy m e]; intros H; try discriminate H;
    destruct sg; reflexivity.
Qed.

(** ** What process takes from std::sin, std::tanh, std::rand and the click history *)

Lemma f32_complete_forget (s : Synth_ F32.f32) (v phase1 out ln ln' : F32.f32) (k2 : nat) :
  fst (fst (F32.complete (set_last_noise_ v s) phase1 out ln k2))
  = fst (fst (F32.complete s phase1 out ln' k2)) /\
  F32.forget (snd (fst (F32.complete (set_last_noise_ v s) phase1 out ln k2)))
  = F32.forget (snd (fst (F32.complete s phase1 out ln' k2))) /\
  snd (F32.complete (set_last_noise_ v s) phase1 out ln k2)
  = snd (F32.complete s phase1 out ln' k2).
Proof.
  f32_views. unfold F32.forget. cbv zeta. synth_simpl. repeat split; reflexivity.
Qed.

Lemma f32_complete_filter_off (s : Synth_ F32.f32) (v phase1 out out' ln ln' : F32.f32)
    (k2 : nat) :
  filter_enabled_ s = false ->
  F32.forget (snd (fst (F32.complete (set_last_noise_ v s) phase1 out ln k2)))
  = F32.forget (snd (fst (F32.complete s phase1 out' ln' k2))) /\
  snd (F32.complete (set_last_noise_ v s) phase1 out ln k2)
  = snd (F32.complete s phase1 out' ln' k2).
Proof.
  intros H. f32_views. unfold F32.forget. cbv zeta. synth_simpl. rewrite H.
  split; reflexivity.
Qed.

Section F32Steps.
Variables sinf tanhf : F32.f32 -> F32.f32.
Variable rnd : nat -> Z.
Hypothesis sinf_finite : forall x, F32.is_finite x = true -> F32.is_finite (sinf x) = true.

Lemma f32_wave2_plain (s : Synth_ F32.f32) (k : nat) :
  F32.wave_plain s = true ->
  F32.wave2 sinf rnd s k = F32.wave2 F32.sinf0 F32.rnd0 s k.
Proof.
  unfold F32.wave_plain, F32.wave2, F32.osc2_wave.
  unfold k_wave_sine, k_wave_saw, k_wave_triangle, k_wave_pulse, k_wave_noise.
  intros H.
  destruct (Z.eqb_spec (osc2_enabled_ s) 0) as [E0 | E0]; [reflexivity |].
  cbn [negb orb] in *.
  destruct (Z.eqb_spec (osc2_waveform_ s) 1) as [E1 | E1]; [rewrite E1; reflexivity |].
  destruct (Z.eqb_spec (osc2_waveform_ s) 2) as [E2 | E2]; [rewrite E2; reflexivity |].
  destruct (Z.eqb_spec (osc2_waveform_ s) 3) as [E3 | E3]; [rewrite E3; reflexivity |].
  discriminate H.
Qed.

Lemma f32_phase1_fm_off (s : Synth_ F32.f32) (v : F32.f32) :
  F32.fm_off s = true ->
  F32.phase1_next sinf (set_last_noise_ v s) = F32.phase1_next F32.sinf0 s.
Proof.
  unfold F32.fm_off. intros H. apply negb_true_iff in H.
  unfold F32.phase1_next, F32.fm_offset.
  change (F32.fm_active (set_last_noise_ v s)) with (F32.fm_active s).
  rewrite H. reflexivity.
Qed.

Lemma f32_count_plain (s : Synth_ F32.f32) (v : F32.f32) (k : nat) :
  F32.wave_plain s = true ->
  F32.count_next sinf rnd (set_last_noise_ v s) k = F32.count_next F32.sinf0 F32.rnd0 s k.
Proof.
  intros H. unfold F32.count_next.
  change (F32.clicking (set_last_noise_ v s)) with (F32.clicking s).
  change (F32.wave2 sinf rnd (set_last_noise_ v s) k) with (F32.wave2 sinf rnd s k).
  rewrite (f32_wave2_plain s k H). reflexivity.
Qed.

Lemma f32_mix_quiet (s : Synth_ F32.f32) (v : F32.f32) (k : nat) :
  F32.quiet s k = true ->
  F32.mix sinf tanhf rnd (set_last_noise_ v s) k
  = F32.mix F32.sinf0 F32.sinf0 F32.rnd0 s k.
Proof.
  unfold F32.quiet. intros H.
  repeat (apply andb_prop in H; let H' := fresh "Q" in destruct H as [H H']).
  rename H into Hfm. rename Q4 into Hwave. rename Q3 into Hdrive. rename Q2 into Hclick.
  rename Q1 into Hbody. rename Q0 into Harg. rename Q into Hosc.
  apply negb_true_iff in Hdrive, Hclick.
  assert (Hbl : body_level_ s = F32.zero).
  { destruct (body_level_ s) as [[|] | | | ]; try discriminate Hbody. reflexivity. }
  unfold F32.mix, F32.soft_clip.
  change (drive_ (set_last_noise_ v s)) with (drive_ s). rewrite Hdrive.
  unfold F32.click.
  change (F32.clicking (set_last_noise_ v s)) with (F32.clicking s). rewrite Hclick.
  assert (Eo : F32.osc2_out sinf rnd (set_last_noise_ v s) k
               = F32.osc2_out F32.sinf0 F32.rnd0 s k).
  { unfold F32.osc2_out.
    change (F32.wave2 sinf rnd (set_last_noise_ v s) k) with (F32.wave2 sinf rnd s k).
    rewrite (f32_wave2_plain s k Hwave). reflexivity. }
  rewrite Eo.
  unfold F32.body, F32.waveformSine.
  rewrite (f32_phase1_fm_off s v Hfm).
  change (body_level_ (set_last_noise_ v s)) with (body_level_ s). rewrite Hbl.
  destruct (fmul_finite_zero _ (sinf_finite _ Harg)) as [sg Esg].
  destruct (fmul_finite_zero (F32.sinf0 (F32.fmul (F32.phase1_next F32.sinf0 s) F32.k_twopi))
              eq_refl) as [sg0 Esg0].
  rewrite Esg, Esg0, !fadd_zero_absorbed by exact Hosc.
  reflexivity.
Qed.

(* One call of process that is quiet: the sample, the object up to its click
   history and the std::rand count do not depend on std::sin, std::tanh,
   std::rand or the click history. *)
Lemma f32_quiet_step (s : Synth_ F32.f32) (v : F32.f32) (k : nat) :
  F32.quiet s k = true ->
  fst (fst (F32.process sinf tanhf rnd (set_last_noise_ v s) k))
  = fst (fst (F32.process F32.sinf0 F32.sinf0 F32.rnd0 s k)) /\
  F32.forget (snd (fst (F32.process sinf tanhf rnd (set_last_noise_ v s) k)))
  = F32.forget (snd (fst (F32.process F32.sinf0 F32.sinf0 F32.rnd0 s k))) /\
  snd (F32.process sinf tanhf rnd (set_last_noise_ v s) k)
  = snd (F32.process F32.sinf0 F32.sinf0 F32.rnd0 s k).
Proof.
  intros H. rewrite !f32_process_complete.
  rewrite (f32_mix_quiet s v k H).
  unfold F32.quiet in H.
  repeat (apply andb_prop in H; let H' := fresh "Q" in destruct H as [H H']).
  rewrite (f32_phase1_fm_off s v H), (f32_count_plain s v k Q4).
  apply f32_complete_forget.
Qed.

(* One call of process with the filter off: the object up to its click
   history and the std::rand count do not depend on them either. *)
Lemma f32_silent_step (s : Synth_ F32.f32) (v : F32.f32) (k : nat) :
  F32.silent s = true ->
  F32.forget (snd (fst (F32.process sinf tanhf rnd (set_last_noise_ v s) k)))
  = F32.forget (snd (fst (F32.process F32.sinf0 F32.sinf0 F32.rnd0 s k))) /\
  snd (F32.process sinf tanhf rnd (set_last_noise_ v s) k)
  = snd (F32.process F32.sinf0 F32.sinf0 F32.rnd0 s k).
Proof.
  unfold F32.silent. intros H.
  apply andb_prop in H. destruct H as [H Hfilter].
  apply andb_prop in H. destruct H as [Hfm Hwave].
  apply negb_true_iff in Hfilter.
  rewrite !f32_process_complete.
  rewrite (f32_phase1_fm_off s v Hfm), (f32_count_plain s v k Hwave).
  apply f32_complete_filter_off. exact Hfilter.
Qed.

End F32Steps.

Lemma f32_forget_eq (s s0 : Synth_ F32.f32) :
  F32.forget s = F32.forget s0 -> s = set_last_noise_ (last_noise_ s) s0.
Proof.
  destruct s, s0. unfold F32.forget. synth_simpl.
  intros H. injection H as ->. intros. subst. reflexivity.
Qed.

Lemma f32_forget_NoteOn (note velocity : Z) (s s0 : Synth_ F32.f32) :
  F32.forget s = F32.forget s0 ->
  F32.forget (F32.NoteOn note velocity s) = F32.forget (F32.NoteOn note velocity s0).
Proof.
  intros H. rewrite (f32_forget_eq s s0 H). reflexivity.
Qed.

Lemma f32_forget_setParameter (index value : Z) (s s0 : Synth_ F32.f32) :
  F32.forget s = F32.forget s0 ->
  F32.forget (F32.setParameter index value s)
  = F32.forget (F32.setParameter index value s0).
Proof.
  intros H. rewrite (f32_forget_eq s s0 H).
  unfold F32.setParameter.
  repeat match goal with
         | |- context [if ?c then _ else _] => destruct c; [reflexivity |]
         end.
  reflexivity.
Qed.

Lemma last_two {A : Type} (l : list A) (a b d : A) : last (l ++ [a; b]) d = b.
Proof.
  replace (l ++ [a; b])%list with ((l ++ [a]) ++ [b])%list
    by (rewrite <- app_assoc; reflexivity).
  apply last_last.
Qed.

Section F32Simulation.
Variables sinf tanhf : F32.f32 -> F32.f32.
Variable rnd : nat -> Z.
Hypothesis sinf_finite : forall x, F32.is_finite x = true -> F32.is_finite (sinf x) = true.

Lemma f32_step_sim (s s0 : Synth_ F32.f32) (k : nat) :
  F32.forget s = F32.forget s0 ->
  F32.step_ok s0 k = true ->
  F32.forget (snd (fst (F32.process sinf tanhf rnd s k)))
  = F32.forget (snd (fst (F32.process F32.sinf0 F32.sinf0 F32.rnd0 s0 k))) /\
  snd (F32.process sinf tanhf rnd s k)
  = snd (F32.process F32.sinf0 F32.sinf0 F32.rnd0 s0 k).
Proof.
  intros Hs Hok. rewrite (f32_forget_eq s s0 Hs).
  unfold F32.step_ok in Hok. apply orb_prop in Hok. destruct Hok as [Hq | Hq].
  - apply (f32_quiet_step sinf tanhf rnd sinf_finite s0 (last_noise_ s) k Hq).
  - apply (f32_silent_step sinf tanhf rnd s0 (last_noise_ s) k Hq).
Qed.

Lemma f32_Render_sim (frames : nat) :
  forall (s s0 : Synth_ F32.f32) (k : nat),
    F32.forget s = F32.forget s0 ->
    F32.render_ok frames s0 k = true ->
    F32.forget (snd (fst (F32.Render sinf tanhf rnd frames s k)))
    = F32.forget (snd (fst (F32.Render F32.sinf0 F32.sinf0 F32.rnd0 frames s0 k))) /\
    snd (F32.Render sinf tanhf rnd frames s k)
    = snd (F32.Render F32.sinf0 F32.sinf0 F32.rnd0 frames s0 k).
Proof.
  induction frames as [| frames IH]; intros s s0 k Hs Hok.
  - split; [exact Hs | reflexivity].
  - cbn [F32.render_ok] in Hok. apply andb_prop in Hok. destruct Hok as [Hstep Hrest].
    destruct (f32_step_sim s s0 k Hs Hstep) as [Es Ek].
    cbn [F32.Render]. cbv zeta. cbn [fst snd].
    rewrite Ek. apply IH; [exact Es | exact Hrest].
Qed.

Lemma f32_run_sim (history : list F32.event) :
  forall (w w0 : Synth_ F32.f32 * nat * list F32.f32),
    F32.forget (fst (fst w)) = F32.forget (fst (fst w0)) ->
    snd (fst w) = snd (fst w0) ->
    F32.history_ok history w0 = true ->
    F32.forget (fst (fst (F32.run sinf tanhf rnd history w)))
    = F32.forget (fst (fst (F32.run F32.sinf0 F32.sinf0 F32.rnd0 history w0))) /\
    snd (fst (F32.run sinf tanhf rnd history w))
    = snd (fst (F32.run F32.sinf0 F32.sinf0 F32.rnd0 history w0)).
Proof.
  induction history as [| e history IH]; intros w w0 Hs Hk Hok.
  - split; [exact Hs | exact Hk].
  - cbn [F32.history_ok] in Hok. apply andb_prop in Hok. destruct Hok as [He Hrest].
    cbn [F32.run]. apply IH; [| | exact Hrest].
    + destruct e as [note velocity | index value | frames]; cbn [F32.apply_event fst snd].
      * apply f32_forget_NoteOn. exact Hs.
      * apply f32_forget_setParameter. exact Hs.
      * rewrite Hk. apply (f32_Render_sim frames _ _ _ Hs He).
    + destruct e as [note velocity | index value | frames]; cbn [F32.apply_event fst snd].
      * exact Hk.
      * exact Hk.
      * rewrite Hk. apply (f32_Render_sim frames _ _ _ Hs He).
Qed.

Lemma f32_run_app (h1 h2 : list F32.event) :
  forall w : Synth_ F32.f32 * nat * list F32.f32,
    F32.run sinf tanhf rnd (h1 ++ h2) w
    = F32.run sinf tanhf rnd h2 (F32.run sinf tanhf rnd h1 w).
Proof.
  induction h1 as [| e h1 IH]; intros w; [reflexivity |].
  cbn [F32.run app]. apply IH.
Qed.

(* The sample of a last, quiet frame. *)
Lemma f32_last_frame (history : list F32.event) (w0 : Synth_ F32.f32 * nat * list F32.f32) :
  F32.history_ok history w0 = true ->
  F32.quiet (fst (fst (F32.run F32.sinf0 F32.sinf0 F32.rnd0 history w0)))
            (snd (fst (F32.run F32.sinf0 F32.sinf0 F32.rnd0 history w0))) = true ->
  last (snd (F32.run sinf tanhf rnd (history ++ [F32.ev_Render 1]) w0)) F32.zero
  = fst (fst (F32.process F32.sinf0 F32.sinf0 F32.rnd0
                (fst (fst (F32.run F32.sinf0 F32.sinf0 F32.rnd0 history w0)))
                (snd (fst (F32.run F32.sinf0 F32.sinf0 F32.rnd0 history w0))))).
Proof.
  intros Hok Hq.
  destruct (f32_run_sim history w0 w0 eq_refl eq_refl Hok) as [Es Ek].
  rewrite f32_run_app. cbn [F32.run F32.apply_event F32.Render]. cbv zeta. cbn [fst snd].
  rewrite last_two.
  rewrite Ek, (f32_forget_eq _ _ Es).
  apply (f32_quiet_step sinf tanhf rnd sinf_finite _ _ _ Hq).
Qed.

End F32Simulation.

(** C1 (binary32): with the arithmetic of the float type, whatever finite
    values std::sin returns on finite arguments and whatever std::tanh and
    std::rand return, a history of setParameter calls with values inside the
    documented ranges, one NoteOn and Render calls ends with a sample that is
    NaN, hence not inside [-1, 1]: body, drive and click level at 0 %, the
    second oscillator a pulse at full level, the filter on in 24 dB mode, and
    cutoff and resonance switched between (10 %, 60 %) and (100 %, 100 %)
    before every frame.  The filter state grows until it overflows, and
    neither comparison of the final limiter holds for NaN. *)
Theorem C1_Render_writes_NaN :
  forall (sinf tanhf : F32.f32 -> F32.f32) (rnd : nat -> Z),
    (forall x, F32.is_finite x = true -> F32.is_finite (sinf x) = true) ->
    forallb F32.event_in_range F32.nan_history = true /\
    F32.is_nan
      (last (snd (F32.run sinf tanhf rnd F32.nan_history (F32.fresh, 0%nat, [])))
            F32.zero) = true /\
    F32.in_unit_range
      (last (snd (F32.run sinf tanhf rnd F32.nan_history (F32.fresh, 0%nat, [])))
            F32.zero) = false.
Proof.
  intros sinf tanhf rnd Hsin.
  split; [vm_compute; reflexivity |].
  assert (Eh : F32.nan_history = removelast F32.nan_history ++ [F32.ev_Render 1])
    by (vm_compute; reflexivity).
  rewrite Eh.
  rewrite (f32_last_frame sinf tanhf rnd Hsin (removelast F32.nan_history)
             (F32.fresh, 0%nat, [])).
  - split; vm_compute; reflexivity.
  - vm_compute; reflexivity.
  - vm_compute; reflexivity.
Qed.

(** The theorem above with std::sin, std::tanh and std::rand returning 0. *)
Lemma C1_Render_writes_NaN_witness :
  (forall x, F32.is_finite x = true -> F32.is_finite (F32.sinf0 x) = true) /\
  F32.is_nan
    (last (snd (F32.run F32.sinf0 F32.sinf0 F32.rnd0 F32.nan_history
                  (F32.fresh, 0%nat, []))) F32.zero) = true.
Proof.
  split; [intros x _; reflexivity |].
  apply (proj1 (proj2 (C1_Render_writes_NaN F32.sinf0 F32.sinf0 F32.rnd0
                         (fun x _ => eq_refl)))).
Defined.

Lemma f32_one_repr : F32.one = S754_finite false 8388608 (-23).
Proof. reflexivity. Qed.

Lemma f32_minus_one_repr : F32.minus_one = S754_finite true 8388608 (-23).
Proof. reflexivity. Qed.

(* The limiter on a number that is not NaN. *)
Lemma f32_hard_limit_number (x : F32.f32) :
  F32.is_nan x = false -> F32.in_unit_range (F32.hard_limit x) = true.
Proof.
  destruct x as [sg | sg | | sg m e]; intros Hx.
  - destruct sg; reflexivity.
  - destruct sg; reflexivity.
  - discriminate Hx.
  - unfold F32.hard_limit, F32.in_unit_range, F32.fgt, F32.flt, F32.fle, SFltb, SFleb.
    rewrite f32_one_repr, f32_minus_one_repr.
    cbv beta iota zeta delta [SFcompare].
    unfold Pos.compare.
    pose proof (Z.compare_antisym e (-23)) as Ae.
    pose proof (eq_sym (Pos.compare_cont_antisym m 8388608 Eq)) as Am.
    destruct (e ?= -23)%Z eqn:Ee; destruct (Pos.compare_cont Eq m 8388608) eqn:Em;
      rewrite ?Ee in Ae; rewrite ?Em in Am; cbn [CompOpp] in Ae, Am; destruct sg;
      repeat (progress (cbv beta iota delta [CompOpp]; rewrite ?Ae, ?Am, ?Ee, ?Em)); reflexivity.
Qed.

(* The limiter lets NaN through. *)
Lemma f32_hard_limit_nan (x : F32.f32) :
  F32.is_nan (F32.hard_limit x) = F32.is_nan x.
Proof.
  unfold F32.hard_limit. cbv zeta.
  destruct (F32.fgt x F32.one) eqn:E1.
  - assert (E : F32.flt F32.one F32.minus_one = false) by reflexivity.
    rewrite E. destruct x; try reflexivity. vm_compute in E1. discriminate E1.
  - destruct (F32.flt x F32.minus_one) eqn:E2; [| reflexivity].
    destruct x; try reflexivity. vm_compute in E2. discriminate E2.
Qed.

Section F32Render.
Variables sinf tanhf : F32.f32 -> F32.f32.
Variable rnd : nat -> Z.

Lemma f32_process_sample (s : Synth_ F32.f32) (k : nat) :
  F32.is_nan (fst (fst (F32.process sinf tanhf rnd s k))) = true \/
  F32.in_unit_range (fst (fst (F32.process sinf tanhf rnd s k))) = true.
Proof.
  rewrite f32_process_complete. unfold F32.complete. cbv zeta. cbn [fst].
  match goal with
  | |- context [F32.hard_limit ?X] => destruct (F32.is_nan X) eqn:E
  end.
  - left. rewrite f32_hard_limit_nan. exact E.
  - right. apply f32_hard_limit_number. exact E.
Qed.

Lemma f32_Render_length (frames : nat) :
  forall s k,
    List.length (fst (fst (F32.Render sinf tanhf rnd frames s k))) = (2 * frames)%nat.
Proof.
  induction frames as [| n IH]; intros s k; [reflexivity |].
  cbn [F32.Render fst snd List.length]. rewrite IH. lia.
Qed.

Lemma f32_Render_frame (frames : nat) :
  forall s k i, (i < frames)%nat ->
    let buf := fst (fst (F32.Render sinf tanhf rnd frames s k)) in
    nth (2 * i) buf F32.zero = nth (2 * i + 1) buf F32.zero /\
    (F32.is_nan (nth (2 * i) buf F32.zero) = true \/
     F32.in_unit_range (nth (2 * i) buf F32.zero) = true).
Proof.
  induction frames as [| n IH]; intros s k i Hi; [lia |].
  cbn zeta. cbn [F32.Render fst snd].
  destruct i as [| i].
  - cbn [Nat.mul Nat.add nth]. split; [reflexivity | apply f32_process_sample].
  - replace (2 * S i)%nat with (S (S (2 * i))) by lia.
    replace (S (S (2 * i)) + 1)%nat with (S (S (2 * i + 1))) by lia.
    cbn [nth]. apply IH. lia.
Qed.

(** Render in binary32: whatever the object holds and whatever std::sin,
    std::tanh and std::rand return, Render writes 2 * frames values, the
    left and the right value of a frame are the same float, and that float
    is either NaN or inside [-1, 1]. *)
Theorem Render_stereo_bounded_or_NaN (frames : nat) (s : Synth_ F32.f32) (k : nat) :
  let buf := fst (fst (F32.Render sinf tanhf rnd frames s k)) in
  List.length buf = (2 * frames)%nat /\
  forall i, (i < frames)%nat ->
    nth (2 * i) buf F32.zero = nth (2 * i + 1) buf F32.zero /\
    (F32.is_nan (nth (2 * i) buf F32.zero) = true \/
     F32.in_unit_range (nth (2 * i) buf F32.zero) = true).
Proof.
  cbv zeta. split; [apply f32_Render_length |].
  intros i Hi. apply (f32_Render_frame frames s k i Hi).
Qed.

End F32Render.

(** ** The phases while the parameters are in range *)

Lemma waveformSine_bound (p : R) : -1 <= waveformSine p <= 1.
Proof. unfold waveformSine. apply SIN_bound. Qed.

Lemma process_phases_regular (rnd : nat -> Z) (s : Synth) (k : nat) :
  in_documented_ranges s -> phases_regular s ->
  phases_regular (snd (fst (process rnd s k))).
Proof.
  intros Hr (H1 & H2 & H3 & Hpe & Hoe).
  apply documented_bounds in Hr.
  destruct Hr as (Hpitch & Hdecay & _ & _ & _ & _ & Hcurve & _ & Hcf & _ & _ & _ & _ & _ & _
                  & Hop & _ & Hfa & Hfr & Hod).
  assert (Hpn : 0 <= pitch_envelope_next s <= 1).
  { unfold pitch_envelope_next. destruct (running_next s); [| exact Hpe].
    pose proof (decay_envelope_range _ (decay_ s) ltac:(lra) Hpe). lra. }
  assert (Hon : 0 <= osc2_envelope_next s <= 1).
  { unfold osc2_envelope_next. destruct (running_next s); [| exact Hoe].
    pose proof (decay_envelope_range _ (osc2_decay_ s) ltac:(lra) Hoe). lra. }
  assert (Hcp : 0 <= current_pitch s <= 150).
  { unfold current_pitch.
    assert (0 <= pitch_envelope_next s * pitch_curve_ s <= 1) by nra. nra. }
  assert (Hfo : -100 <= fm_offset s <= 100).
  { unfold fm_offset. destruct (fm_active s); [| lra].
    pose proof (waveformSine_bound (phase2_ s)) as Hs.
    assert (0 <= fm_amount_ s * osc2_envelope_next s <= 1) by nra.
    replace (waveformSine (phase2_ s) * fm_amount_ s * osc2_envelope_next s * 100)
      with (waveformSine (phase2_ s) * (fm_amount_ s * osc2_envelope_next s) * 100) by ring.
    nra. }
  assert (Hof : 0 <= osc2_frequency s <= 4500).
  { unfold osc2_frequency.
    assert (0 <= current_pitch s * osc2_pitch_ s <= 900) by nra. nra. }
  unfold phases_regular.
  rewrite process_phase1, process_phase2, process_click_phase, process_pitch_envelope,
    process_osc2_envelope.
  unfold body_frequency, k_samplerate.
  split; [apply advance_phase_below_one; lra |].
  split; [apply advance_phase_range; [exact H2 | lra] |].
  split; [apply advance_phase_range; [exact H3 | lra] |].
  split; [exact Hpn | exact Hon].
Qed.

Lemma after_samples_phases_regular (rnd : nat -> Z) (n : nat) :
  forall s k, in_documented_ranges s -> phases_regular s ->
    phases_regular (fst (after_samples rnd n s k)).
Proof.
  induction n as [| n IH]; intros s k Hr Hp; [exact Hp |].
  rewrite after_samples_S. apply IH.
  - apply (in_documented_ranges_parameters s); [| exact Hr].
    symmetry. apply process_parameters.
  - apply process_phases_regular; assumption.
Qed.

Lemma NoteOn_phases_regular (note velocity : Z) (s : Synth) :
  phases_regular s -> phases_regular (NoteOn note velocity s).
Proof.
  intros (H1 & H2 & H3 & _ & _). unfold phases_regular.
  change (phase1_ (NoteOn note velocity s)) with (phase1_ s).
  change (phase2_ (NoteOn note velocity s)) with (phase2_ s).
  change (click_phase_ (NoteOn note velocity s)) with (click_phase_ s).
  change (pitch_envelope_ (NoteOn note velocity s)) with 1.
  change (osc2_envelope_ (NoteOn note velocity s)) with 1.
  repeat split; try assumption; lra.
Qed.

Lemma NoteOff_phases_regular (note : Z) (s : Synth) :
  phases_regular s -> phases_regular (NoteOff note s).
Proof. intros H. unfold NoteOff. case_ifs; exact H. Qed.

Lemma setParameter_phases_regular (index value : Z) (s : Synth) :
  phases_regular s -> phases_regular (setParameter index value s).
Proof. intros H. unfold setParameter. case_ifs; exact H. Qed.

Lemma LoadPreset_phases_regular (index : Z) (s : Synth) :
  phases_regular s -> phases_regular (LoadPreset index s).
Proof. intros H. unfold LoadPreset. case_ifs; exact H. Qed.

Lemma reset_phases_regular (s : Synth) : phases_regular (reset s).
Proof.
  unfold phases_regular.
  change (phase1_ (reset s)) with 0. change (phase2_ (reset s)) with 0.
  change (click_phase_ (reset s)) with 0. change (pitch_envelope_ (reset s)) with 0.
  change (osc2_envelope_ (reset s)) with 0. lra.
Qed.

Lemma fresh_phases_regular : phases_regular fresh.
Proof.
  unfold phases_regular. synth_eval. lra.
Qed.

Lemma apply_event_phases_regular (rnd : nat -> Z) (e : event) (w : Synth * nat) :
  in_documented_ranges (fst (apply_event rnd e w)) -> phases_regular (fst w) ->
  phases_regular (fst (apply_event rnd e w)).
Proof.
  intros Hr Hp. destruct e; cbn [apply_event fst] in *.
  - apply NoteOn_phases_regular; exact Hp.
  - apply NoteOff_phases_regular; exact Hp.
  - apply NoteOn_phases_regular; exact Hp.
  - apply NoteOff_phases_regular; exact Hp.
  - apply NoteOff_phases_regular; exact Hp.
  - apply setParameter_phases_regular; exact Hp.
  - apply LoadPreset_phases_regular; exact Hp.
  - apply reset_phases_regular.
  - apply after_samples_phases_regular; [| exact Hp].
    apply (in_documented_ranges_parameters _ _ (after_samples_parameters rnd frames _ _) Hr).
Qed.

Lemma run_phases_regular (rnd : nat -> Z) (history : list event) :
  forall w, phases_regular (fst w) -> stays_in_ranges rnd history w ->
    phases_regular (fst (run rnd history w)).
Proof.
  induction history as [| e history IH]; intros w Hp Hr; [exact Hp |].
  destruct Hr as [Hr Hrest]. rewrite run_cons.
  apply IH; [apply apply_event_phases_regular; assumption | exact Hrest].
Qed.

(** The secondary-oscillator phase and the click phase are in [0, 1), and
    the body phase is below 1, after every history of events from
    construction on that keeps the parameters inside the documented
    ranges. *)
Theorem phases_in_range_but_body_below (rnd : nat -> Z) (history : list event) :
  stays_in_ranges rnd history (fresh, 0%nat) ->
  let s := fst (run rnd history (fresh, 0%nat)) in
  0 <= phase2_ s < 1 /\ 0 <= click_phase_ s < 1 /\ phase1_ s < 1.
Proof.
  intros Hr. cbv zeta.
  destruct (run_phases_regular rnd history (fresh, 0%nat) fresh_phases_regular Hr)
    as (H1 & H2 & H3 & _).
  split; [exact H2 |]. split; [exact H3 | exact H1].
Qed.

(** The theorem above at a note-on followed by two frames. *)
Lemma phases_in_range_but_body_below_witness :
  let rnd := fun _ : nat => 0%Z in
  let history := [ev_NoteOn 36 100; ev_Render 2] in
  stays_in_ranges rnd history (fresh, 0%nat) /\
  (let s := fst (run rnd history (fresh, 0%nat)) in
   0 <= phase2_ s < 1 /\ 0 <= click_phase_ s < 1 /\ phase1_ s < 1).
Proof.
  intros rnd history.
  assert (H : stays_in_ranges rnd history (fresh, 0%nat)).
  { unfold history.
    rewrite !stays_in_ranges_cons, stays_in_ranges_nil.
    rewrite apply_event_NoteOn, apply_event_Render.
    assert (R1 : in_documented_ranges (NoteOn 36 100 fresh)) by concrete_ranges.
    split; [exact R1 |]. split; [| exact I].
    apply (in_documented_ranges_parameters (NoteOn 36 100 fresh)); [| exact R1].
    symmetry. apply after_samples_parameters. }
  split; [exact H | exact (phases_in_range_but_body_below rnd history H)].
Defined.

(** ** Parameters and presets in range *)






(** Each of the five presets overwrites the whole Parameter Set (the result
    does not depend on the parameters before), with values inside the
    documented ranges; it records its index and leaves the phases, the
    envelopes and the envelope state alone. *)
Theorem LoadPreset_overwrites_parameters (index : Z) (s t : Synth) :
  (0 <= index < unit_header_num_presets)%Z ->
  parameters (LoadPreset index s) = parameters (LoadPreset index t) /\
  in_documented_ranges (LoadPreset index s) /\
  getPresetIndex (LoadPreset index s) = index /\
  phases (LoadPreset index s) = phases s /\
  envelopes (LoadPreset index s) = envelopes s /\
  envelope_state_ (LoadPreset index s) = envelope_state_ s.
Proof.
  unfold unit_header_num_presets. intros H.
  assert (E : (index = 0 \/ index = 1 \/ index = 2 \/ index = 3 \/ index = 4)%Z) by lia.
  destruct E as [E | [E | [E | [E | E]]]]; subst index;
    (split; [synth_eval; reflexivity |]);
    (split; [concrete_ranges |]);
    repeat split; reflexivity.
Qed.

(** The theorem above at the preset FM Kick, from the constructed object
    and from the object after the preset Sub Bass. *)
Lemma LoadPreset_overwrites_parameters_witness :
  (0 <= 3 < unit_header_num_presets)%Z /\
  parameters (LoadPreset 3 fresh) = parameters (LoadPreset 3 (LoadPreset 2 fresh)) /\
  in_documented_ranges (LoadPreset 3 fresh) /\
  getPresetIndex (LoadPreset 3 fresh) = 3%Z.
Proof.
  assert (H : (0 <= 3 < unit_header_num_presets)%Z) by (unfold unit_header_num_presets; lia).
  destruct (LoadPreset_overwrites_parameters 3 fresh (LoadPreset 2 fresh) H)
    as (H1 & H2 & H3 & _).
  split; [exact H |]. split; [exact H1 |]. split; [exact H2 | exact H3].
Defined.

(** LoadPreset with an index that is none of the five presets changes the
    recorded preset index and nothing else. *)
Theorem LoadPreset_unknown_index (index : Z) (s : Synth) :
  (unit_header_num_presets <= index)%Z ->
  LoadPreset index s = set_preset_index_ index s /\
  parameters (LoadPreset index s) = parameters s /\
  phases (LoadPreset index s) = phases s /\
  envelopes (LoadPreset index s) = envelopes s /\
  envelope_state_ (LoadPreset index s) = envelope_state_ s /\
  getPresetIndex (LoadPreset index s) = index.
Proof.
  unfold unit_header_num_presets. intros H.
  rewrite (LoadPreset_unknown index s (or_intror H)).
  repeat split; reflexivity.
Qed.

(** The theorem above at index 200 on the constructed object. *)
Lemma LoadPreset_unknown_index_witness :
  (unit_header_num_presets <= 200)%Z /\
  parameters (LoadPreset 200 fresh) = parameters fresh /\
  getPresetIndex (LoadPreset 200 fresh) = 200%Z.
Proof.
  assert (H : (unit_header_num_presets <= 200)%Z) by (unfold unit_header_num_presets; lia).
  destruct (LoadPreset_unknown_index 200 fresh H) as (_ & H1 & _ & _ & _ & H2).
  split; [exact H |]. split; [exact H1 | exact H2].
Defined.

(** getParameterStrValue returns a waveform name exactly for the waveform
    parameter and a value whose low eight bits are below 5 (the name at
    that index), and the placeholder in every other case. *)
Theorem getParameterStrValue_cases (index value : Z) :
  (In (getParameterStrValue index value) s_waveform_names <->
   index = k_param_osc2_waveform /\ (value mod 256 < 5)%Z) /\
  (index = k_param_osc2_waveform /\ (value mod 256 < 5)%Z ->
   getParameterStrValue index value
   = nth (Z.to_nat (value mod 256)) s_waveform_names placeholder) /\
  (~ (index = k_param_osc2_waveform /\ (value mod 256 < 5)%Z) ->
   getParameterStrValue index value = placeholder).
Proof.
  assert (Hp : ~ In placeholder s_waveform_names).
  { cbn. intros [H | [H | [H | [H | [H | []]]]]]; discriminate H. }
  assert (Hm : (0 <= value mod 256 < 256)%Z) by (apply Z.mod_pos_bound; lia).
  unfold getParameterStrValue, to_uint8, k_num_waves.
  destruct (Z.eqb_spec index k_param_osc2_waveform) as [Ei | Ei];
    [destruct (Z.ltb_spec (value mod 256) 5) as [Ev | Ev] |]; cbv zeta.
  - assert (Hn : In (nth (Z.to_nat (value mod 256)) s_waveform_names placeholder)
                    s_waveform_names).
    { apply nth_In. cbn [List.length s_waveform_names]. lia. }
    split; [split; [intros _; split; assumption | intros _; exact Hn] |].
    split; [intros _; reflexivity | intros H; exfalso; apply H; split; assumption].
  - split; [split; [intros H; contradiction | intros [_ H]; lia] |].
    split; [intros [_ H]; lia | intros _; reflexivity].
  - split; [split; [intros H; contradiction | intros [H _]; contradiction] |].
    split; [intros [H _]; contradiction | intros _; reflexivity].
Qed.

(** ** Idle *)




(** Render changes neither the Parameter Set nor the recorded preset,
    note and velocity. *)
Theorem Render_keeps_parameters (rnd : nat -> Z) (frames : nat) (s : Synth) (k : nat) :
  parameters (snd (fst (Render rnd frames s k))) = parameters s /\
  preset_index_ (snd (fst (Render rnd frames s k))) = preset_index_ s /\
  current_note_ (snd (fst (Render rnd frames s k))) = current_note_ s /\
  current_velocity_ (snd (fst (Render rnd frames s k))) = current_velocity_ s.
Proof.
  revert s k. induction frames as [| n IH]; intros s k.
  - repeat split; reflexivity.
  - cbn [Render]. cbv zeta. cbn [fst snd].
    destruct (IH (snd (fst (process rnd s k))) (snd (process rnd s k)))
      as (H1 & H2 & H3 & H4).
    rewrite H1, H2, H3, H4. repeat split; reflexivity.
Qed.
